(** * The BigQuery storage-write sink of rp-connect-bq-stream

    A shallow embedding of [output/bq-stream.go] (the version with the
    reconnect wrapper): the sink record [gcpBigQueryOutput], its methods
    [Connect], [WriteBatch], [writeBatchWithRetry], [isReconnectableError],
    [reconnect] and [Close], and the properties of the connection
    life cycle and of the batch-write protocol; from the same file, the
    construction of the sink ([gcpBigQueryOutputConfigFromParsed],
    [newGCPBigQueryOutput], the constructor that [init] registers) and the
    [WriteBatch] of the earlier revision, which had no reconnect.

    The sink talks to three kinds of collaborators, modelled as follows.
    - Pure library functions (protojson, proto, the schema adapter) are the
      fields of the class [Libraries]; every result below holds for any
      instance of it.
    - Remote calls (client creation, metadata lookups, stream creation,
      append, acknowledgement) are answered by a [Remote], which may look
      at the whole history of the run before it answers.
    - Every call that leaves the sink, every operation on the mutex
      [connMut] and every store to a guarded field is recorded, in order,
      in a trace of [Event]s.
    The logger is purely observational and is left out, except that
    evaluating [g.client.Project()] for a log line dereferences the
    client and is kept as such. *)

From Stdlib Require Import ZArith String List Bool Lia.
From stdpp Require Import base option gmap strings list.

Open Scope string_scope.
Open Scope list_scope.
Open Scope Z_scope.

(** ** Errors *)

(** gRPC status codes ([google.golang.org/grpc/codes]). *)
Inductive Code : Type :=
| OK | Canceled | Unknown | InvalidArgument | DeadlineExceeded | NotFound
| AlreadyExists | PermissionDenied | ResourceExhausted | FailedPrecondition
| Aborted | OutOfRange | Unimplemented | Internal | Unavailable | DataLoss
| Unauthenticated.

(** An error value handed back by a library, seen through the observations
    the sink makes of it:
    - [grpcStatus]: [status.FromError(err)] answers [(s, true)] with
      [s.Code()] the given code, or [(_, false)] for [None];
    - [apiCause]: [apierror.FromError(err)] fails ([None]) or yields an API
      error whose [Unwrap()] is nil ([Some None]) or a cause;
    - [httpCode]: the error is a [*googleapi.Error] with that [Code];
    - [errText]: [err.Error()]. *)
#[warnings="-register-all"]
Inductive goError : Type :=
  GoError (grpcStatus : option Code) (apiCause : option (option goError))
          (httpCode : option Z) (errText : string).

Definition grpcStatus (e : goError) : option Code :=
  let 'GoError s _ _ _ := e in s.
Definition apiCause (e : goError) : option (option goError) :=
  let 'GoError _ a _ _ := e in a.
Definition httpCode (e : goError) : option Z :=
  let 'GoError _ _ h _ := e in h.
Definition errText (e : goError) : string :=
  let 'GoError _ _ _ t := e in t.

(** Go's [(value, error)] pair of a fallible library call. *)
Inductive Result (A : Type) : Type :=
| Ok (a : A)
| Err (e : goError).
Arguments Ok {A} a.
Arguments Err {A} e.

(** [strings.Contains(s, substr)]. *)
Fixpoint Contains (s substr : string) : bool :=
  String.prefix substr s ||
  match s with
  | EmptyString => false
  | String _ s' => Contains s' substr
  end.

(** The four status codes behind which a rebuilt stream is expected to
    help: the [case] lists of [isReconnectableError]. *)
Definition reconnectCode (c : Code) : bool :=
  match c with
  | Aborted | Unavailable | Internal | DeadlineExceeded => true
  | _ => false
  end.

(** [isReconnectableError]; the argument is [None] for a nil error. *)
Definition isReconnectableError (err : option goError) : bool :=
  match err with
  | None => false
  | Some err =>
    if match grpcStatus err with
       | Some c => reconnectCode c
       | None => false
       end
    then true
    else if match apiCause err with
            | Some (Some cause) =>
                match grpcStatus cause with
                | Some c => reconnectCode c
                | None => false
                end
            | _ => false
            end
    then true
    else
      let errStr := errText err in
      if Contains errStr "connection TTL" && Contains errStr "exceeded"
      then true
      else if Contains errStr "server_shutting_down" then true
      else false
  end.

(** The classification in the words of the specification: [sub] occurs in
    [s]; an error carries one of the four statuses; an error is
    reconnect-worthy. *)
Definition occursIn (sub s : string) : Prop :=
  exists pre post : string, s = (pre ++ sub ++ post)%string.

Definition carriesReconnectStatus (e : goError) : Prop :=
  exists c : Code,
    grpcStatus e = Some c /\
    (c = Aborted \/ c = Unavailable \/ c = Internal \/ c = DeadlineExceeded).

Definition reconnectWorthy (e : goError) : Prop :=
  carriesReconnectStatus e \/
  (exists cause : goError,
     apiCause e = Some (Some cause) /\ carriesReconnectStatus cause) \/
  (occursIn "connection TTL" (errText e) /\ occursIn "exceeded" (errText e)) \/
  occursIn "server_shutting_down" (errText e).

(** ** Configuration and library data *)

(** [gcpBigQueryOutputConfig]. *)
Record gcpBigQueryOutputConfig : Type := {
  ProjectID : string;
  DatasetID : string;
  TableID : string;
  AllowPartial : bool;
  DiscardUnknown : bool;
  CredentialsJSON : string
}.

(** The client options the sink builds ([google.golang.org/api/option]). *)
Inductive ClientOption : Type :=
| WithCredentialsJSON (json : string)
| WithoutAuthentication
| WithEndpoint (url : string)
| WithGRPCDialOption_WithInsecure.

Module protojson.
(** [protojson.UnmarshalOptions], the two fields the sink sets. *)
Record UnmarshalOptions : Type := {
  AllowPartial : bool;
  DiscardUnknown : bool
}.
End protojson.

Module http.
Definition StatusNotFound : Z := 404.
End http.

Module managedwriter.
(** The stream types of the storage write API. *)
Inductive StreamType : Type :=
| DefaultStream | CommittedStream | BufferedStream | PendingStream.

(** The offset reported for an append that named no explicit offset. *)
Definition NoStreamOffset : Z := -1.

(** [TableParentFromParts(projectID, datasetID, tableID)]. *)
Definition TableParentFromParts (projectID datasetID tableID : string)
  : string :=
  ("projects/" ++ projectID ++ "/datasets/" ++ datasetID
     ++ "/tables/" ++ tableID)%string.
End managedwriter.

(** Handles are pointers; a handle is identified by its address. *)
Record Client : Type := BQClient { clientAddr : nat }.
Record MWClient : Type := MWriterClient { mwClientAddr : nat }.
Record ManagedStream : Type := Stream { streamAddr : nat }.
Record AppendResult : Type := Pending { resultAddr : nat }.

Definition bytes : Type := list Byte.byte.

(** A message of the host framework, seen through [msg.AsBytes()]. *)
Record Message : Type := { AsBytes : Result bytes }.
Definition MessageBatch : Type := list Message.

(** The pure library functions the sink calls, over the library's own
    data: the schema adapter ([adapt]), [protojson] and [proto].
    [asMessageDescriptor] is the type assertion
    [descriptor.(protoreflect.MessageDescriptor)]; [Unmarshal] stands for
    [umo.Unmarshal(msgBytes, dynamicpb.NewMessage(md))] and yields the
    populated message. *)
Class Libraries : Type := {
  Schema : Type;
  TableSchema : Type;
  Descriptor : Type;
  MessageDescriptor : Type;
  DescriptorProto : Type;
  DynamicMessage : Type;
  BQSchemaToStorageTableSchema : Schema -> Result TableSchema;
  StorageSchemaToProto2Descriptor : TableSchema -> string -> Result Descriptor;
  asMessageDescriptor : Descriptor -> option MessageDescriptor;
  NormalizeDescriptor : MessageDescriptor -> Result DescriptorProto;
  Unmarshal : protojson.UnmarshalOptions -> option MessageDescriptor ->
              bytes -> Result DynamicMessage;
  Marshal : DynamicMessage -> Result bytes
}.

(** ** The framework's batch error and the sink's own errors *)

Module service.
(** [*service.BatchError]: a headline error and an index-keyed map of the
    failures of single messages of the batch. *)
Record BatchError : Type := {
  headline : goError;
  partErrors : gmap nat goError
}.

Definition NewBatchError (batch : MessageBatch) (err : goError)
  : BatchError :=
  {| headline := err; partErrors := ∅ |}.

Definition Failed (idx : nat) (err : goError) (b : BatchError)
  : BatchError :=
  {| headline := headline b; partErrors := <[idx := err]> (partErrors b) |}.

Definition IndexedErrors (b : BatchError) : nat := size (partErrors b).
End service.

(** The values of Go type [error] that the sink returns: a library error
    passed on as it is, the framework's [service.ErrNotConnected], an error
    built by [fmt.Errorf] (kept as the format and its arguments, [%w]
    arguments being errors), or a batch error. *)
Inductive error : Type :=
| ErrLib (e : goError)
| ErrNotConnected
| Errorf (format : string) (args : list fmtArg)
| ErrBatch (b : service.BatchError)
with fmtArg : Type :=
| ArgInt (n : Z)
| ArgString (s : string)
| ArgError (e : error).

(** Handles held by the sink, for the accounting of what is open. *)
Inductive Handle : Type :=
| HClient (c : Client)
| HMWClient (c : MWClient)
| HStream (ms : ManagedStream).

#[global] Instance Client_eq_dec : EqDecision Client.
Proof. solve_decision. Defined.
#[global] Instance MWClient_eq_dec : EqDecision MWClient.
Proof. solve_decision. Defined.
#[global] Instance ManagedStream_eq_dec : EqDecision ManagedStream.
Proof. solve_decision. Defined.
#[global] Instance Handle_eq_dec : EqDecision Handle.
Proof. solve_decision. Defined.

(** ** Outcomes *)

(** A call returns a value, panics (a nil dereference), or finds the
    recursion budget of [writeBatchWithRetry] spent, which
    [writeBatchWithRetry_unfold] shows never to be the case. *)
Inductive Outcome (A : Type) : Type :=
| Returns (a : A)
| Panics
| OutOfFuel.
Arguments Returns {A} a.
Arguments Panics {A}.
Arguments OutOfFuel {A}.

(** ** The sink, the trace and the remote side *)

Section Sink.
Context `{Libraries}.

(** [gcpBigQueryOutput]. Pointers and interface values are options, [None]
    being nil. The mutex [connMut] has no field of its own: its operations
    are events of the trace. The URL fields name a test endpoint, empty in
    production. *)
Record gcpBigQueryOutput : Type := {
  conf : gcpBigQueryOutputConfig;
  clientURL : string;
  mwClientURL : string;
  client : option Client;
  mwClient : option MWClient;
  managedStream : option ManagedStream;
  messageDescriptor : option MessageDescriptor;
  descriptorProto : option DescriptorProto;
  umo : protojson.UnmarshalOptions
}.

(** The fields guarded by [connMut], as named in stores. *)
Inductive Field : Type :=
| Fclient | FmwClient | FmanagedStream | FmessageDescriptor
| FdescriptorProto.

(** What the sink does that can be seen from outside it. A remote call is
    recorded with its arguments and with the answer it got. *)
Inductive Event : Type :=
| EvLock | EvUnlock | EvRLock | EvRUnlock
| EvStore (f : Field)
| EvBQNewClient (projectID : string) (opts : list ClientOption)
    (r : Result Client)
| EvMWNewClient (projectID : string) (opts : list ClientOption)
    (r : Result MWClient)
| EvDatasetMetadata (c : Client) (projectID datasetID : string)
    (r : Result unit)
| EvTableMetadata (c : Client) (projectID datasetID tableID : string)
    (r : Result Schema)
| EvNewManagedStream (c : MWClient) (destinationTable : string)
    (ty : managedwriter.StreamType) (dp : option DescriptorProto)
    (r : Result ManagedStream)
| EvClientClose (c : Client)
| EvMWClientClose (c : MWClient)
| EvStreamClose (ms : ManagedStream)
| EvAsBytes (idx : nat)
| EvUnmarshal (idx : nat)
| EvMarshal (idx : nat)
| EvAppendRows (ms : ManagedStream) (rows : list bytes)
    (r : Result AppendResult)
| EvGetResult (a : AppendResult) (r : Result Z)
| EvSleep (seconds : Z).

(** The remote side: the answer to each remote call, given the history of
    the run so far and the arguments of the call. *)
Record Remote : Type := {
  bigquery_NewClient :
    list Event -> string -> list ClientOption -> Result Client;
  managedwriter_NewClient :
    list Event -> string -> list ClientOption -> Result MWClient;
  Dataset_Metadata :
    list Event -> Client -> string -> string -> Result unit;
  Table_Metadata :
    list Event -> Client -> string -> string -> string -> Result Schema;
  Client_NewManagedStream :
    list Event -> MWClient -> string -> managedwriter.StreamType ->
    option DescriptorProto -> Result ManagedStream;
  ManagedStream_AppendRows :
    list Event -> ManagedStream -> list bytes -> Result AppendResult;
  AppendResult_GetResult :
    list Event -> AppendResult -> Result Z
}.

Variable R : Remote.

(** ** Computations of the sink *)

Record World : Type := { sink : gcpBigQueryOutput; trace : list Event }.

Definition M (A : Type) : Type := World -> Outcome A * World.

Declare Scope sink_scope.
Delimit Scope sink_scope with sink.
Local Open Scope sink_scope.

Definition ret {A} (a : A) : M A := fun w => (Returns a, w).

Definition bind {A B} (c : M A) (k : A -> M B) : M B := fun w =>
  match c w with
  | (Returns a, w') => k a w'
  | (Panics, w') => (Panics, w')
  | (OutOfFuel, w') => (OutOfFuel, w')
  end.

Notation "'let*' x ':=' c 'in' k" := (bind c (fun x => k))
  (at level 10, x pattern, c at level 100, k at level 200) : sink_scope.
Notation "c ';;' k" := (bind c (fun _ => k))
  (at level 100, k at level 200, right associativity) : sink_scope.

Definition panic {A} : M A := fun w => (Panics, w).

Definition emit (ev : Event) : M unit := fun w =>
  (Returns tt, {| sink := sink w; trace := trace w ++ [ev] |}).

Definition load {A} (field : gcpBigQueryOutput -> A) : M A := fun w =>
  (Returns (field (sink w)), w).

Definition history : M (list Event) := fun w => (Returns (trace w), w).

(** [defer d body]: [body] runs, then the deferred [d], which is given the
    value being returned ([None] while panicking); deferred calls also run
    when [body] panics. *)
Definition defer {A} (d : option A -> M unit) (body : M A) : M A := fun w =>
  match body w with
  | (Returns a, w') =>
      match d (Some a) w' with
      | (Returns _, w'') => (Returns a, w'')
      | (Panics, w'') => (Panics, w'')
      | (OutOfFuel, w'') => (OutOfFuel, w'')
      end
  | (Panics, w') => (Panics, snd (d None w'))
  | (OutOfFuel, w') => (OutOfFuel, w')
  end.

(** Updates of the guarded fields, and the stores that perform them. *)
Definition set_client (v : option Client) (g : gcpBigQueryOutput)
  : gcpBigQueryOutput :=
  {| conf := conf g; clientURL := clientURL g; mwClientURL := mwClientURL g;
     client := v; mwClient := mwClient g; managedStream := managedStream g;
     messageDescriptor := messageDescriptor g;
     descriptorProto := descriptorProto g; umo := umo g |}.

Definition set_mwClient (v : option MWClient) (g : gcpBigQueryOutput)
  : gcpBigQueryOutput :=
  {| conf := conf g; clientURL := clientURL g; mwClientURL := mwClientURL g;
     client := client g; mwClient := v; managedStream := managedStream g;
     messageDescriptor := messageDescriptor g;
     descriptorProto := descriptorProto g; umo := umo g |}.

Definition set_managedStream (v : option ManagedStream)
    (g : gcpBigQueryOutput) : gcpBigQueryOutput :=
  {| conf := conf g; clientURL := clientURL g; mwClientURL := mwClientURL g;
     client := client g; mwClient := mwClient g; managedStream := v;
     messageDescriptor := messageDescriptor g;
     descriptorProto := descriptorProto g; umo := umo g |}.

Definition set_messageDescriptor (v : option MessageDescriptor)
    (g : gcpBigQueryOutput) : gcpBigQueryOutput :=
  {| conf := conf g; clientURL := clientURL g; mwClientURL := mwClientURL g;
     client := client g; mwClient := mwClient g;
     managedStream := managedStream g; messageDescriptor := v;
     descriptorProto := descriptorProto g; umo := umo g |}.

Definition set_descriptorProto (v : option DescriptorProto)
    (g : gcpBigQueryOutput) : gcpBigQueryOutput :=
  {| conf := conf g; clientURL := clientURL g; mwClientURL := mwClientURL g;
     client := client g; mwClient := mwClient g;
     managedStream := managedStream g;
     messageDescriptor := messageDescriptor g; descriptorProto := v;
     umo := umo g |}.

Definition store (f : Field)
    (update : gcpBigQueryOutput -> gcpBigQueryOutput) : M unit := fun w =>
  (Returns tt, {| sink := update (sink w); trace := trace w ++ [EvStore f] |}).

Definition store_client (v : option Client) : M unit :=
  store Fclient (set_client v).
Definition store_mwClient (v : option MWClient) : M unit :=
  store FmwClient (set_mwClient v).
Definition store_managedStream (v : option ManagedStream) : M unit :=
  store FmanagedStream (set_managedStream v).
Definition store_messageDescriptor (v : option MessageDescriptor) : M unit :=
  store FmessageDescriptor (set_messageDescriptor v).
Definition store_descriptorProto (v : option DescriptorProto) : M unit :=
  store FdescriptorProto (set_descriptorProto v).

(** Remote calls: ask the remote side, record the call and its answer. *)
Definition call_bigquery_NewClient (projectID : string)
    (opts : list ClientOption) : M (Result Client) :=
  let* h := history in
  let r := bigquery_NewClient R h projectID opts in
  emit (EvBQNewClient projectID opts r) ;; ret r.

Definition call_managedwriter_NewClient (projectID : string)
    (opts : list ClientOption) : M (Result MWClient) :=
  let* h := history in
  let r := managedwriter_NewClient R h projectID opts in
  emit (EvMWNewClient projectID opts r) ;; ret r.

Definition call_Dataset_Metadata (c : Client) (projectID datasetID : string)
  : M (Result unit) :=
  let* h := history in
  let r := Dataset_Metadata R h c projectID datasetID in
  emit (EvDatasetMetadata c projectID datasetID r) ;; ret r.

Definition call_Table_Metadata (c : Client)
    (projectID datasetID tableID : string) : M (Result Schema) :=
  let* h := history in
  let r := Table_Metadata R h c projectID datasetID tableID in
  emit (EvTableMetadata c projectID datasetID tableID r) ;; ret r.

Definition call_NewManagedStream (c : MWClient) (destinationTable : string)
    (ty : managedwriter.StreamType) (dp : option DescriptorProto)
  : M (Result ManagedStream) :=
  let* h := history in
  let r := Client_NewManagedStream R h c destinationTable ty dp in
  emit (EvNewManagedStream c destinationTable ty dp r) ;; ret r.

Definition call_AppendRows (ms : ManagedStream) (rows : list bytes)
  : M (Result AppendResult) :=
  let* h := history in
  let r := ManagedStream_AppendRows R h ms rows in
  emit (EvAppendRows ms rows r) ;; ret r.

Definition call_GetResult (a : AppendResult) : M (Result Z) :=
  let* h := history in
  let r := AppendResult_GetResult R h a in
  emit (EvGetResult a r) ;; ret r.

(** ** Connection establishment *)

(** [getClientOptionWithCredential]. *)
Definition getClientOptionWithCredential (credentialsJSON : string)
    (opt : list ClientOption) : Result (list ClientOption) :=
  let opt :=
    if (0 <? String.length credentialsJSON)%nat
    then opt ++ [WithCredentialsJSON credentialsJSON]
    else opt in
  Ok opt.

(** [gcpBQClientURL.NewClient]. With no test endpoint the options built
    from the credentials are not handed to [bigquery.NewClient]. *)
Definition gcpBQClientURL_NewClient (g : string)
    (conf : gcpBigQueryOutputConfig) : M (Result Client) :=
  if String.eqb g EmptyString then
    match getClientOptionWithCredential (CredentialsJSON conf) [] with
    | Err err => ret (Err err)
    | Ok opt => call_bigquery_NewClient (ProjectID conf) []
    end
  else
    call_bigquery_NewClient (ProjectID conf)
      [WithoutAuthentication; WithEndpoint g].

(** [gcpMWClientURL.NewClient]. *)
Definition gcpMWClientURL_NewClient (g : string)
    (conf : gcpBigQueryOutputConfig) : M (Result MWClient) :=
  if String.eqb g EmptyString then
    match getClientOptionWithCredential (CredentialsJSON conf) [] with
    | Err err => ret (Err err)
    | Ok opt => call_managedwriter_NewClient (ProjectID conf) opt
    end
  else
    call_managedwriter_NewClient (ProjectID conf)
      [WithoutAuthentication; WithEndpoint g;
       WithGRPCDialOption_WithInsecure].

(** [hasStatusCode]. *)
Definition hasStatusCode (err : goError) (code : Z) : bool :=
  match httpCode err with
  | Some c => c =? code
  | None => false
  end.

(** [getDescriptor]: the message descriptor, its normalised descriptor
    proto and the error. When the type assertion fails the function
    returns [err], which is nil at that point. *)
Definition getDescriptor (schema : Schema)
  : option MessageDescriptor * option DescriptorProto * option goError :=
  match BQSchemaToStorageTableSchema schema with
  | Err err => (None, None, Some err)
  | Ok convertedSchema =>
    match StorageSchemaToProto2Descriptor convertedSchema "root" with
    | Err err => (None, None, Some err)
    | Ok descriptor =>
      match asMessageDescriptor descriptor with
      | None => (None, None, None)
      | Some md =>
        match NormalizeDescriptor md with
        | Err err => (None, None, Some err)
        | Ok dp => (Some md, Some dp, None)
        end
      end
    end
  end.

(** [Connect]. Each [defer] encloses the part of the body that follows its
    registration, so that the deferred calls run last-registered first. *)
Definition Connect : M (option error) :=
  emit EvLock ;;
  defer (fun _ => emit EvUnlock) (
    let* url := load clientURL in
    let* cfg := load conf in
    let* r := gcpBQClientURL_NewClient url cfg in
    match r with
    | Err err =>
        ret (Some (Errorf "error creating big query client: %w"
                     [ArgError (ErrLib err)]))
    | Ok client =>
      defer (fun err => match err with
                        | Some (Some _) => emit (EvClientClose client)
                        | _ => ret tt
                        end) (
        let* mwUrl := load mwClientURL in
        let* r := gcpMWClientURL_NewClient mwUrl cfg in
        match r with
        | Err err =>
            ret (Some (Errorf
                         "error creating BigQuery managed writer client: %w"
                         [ArgError (ErrLib err)]))
        | Ok mwClient =>
          defer (fun err => match err with
                            | Some (Some _) => emit (EvMWClientClose mwClient)
                            | _ => ret tt
                            end) (
            let* r := call_Dataset_Metadata client
                        (ProjectID cfg) (DatasetID cfg) in
            match r with
            | Err err =>
                if hasStatusCode err http.StatusNotFound
                then ret (Some (Errorf "dataset does not exist: %v"
                                  [ArgString (DatasetID cfg)]))
                else ret (Some (Errorf "error checking dataset existence: %w"
                                  [ArgError (ErrLib err)]))
            | Ok _ =>
              let* r := call_Table_Metadata client
                          (ProjectID cfg) (DatasetID cfg) (TableID cfg) in
              match r with
              | Err err =>
                  if hasStatusCode err http.StatusNotFound
                  then ret (Some (Errorf "table does not exist: %v"
                                    [ArgString (TableID cfg)]))
                  else ret (Some (Errorf "error checking table existence: %w"
                                    [ArgError (ErrLib err)]))
              | Ok schema =>
                match getDescriptor schema with
                | (_, _, Some err) => ret (Some (ErrLib err))
                | (md, dp, None) =>
                  let* r := call_NewManagedStream mwClient
                              (managedwriter.TableParentFromParts
                                 (ProjectID cfg) (DatasetID cfg) (TableID cfg))
                              managedwriter.DefaultStream dp in
                  match r with
                  | Err err =>
                      ret (Some (Errorf
                                   "error creating BigQuery managed stream: %w"
                                   [ArgError (ErrLib err)]))
                  | Ok ms =>
                    defer (fun err => match err with
                                      | Some (Some _) => emit (EvStreamClose ms)
                                      | _ => ret tt
                                      end) (
                      store_client (Some client) ;;
                      store_mwClient (Some mwClient) ;;
                      store_managedStream (Some ms) ;;
                      store_messageDescriptor md ;;
                      store_descriptorProto dp ;;
                      ret None)
                  end
                end
              end
            end)
        end)
    end).

(** ** Reconnect and close *)

(** [reconnect]. A nil [g.mwClient] or, for the closing log line, a nil
    [g.client] is dereferenced. *)
Definition reconnect : M (option error) :=
  emit EvLock ;;
  defer (fun _ => emit EvUnlock) (
    let* old := load managedStream in
    match old with
    | Some ms => emit (EvStreamClose ms) ;; store_managedStream None
    | None => ret tt
    end ;;
    emit (EvSleep 1) ;;
    let* mw := load mwClient in
    match mw with
    | None => panic
    | Some mwClient =>
      let* cfg := load conf in
      let* dp := load descriptorProto in
      let* r := call_NewManagedStream mwClient
                  (managedwriter.TableParentFromParts
                     (ProjectID cfg) (DatasetID cfg) (TableID cfg))
                  managedwriter.DefaultStream dp in
      match r with
      | Err err =>
          ret (Some (Errorf "error creating new BigQuery managed stream: %w"
                       [ArgError (ErrLib err)]))
      | Ok ms =>
          store_managedStream (Some ms) ;;
          let* c := load client in
          match c with
          | None => panic
          | Some _ => ret None
          end
      end
    end).

(** [Close]. The second branch stores to [g.client], as the source does. *)
Definition Close : M (option error) :=
  emit EvLock ;;
  let* c := load client in
  match c with
  | Some c => emit (EvClientClose c) ;; store_client None
  | None => ret tt
  end ;;
  let* mw := load mwClient in
  match mw with
  | Some mw => emit (EvMWClientClose mw) ;; store_client None
  | None => ret tt
  end ;;
  let* ms := load managedStream in
  match ms with
  | Some ms => emit (EvStreamClose ms) ;; store_managedStream None
  | None => ret tt
  end ;;
  emit EvUnlock ;;
  ret None.

(** ** Batch write *)

(** The closure [setErr] of [writeBatchWithRetry], over the variable
    [batchErr] it captures. *)
Definition setErr (batch : MessageBatch) (idx : nat) (err : goError)
    (batchErr : option service.BatchError) : option service.BatchError :=
  let batchErr :=
    match batchErr with
    | None => service.NewBatchError batch err
    | Some b => b
    end in
  Some (service.Failed idx err batchErr).

(** The conversion loop [for i, msg := range batch] from index [i] on, over
    the variables [batchErr] and [rows]. *)
Fixpoint convertFrom (batch : MessageBatch) (i : nat) (msgs : list Message)
    (batchErr : option service.BatchError) (rows : list bytes)
  : M (option service.BatchError * list bytes) :=
  match msgs with
  | [] => ret (batchErr, rows)
  | msg :: msgs' =>
    emit (EvAsBytes i) ;;
    match AsBytes msg with
    | Err err => convertFrom batch (S i) msgs' (setErr batch i err batchErr) rows
    | Ok msgBytes =>
      let* md := load messageDescriptor in
      let* o := load umo in
      emit (EvUnmarshal i) ;;
      match Unmarshal o md msgBytes with
      | Err err =>
          convertFrom batch (S i) msgs' (setErr batch i err batchErr) rows
      | Ok message =>
        emit (EvMarshal i) ;;
        match Marshal message with
        | Err err =>
            convertFrom batch (S i) msgs' (setErr batch i err batchErr) rows
        | Ok b => convertFrom batch (S i) msgs' batchErr (rows ++ [b])
        end
      end
    end
  end.

Definition maxRetries : Z := 2.

(** A [*service.BatchError] returned as an [error]. *)
Definition returnBatchErr (batchErr : option service.BatchError)
  : option error :=
  match batchErr with
  | Some b => Some (ErrBatch b)
  | None => None
  end.

(** The body of [writeBatchWithRetry]; [retry] stands for the recursive
    call [g.writeBatchWithRetry(ctx, batch, retryCount+1)]. *)
Definition writeBatchWithRetry_body (retry : M (option error))
    (batch : MessageBatch) (retryCount : Z) : M (option error) :=
  emit EvRLock ;;
  let* ms := load managedStream in
  emit EvRUnlock ;;
  match ms with
  | None => ret (Some ErrNotConnected)
  | Some ms =>
    let* (batchErr, rows) := convertFrom batch 0 batch None [] in
    if (length rows =? 0)%nat then ret (returnBatchErr batchErr)
    else
      let* r := call_AppendRows ms rows in
      match r with
      | Err err =>
          if isReconnectableError (Some err) && (retryCount <? maxRetries)
          then
            let* reconnectErr := reconnect in
            match reconnectErr with
            | Some reconnectErr =>
                ret (Some (Errorf "connection error reconnect failed: %w"
                             [ArgError reconnectErr]))
            | None => retry
            end
          else ret (Some (ErrLib err))
      | Ok result =>
        let* r := call_GetResult result in
        match r with
        | Err err =>
            if isReconnectableError (Some err) && (retryCount <? maxRetries)
            then
              let* reconnectErr := reconnect in
              match reconnectErr with
              | Some reconnectErr =>
                  ret (Some (Errorf "connection error reconnect failed: %w"
                               [ArgError reconnectErr]))
              | None => retry
              end
            else ret (Some (ErrLib err))
        | Ok o =>
          if negb (o =? managedwriter.NoStreamOffset)
          then ret (Some (Errorf "offset mismatch, got %d want %d"
                            [ArgInt o; ArgInt managedwriter.NoStreamOffset]))
          else ret (returnBatchErr batchErr)
        end
      end
  end.

(** The recursion of [writeBatchWithRetry], on the number of retries that
    the ceiling still allows. *)
Fixpoint writeBatchWithRetry_rec (budget : nat) (batch : MessageBatch)
    (retryCount : Z) : M (option error) :=
  writeBatchWithRetry_body
    match budget with
    | O => fun w => (OutOfFuel, w)
    | S budget' => writeBatchWithRetry_rec budget' batch (retryCount + 1)
    end
    batch retryCount.

(** [writeBatchWithRetry]. *)
Definition writeBatchWithRetry (batch : MessageBatch) (retryCount : Z)
  : M (option error) :=
  writeBatchWithRetry_rec (Z.to_nat (maxRetries - retryCount)) batch
    retryCount.

(** [WriteBatch]. *)
Definition WriteBatch (batch : MessageBatch) : M (option error) :=
  writeBatchWithRetry batch 0.

(** ** Reading a run *)

(** The outcome of a computation from a world, the events it adds to the
    trace, and the sink it leaves. *)
Definition resultOf {A} (c : M A) (w : World) : Outcome A := fst (c w).
Definition eventsOf {A} (c : M A) (w : World) : list Event :=
  drop (length (trace w)) (trace (snd (c w))).
Definition sinkAfter {A} (c : M A) (w : World) : gcpBigQueryOutput :=
  sink (snd (c w)).

(** The world [w] after the events [evs]. *)
Definition extend (w : World) (evs : list Event) : World :=
  {| sink := sink w; trace := trace w ++ evs |}.

(** [n] calls of [reconnect] in a row, whatever each of them returns. *)
Fixpoint reconnects (n : nat) : M unit :=
  match n with
  | O => ret tt
  | S n' => reconnect ;; reconnects n'
  end.

(** *** Conversion, message by message *)

(** The conversion of one message by the loop of [writeBatchWithRetry]:
    byte extraction, JSON-to-proto unmarshal, proto marshal. *)
Definition convertOne (g : gcpBigQueryOutput) (msg : Message) : Result bytes :=
  match AsBytes msg with
  | Err err => Err err
  | Ok msgBytes =>
    match Unmarshal (umo g) (messageDescriptor g) msgBytes with
    | Err err => Err err
    | Ok message => Marshal message
    end
  end.

(** The rows of the messages that convert, in the order of the batch. *)
Definition convertedRows (g : gcpBigQueryOutput) (msgs : list Message)
  : list bytes :=
  omap (fun msg => match convertOne g msg with
                   | Ok b => Some b
                   | Err _ => None
                   end) msgs.

(** The messages that fail conversion, each with its index in the batch
    and its error; [i] is the index of the first message of [msgs]. *)
Fixpoint failedItems (g : gcpBigQueryOutput) (i : nat) (msgs : list Message)
  : list (nat * goError) :=
  match msgs with
  | [] => []
  | msg :: msgs' =>
    match convertOne g msg with
    | Err err => (i, err) :: failedItems g (S i) msgs'
    | Ok _ => failedItems g (S i) msgs'
    end
  end.

(** Whether a message fails conversion, the number of messages of a
    batch that do, and the failure of the message at index [i], if any. *)
Definition failsConversion (g : gcpBigQueryOutput) (msg : Message) : bool :=
  match convertOne g msg with
  | Err _ => true
  | Ok _ => false
  end.

Definition failureCount (g : gcpBigQueryOutput) (msgs : list Message) : nat :=
  length (filter (fun msg => failsConversion g msg = true) msgs).

Definition itemFailure (g : gcpBigQueryOutput) (batch : list Message)
    (i : nat) : option goError :=
  match batch !! i with
  | Some msg =>
    match convertOne g msg with
    | Err err => Some err
    | Ok _ => None
    end
  | None => None
  end.

(** The batch error after [setErr] was called on each failed item. *)
Definition recordFailures (batch : MessageBatch) (items : list (nat * goError))
    (batchErr : option service.BatchError) : option service.BatchError :=
  fold_left (fun acc item => setErr batch (fst item) (snd item) acc)
    items batchErr.

(** The library calls of the conversion loop. *)
Fixpoint conversionEvents (g : gcpBigQueryOutput) (i : nat)
    (msgs : list Message) : list Event :=
  match msgs with
  | [] => []
  | msg :: msgs' =>
    EvAsBytes i ::
    match AsBytes msg with
    | Err _ => []
    | Ok msgBytes =>
      EvUnmarshal i ::
      match Unmarshal (umo g) (messageDescriptor g) msgBytes with
      | Err _ => []
      | Ok _ => [EvMarshal i]
      end
    end ++ conversionEvents g (S i) msgs'
  end.

(** The events of an attempt up to its append: the read of the stream
    handle under the shared lock, then the conversion of the batch. *)
Definition beforeAppend (g : gcpBigQueryOutput) (batch : MessageBatch)
  : list Event :=
  [EvRLock; EvRUnlock] ++ conversionEvents g 0 batch.

(** The append of [rows] to [ms] and the fetch of its acknowledgement,
    issued at history [h]: the acknowledged offset or the error of the call
    that failed, and the events of the step. *)
Definition appendStage (h : list Event) (ms : ManagedStream)
    (rows : list bytes) : Result Z * list Event :=
  match ManagedStream_AppendRows R h ms rows with
  | Err err => (Err err, [EvAppendRows ms rows (Err err)])
  | Ok result =>
    let ev := EvAppendRows ms rows (Ok result) in
    match AppendResult_GetResult R (h ++ [ev]) result with
    | Err err => (Err err, [ev; EvGetResult result (Err err)])
    | Ok o => (Ok o, [ev; EvGetResult result (Ok o)])
    end
  end.

(** Whether an event is a call on, or a creation of, the metadata client. *)
Definition usesMetadataClient (ev : Event) : bool :=
  match ev with
  | EvBQNewClient _ _ _ | EvDatasetMetadata _ _ _ _
  | EvTableMetadata _ _ _ _ _ | EvClientClose _ => true
  | _ => false
  end.

(** *** The events and the effect of [reconnect] *)

Definition destinationTable (g : gcpBigQueryOutput) : string :=
  managedwriter.TableParentFromParts
    (ProjectID (conf g)) (DatasetID (conf g)) (TableID (conf g)).

(** What [reconnect] does before it asks for the new stream: it takes the
    exclusive lock, closes and clears the stream held, and sleeps. *)
Definition reconnectPrefix (g : gcpBigQueryOutput) : list Event :=
  [EvLock] ++
  match managedStream g with
  | Some ms => [EvStreamClose ms; EvStore FmanagedStream]
  | None => []
  end ++ [EvSleep 1].

Definition withoutStream (g : gcpBigQueryOutput) : gcpBigQueryOutput :=
  match managedStream g with
  | Some _ => set_managedStream None g
  | None => g
  end.

(** The events of a call of [reconnect] by a sink that holds the write
    client [mw], when the stream creation is answered by [r]. *)
Definition reconnectEvents (g : gcpBigQueryOutput) (mw : MWClient)
    (r : Result ManagedStream) : list Event :=
  reconnectPrefix g ++
  [EvNewManagedStream mw (destinationTable g) managedwriter.DefaultStream
     (descriptorProto g) r] ++
  match r with
  | Ok _ => [EvStore FmanagedStream]
  | Err _ => []
  end ++ [EvUnlock].

(** The answer of the remote side to the stream creation of a call of
    [reconnect] made at history [h]. *)
Definition reconnectAnswer (h : list Event) (g : gcpBigQueryOutput)
    (mw : MWClient) : Result ManagedStream :=
  Client_NewManagedStream R (h ++ reconnectPrefix g) mw (destinationTable g)
    managedwriter.DefaultStream (descriptorProto g).

(** What an event of a reconnect may be for a sink [g]: a stream creation
    asks the write client of [g] for a default stream on the table of [g]
    with the descriptor cached in [g]; no event creates or calls the
    metadata client. *)
Definition reconnectEventOk (g : gcpBigQueryOutput) (ev : Event) : Prop :=
  match ev with
  | EvNewManagedStream mw dest ty dp _ =>
      mwClient g = Some mw /\ dest = destinationTable g /\
      ty = managedwriter.DefaultStream /\ dp = descriptorProto g
  | _ => usesMetadataClient ev = false
  end.

(** A sink holding both clients and a stream, as a successful [Connect]
    leaves it. *)
Definition connected (g : gcpBigQueryOutput) : Prop :=
  is_Some (client g) /\ is_Some (mwClient g) /\ is_Some (managedStream g).



(** *** Counting in a trace *)

Definition isAppend (ev : Event) : bool :=
  match ev with EvAppendRows _ _ _ => true | _ => false end.
Definition isNewStream (ev : Event) : bool :=
  match ev with EvNewManagedStream _ _ _ _ _ => true | _ => false end.
Definition isLock (ev : Event) : bool :=
  match ev with EvLock => true | _ => false end.
Definition isAsBytes (ev : Event) : bool :=
  match ev with EvAsBytes _ => true | _ => false end.

(** Append calls issued. *)
Definition appendAttempts (t : list Event) : nat :=
  length (filter (fun ev => isAppend ev = true) t).
(** Acquisitions of the exclusive lock. *)
Definition exclusiveLocks (t : list Event) : nat :=
  length (filter (fun ev => isLock ev = true) t).
(** Calls of [reconnect]: each begins by taking the exclusive lock, which
    nothing else on the write path takes. *)
Definition reconnectAttempts (t : list Event) : nat := exclusiveLocks t.
(** Stream creations asked of the write client. *)
Definition streamCreations (t : list Event) : nat :=
  length (filter (fun ev => isNewStream ev = true) t).
(** Byte extractions, one per message and conversion pass. *)
Definition byteExtractions (t : list Event) : nat :=
  length (filter (fun ev => isAsBytes ev = true) t).

(** The error of the last append or acknowledgement that failed. *)
Fixpoint lastFailure (t : list Event) : option goError :=
  match t with
  | [] => None
  | ev :: t' =>
    match lastFailure t' with
    | Some e => Some e
    | None =>
      match ev with
      | EvAppendRows _ _ (Err e) => Some e
      | EvGetResult _ (Err e) => Some e
      | _ => None
      end
    end
  end.


(** What holds of every run of [writeBatchWithRetry] with [n] retries
    left: the trace grows by events [evs]; every append carries the rows
    of the messages that convert; a batch error or nil, when returned, is
    the outcome of the conversion loop; reconnects and appends are bounded
    by the retries left; the recursion budget suffices. *)
Definition writeRunFacts (batch : MessageBatch) (n : nat) (retryCount : Z)
    (w : World) : Prop :=
  exists evs : list Event,
    trace (snd (writeBatchWithRetry batch retryCount w)) = trace w ++ evs /\
    (forall ms rows r,
       In (EvAppendRows ms rows r) evs ->
       rows = convertedRows (sink w) batch) /\
    (forall b : service.BatchError,
       fst (writeBatchWithRetry batch retryCount w) =
         Returns (Some (ErrBatch b)) ->
       recordFailures batch (failedItems (sink w) 0 batch) None = Some b) /\
    (fst (writeBatchWithRetry batch retryCount w) = Returns None ->
     failureCount (sink w) batch = 0%nat) /\
    (reconnectAttempts evs <= n)%nat /\
    (appendAttempts evs <= S n)%nat /\
    fst (writeBatchWithRetry batch retryCount w) <> OutOfFuel.

(** *** Handles and the lock in a trace *)

(** The handles opened and not yet closed after the events [t], given the
    handles [held] before them. *)
Fixpoint openHandles (held : list Handle) (t : list Event) : list Handle :=
  match t with
  | [] => held
  | ev :: t' =>
    openHandles
      match ev with
      | EvBQNewClient _ _ (Ok c) => held ++ [HClient c]
      | EvMWNewClient _ _ (Ok c) => held ++ [HMWClient c]
      | EvNewManagedStream _ _ _ _ (Ok ms) => held ++ [HStream ms]
      | EvClientClose c => filter (fun h => h <> HClient c) held
      | EvMWClientClose c => filter (fun h => h <> HMWClient c) held
      | EvStreamClose ms => filter (fun h => h <> HStream ms) held
      | _ => held
      end t'
  end.

(** The handles that a sink holds. *)
Definition heldHandles (g : gcpBigQueryOutput) : list Handle :=
  match client g with Some c => [HClient c] | None => [] end ++
  match mwClient g with Some c => [HMWClient c] | None => [] end ++
  match managedStream g with Some ms => [HStream ms] | None => [] end.

(** Every store of [t] happens while the exclusive lock is held; [held]
    tells whether it is held before [t]. *)
Fixpoint storesGuarded (held : bool) (t : list Event) : bool :=
  match t with
  | [] => true
  | EvLock :: t' => storesGuarded true t'
  | EvUnlock :: t' => storesGuarded false t'
  | EvStore _ :: t' => held && storesGuarded held t'
  | _ :: t' => storesGuarded held t'
  end.

(** The guarded fields stored to, in order. *)
Definition storedFields (t : list Event) : list Field :=
  omap (fun ev => match ev with EvStore f => Some f | _ => None end) t.

End Sink.

(** ** A small instance to run the sink on *)

(** A toy library: a schema is the list of its column names and is its own
    descriptor; a payload parses when it opens with a brace, and a parsed
    message is its payload. *)
Definition toyParseError : goError :=
  GoError None None None "proto: syntax error: unexpected token".

Definition toyLibraries : Libraries := {|
  Schema := list string;
  TableSchema := list string;
  Descriptor := list string;
  MessageDescriptor := list string;
  DescriptorProto := list string;
  DynamicMessage := bytes;
  BQSchemaToStorageTableSchema := fun s => Ok s;
  StorageSchemaToProto2Descriptor := fun s _ => Ok s;
  asMessageDescriptor := fun d => Some d;
  NormalizeDescriptor := fun md => Ok md;
  Unmarshal := fun _ _ b =>
    match b with
    | Byte.x7b :: _ => Ok b
    | _ => Err toyParseError
    end;
  Marshal := fun m => Ok m
|}.

Definition abortedError : goError :=
  GoError (Some Aborted) None None
    "rpc error: code = Aborted desc = Closing the stream because the connection TTL was exceeded".
Definition unavailableError : goError :=
  GoError (Some Unavailable) None None
    "rpc error: code = Unavailable desc = transport is closing".
Definition deniedError : goError :=
  GoError (Some PermissionDenied) None None
    "rpc error: code = PermissionDenied desc = access denied".
Definition notFoundError : goError :=
  GoError None None (Some 404) "googleapi: Error 404: Not found".

(** What a scripted remote side answers to the k-th append of a run. *)
Inductive AppendScript : Type :=
| AppendFails (e : goError)
| AckFails (e : goError)
| Acked (offset : Z).

(** A remote side that creates clients 1 and 2, knows the dataset and the
    table, answers the k-th append as [appends] says (acknowledging at the
    sentinel offset once the script ends), and the k-th stream creation as
    [streams] says (creating stream 10 + k once the script ends). *)
Definition scriptedRemote (appends : list AppendScript)
    (streams : list (Result ManagedStream)) : @Remote toyLibraries :=
  @Build_Remote toyLibraries
    (fun _ _ _ => Ok (BQClient 1))
    (fun _ _ _ => Ok (MWriterClient 2))
    (fun _ _ _ _ => Ok tt)
    (fun _ _ _ _ _ => Ok ["id"; "name"])
    (fun h _ _ _ _ =>
       let k := streamCreations h in
       nth k streams (Ok (Stream (10 + k))))
    (fun h _ _ =>
       let k := appendAttempts h in
       match nth k appends (Acked managedwriter.NoStreamOffset) with
       | AppendFails e => Err e
       | _ => Ok (Pending k)
       end)
    (fun _ a =>
       match nth (resultAddr a) appends (Acked managedwriter.NoStreamOffset)
       with
       | AppendFails e => Err e
       | AckFails e => Err e
       | Acked o => Ok o
       end).


Definition toyConf : gcpBigQueryOutputConfig :=
  {| ProjectID := "proj"; DatasetID := "ds"; TableID := "events";
     AllowPartial := true; DiscardUnknown := true; CredentialsJSON := EmptyString |}.

(** The descriptor proto of the toy table. *)
Definition toyDescriptor : @DescriptorProto toyLibraries := ["id"; "name"].

(** The sink as [newGCPBigQueryOutput] builds it. *)
Definition newSink : @gcpBigQueryOutput toyLibraries :=
  @Build_gcpBigQueryOutput toyLibraries toyConf EmptyString EmptyString None None None None None
    {| protojson.AllowPartial := true; protojson.DiscardUnknown := true |}.

(** The sink after a connect that opened clients 1 and 2 and stream 3. *)
Definition connectedSink : @gcpBigQueryOutput toyLibraries :=
  @Build_gcpBigQueryOutput toyLibraries toyConf EmptyString EmptyString
    (Some (BQClient 1)) (Some (MWriterClient 2)) (Some (Stream 3))
    (Some ["id"; "name"]) (Some ["id"; "name"])
    {| protojson.AllowPartial := true; protojson.DiscardUnknown := true |}.

Definition startAt (g : @gcpBigQueryOutput toyLibraries)
  : @World toyLibraries :=
  @Build_World toyLibraries g [].

Definition goodMessage : Message :=
  {| AsBytes := Ok (list_byte_of_string "{}") |}.
Definition badMessage : Message :=
  {| AsBytes := Ok (list_byte_of_string "oops") |}.

(** ** Construction of the sink *)

Module bigquery.
(** The sentinel project id of the client library, which makes the client
    detect the project from the credentials or the environment. *)
Definition DetectProjectID : string := "*detect-project-id*".
End bigquery.

Section Construction.
Context `{Libraries}.

(** [service.BatchPolicy], of which the sink reads nothing. *)
Variable BatchPolicy : Type.

(** [*service.ParsedConfig], through the accessors the sink uses. *)
Record ParsedConfig : Type := {
  FieldString : string -> Result string;
  FieldBool : string -> Result bool;
  FieldInt : string -> Result Z;
  FieldBatchPolicy : string -> Result BatchPolicy
}.

(** [gcpBigQueryOutputConfigFromParsed]. On an error the caller uses
    nothing of the configuration read so far, which is left out here. *)
Definition gcpBigQueryOutputConfigFromParsed (conf : ParsedConfig)
  : Result gcpBigQueryOutputConfig :=
  match FieldString conf "project" with
  | Err err => Err err
  | Ok project =>
    let project :=
      if String.eqb project EmptyString then bigquery.DetectProjectID
      else project in
    match FieldString conf "dataset" with
    | Err err => Err err
    | Ok dataset =>
      match FieldString conf "table" with
      | Err err => Err err
      | Ok table =>
        match FieldBool conf "allow_partial" with
        | Err err => Err err
        | Ok allowPartial =>
          match FieldBool conf "discard_unknown" with
          | Err err => Err err
          | Ok discardUnknown =>
            match FieldString conf "credentials_json" with
            | Err err => Err err
            | Ok credentialsJSON =>
                Ok {| ProjectID := project; DatasetID := dataset;
                      TableID := table; AllowPartial := allowPartial;
                      DiscardUnknown := discardUnknown;
                      CredentialsJSON := credentialsJSON |}
            end
          end
        end
      end
    end
  end.

(** [newGCPBigQueryOutput]: every field not named by the source has its
    zero value. *)
Definition newGCPBigQueryOutput (gconf : gcpBigQueryOutputConfig)
  : Result gcpBigQueryOutput :=
  Ok {| conf := gconf; clientURL := EmptyString; mwClientURL := EmptyString;
        client := None; mwClient := None; managedStream := None;
        messageDescriptor := None; descriptorProto := None;
        umo := {| protojson.AllowPartial := AllowPartial gconf;
                  protojson.DiscardUnknown := DiscardUnknown gconf |} |}.

(** The constructor that [init] registers for the output
    [gcp_bigquery_stream]: the sink, the batching policy and the number of
    batches in flight. *)
Definition init_constructor (conf : ParsedConfig)
  : Result (gcpBigQueryOutput * BatchPolicy * Z) :=
  match FieldBatchPolicy conf "batching" with
  | Err err => Err err
  | Ok batchPol =>
    match FieldInt conf "max_in_flight" with
    | Err err => Err err
    | Ok maxInFlight =>
      match gcpBigQueryOutputConfigFromParsed conf with
      | Err err => Err err
      | Ok gconf =>
        match newGCPBigQueryOutput gconf with
        | Err err => Err err
        | Ok output => Ok (output, batchPol, maxInFlight)
        end
      end
    end
  end.

End Construction.

Arguments FieldString {BatchPolicy} _ _.
Arguments FieldBool {BatchPolicy} _ _.
Arguments FieldInt {BatchPolicy} _ _.
Arguments FieldBatchPolicy {BatchPolicy} _ _.
Arguments gcpBigQueryOutputConfigFromParsed {BatchPolicy} conf.
Arguments init_constructor {H BatchPolicy} conf.

(** ** The batch write before the reconnect wrapper *)

Module Original.
Section Sink.
Context `{Libraries}.
Variable R : Remote.

(** [WriteBatch] of the earlier revision of the file: one attempt, every
    failure of the append or of its acknowledgement returned as it is. *)
Definition WriteBatch (batch : MessageBatch) : M (option error) :=
  bind (emit EvRLock) (fun _ =>
  bind (load managedStream) (fun ms =>
  bind (emit EvRUnlock) (fun _ =>
  match ms with
  | None => ret (Some ErrNotConnected)
  | Some ms =>
    bind (convertFrom batch 0 batch None []) (fun converted =>
    let (batchErr, rows) := converted in
    if (length rows =? 0)%nat then ret (returnBatchErr batchErr)
    else
      bind (call_AppendRows R ms rows) (fun r =>
      match r with
      | Err err => ret (Some (ErrLib err))
      | Ok result =>
        bind (call_GetResult R result) (fun r =>
        match r with
        | Err err => ret (Some (ErrLib err))
        | Ok o =>
          if negb (o =? managedwriter.NoStreamOffset)
          then ret (Some (Errorf "offset mismatch, got %d want %d"
                            [ArgInt o; ArgInt managedwriter.NoStreamOffset]))
          else ret (returnBatchErr batchErr)
        end)
      end))
  end))).

End Sink.
End Original.

(** ** Runs as derivations *)

Section Derivations.
Context `{Libraries}.
Variable R : Remote.

(** The options with which [Connect] creates the metadata client and the
    write client. *)
Definition bqClientOptions (g : gcpBigQueryOutput) : list ClientOption :=
  if String.eqb (clientURL g) EmptyString then []
  else [WithoutAuthentication; WithEndpoint (clientURL g)].

Definition mwClientOptions (g : gcpBigQueryOutput) : list ClientOption :=
  if String.eqb (mwClientURL g) EmptyString then
    if (0 <? String.length (CredentialsJSON (conf g)))%nat
    then [WithCredentialsJSON (CredentialsJSON (conf g))]
    else []
  else [WithoutAuthentication; WithEndpoint (mwClientURL g);
        WithGRPCDialOption_WithInsecure].

(** The remote calls of [Connect] by the sink [g], each with its answer. *)
Definition evClient (g : gcpBigQueryOutput) (r : Result Client) : Event :=
  EvBQNewClient (ProjectID (conf g)) (bqClientOptions g) r.
Definition evWriter (g : gcpBigQueryOutput) (r : Result MWClient) : Event :=
  EvMWNewClient (ProjectID (conf g)) (mwClientOptions g) r.
Definition evDataset (g : gcpBigQueryOutput) (c : Client) (r : Result unit)
  : Event :=
  EvDatasetMetadata c (ProjectID (conf g)) (DatasetID (conf g)) r.
Definition evTable (g : gcpBigQueryOutput) (c : Client) (r : Result Schema)
  : Event :=
  EvTableMetadata c (ProjectID (conf g)) (DatasetID (conf g))
    (TableID (conf g)) r.
Definition evStream (g : gcpBigQueryOutput) (mw : MWClient)
    (dp : option DescriptorProto) (r : Result ManagedStream) : Event :=
  EvNewManagedStream mw (destinationTable g) managedwriter.DefaultStream dp r.

(** The sink with the five session fields that [Connect] stores. *)
Definition installed (c : Client) (mw : MWClient) (ms : ManagedStream)
    (md : option MessageDescriptor) (dp : option DescriptorProto)
    (g : gcpBigQueryOutput) : gcpBigQueryOutput :=
  set_descriptorProto dp
    (set_messageDescriptor md
       (set_managedStream (Some ms)
          (set_mwClient (Some mw) (set_client (Some c) g)))).

(** The runs of [Connect] by a sink [g], one rule per place where the
    method returns: the value returned, the sink left and the events. *)
Inductive ConnectRun (g : gcpBigQueryOutput)
  : Outcome (option error) -> gcpBigQueryOutput -> list Event -> Prop :=
| ConnectClientFails (e : goError) :
    ConnectRun g
      (Returns (Some (Errorf "error creating big query client: %w"
                        [ArgError (ErrLib e)])))
      g [EvLock; evClient g (Err e); EvUnlock]
| ConnectWriterFails (c : Client) (e : goError) :
    ConnectRun g
      (Returns (Some (Errorf
                        "error creating BigQuery managed writer client: %w"
                        [ArgError (ErrLib e)])))
      g [EvLock; evClient g (Ok c); evWriter g (Err e); EvClientClose c;
         EvUnlock]
| ConnectDatasetFails (c : Client) (mw : MWClient) (e : goError) :
    ConnectRun g
      (Returns (Some (if hasStatusCode e http.StatusNotFound
                      then Errorf "dataset does not exist: %v"
                             [ArgString (DatasetID (conf g))]
                      else Errorf "error checking dataset existence: %w"
                             [ArgError (ErrLib e)])))
      g [EvLock; evClient g (Ok c); evWriter g (Ok mw);
         evDataset g c (Err e); EvMWClientClose mw; EvClientClose c;
         EvUnlock]
| ConnectTableFails (c : Client) (mw : MWClient) (e : goError) :
    ConnectRun g
      (Returns (Some (if hasStatusCode e http.StatusNotFound
                      then Errorf "table does not exist: %v"
                             [ArgString (TableID (conf g))]
                      else Errorf "error checking table existence: %w"
                             [ArgError (ErrLib e)])))
      g [EvLock; evClient g (Ok c); evWriter g (Ok mw);
         evDataset g c (Ok tt); evTable g c (Err e); EvMWClientClose mw;
         EvClientClose c; EvUnlock]
| ConnectDescriptorFails (c : Client) (mw : MWClient) (schema : Schema)
    (md : option MessageDescriptor) (dp : option DescriptorProto)
    (e : goError) :
    getDescriptor schema = (md, dp, Some e) ->
    ConnectRun g (Returns (Some (ErrLib e)))
      g [EvLock; evClient g (Ok c); evWriter g (Ok mw);
         evDataset g c (Ok tt); evTable g c (Ok schema); EvMWClientClose mw;
         EvClientClose c; EvUnlock]
| ConnectStreamFails (c : Client) (mw : MWClient) (schema : Schema)
    (md : option MessageDescriptor) (dp : option DescriptorProto)
    (e : goError) :
    getDescriptor schema = (md, dp, None) ->
    ConnectRun g
      (Returns (Some (Errorf "error creating BigQuery managed stream: %w"
                        [ArgError (ErrLib e)])))
      g [EvLock; evClient g (Ok c); evWriter g (Ok mw);
         evDataset g c (Ok tt); evTable g c (Ok schema);
         evStream g mw dp (Err e); EvMWClientClose mw; EvClientClose c;
         EvUnlock]
| ConnectSucceeds (c : Client) (mw : MWClient) (schema : Schema)
    (md : option MessageDescriptor) (dp : option DescriptorProto)
    (ms : ManagedStream) :
    getDescriptor schema = (md, dp, None) ->
    ConnectRun g (Returns None) (installed c mw ms md dp g)
      [EvLock; evClient g (Ok c); evWriter g (Ok mw);
       evDataset g c (Ok tt); evTable g c (Ok schema);
       evStream g mw dp (Ok ms); EvStore Fclient; EvStore FmwClient;
       EvStore FmanagedStream; EvStore FmessageDescriptor;
       EvStore FdescriptorProto; EvUnlock].

(** The runs of [reconnect] by a sink [g]. *)
Inductive ReconnectRun (g : gcpBigQueryOutput)
  : Outcome (option error) -> gcpBigQueryOutput -> list Event -> Prop :=
| ReconnectNoWriter :
    mwClient g = None ->
    ReconnectRun g Panics (withoutStream g) (reconnectPrefix g ++ [EvUnlock])
| ReconnectStreamFails (mw : MWClient) (e : goError) :
    mwClient g = Some mw ->
    ReconnectRun g
      (Returns (Some (Errorf "error creating new BigQuery managed stream: %w"
                        [ArgError (ErrLib e)])))
      (withoutStream g) (reconnectEvents g mw (Err e))
| ReconnectNoClient (mw : MWClient) (ms : ManagedStream) :
    mwClient g = Some mw ->
    client g = None ->
    ReconnectRun g Panics (set_managedStream (Some ms) g)
      (reconnectEvents g mw (Ok ms))
| ReconnectSucceeds (mw : MWClient) (ms : ManagedStream) (c : Client) :
    mwClient g = Some mw ->
    client g = Some c ->
    ReconnectRun g (Returns None) (set_managedStream (Some ms) g)
      (reconnectEvents g mw (Ok ms)).

(** The events of [Close] by a sink [g]: under the exclusive lock, each
    handle held is closed and a field stored to. *)
Definition closeEvents (g : gcpBigQueryOutput) : list Event :=
  [EvLock] ++
  match client g with
  | Some c => [EvClientClose c; EvStore Fclient]
  | None => []
  end ++
  match mwClient g with
  | Some mw => [EvMWClientClose mw; EvStore Fclient]
  | None => []
  end ++
  match managedStream g with
  | Some ms => [EvStreamClose ms; EvStore FmanagedStream]
  | None => []
  end ++ [EvUnlock].

(** What [writeBatchWithRetry] returns when its reconnect does not return
    nil. *)
Definition reconnectFailed (r : Outcome (option error))
  : Outcome (option error) :=
  match r with
  | Returns (Some reconnectErr) =>
      Returns (Some (Errorf "connection error reconnect failed: %w"
                       [ArgError reconnectErr]))
  | _ => r
  end.

(** The runs of [writeBatchWithRetry] on a batch with retry count
    [retryCount], from a sink [g] at history [h], one rule per place where
    the method returns and one for the recursive call: the value returned,
    the sink left and the events. *)
Inductive WriteRun (batch : MessageBatch)
  : Z -> gcpBigQueryOutput -> list Event -> Outcome (option error) ->
    gcpBigQueryOutput -> list Event -> Prop :=
| WriteNotConnected (retryCount : Z) (g : gcpBigQueryOutput)
    (h : list Event) :
    managedStream g = None ->
    WriteRun batch retryCount g h (Returns (Some ErrNotConnected)) g
      [EvRLock; EvRUnlock]
| WriteNoRows (retryCount : Z) (g : gcpBigQueryOutput) (h : list Event)
    (ms : ManagedStream) :
    managedStream g = Some ms ->
    convertedRows g batch = [] ->
    WriteRun batch retryCount g h
      (Returns (returnBatchErr
                  (recordFailures batch (failedItems g 0 batch) None)))
      g (beforeAppend g batch)
| WriteAnswered (retryCount : Z) (g : gcpBigQueryOutput) (h : list Event)
    (ms : ManagedStream) (o : Z) (evs : list Event) :
    managedStream g = Some ms ->
    convertedRows g batch <> [] ->
    appendStage R (h ++ beforeAppend g batch) ms (convertedRows g batch) =
      (Ok o, evs) ->
    WriteRun batch retryCount g h
      (Returns (if negb (o =? managedwriter.NoStreamOffset)
                then Some (Errorf "offset mismatch, got %d want %d"
                             [ArgInt o; ArgInt managedwriter.NoStreamOffset])
                else returnBatchErr
                       (recordFailures batch (failedItems g 0 batch) None)))
      g (beforeAppend g batch ++ evs)
| WriteGivesUp (retryCount : Z) (g : gcpBigQueryOutput) (h : list Event)
    (ms : ManagedStream) (err : goError) (evs : list Event) :
    managedStream g = Some ms ->
    convertedRows g batch <> [] ->
    appendStage R (h ++ beforeAppend g batch) ms (convertedRows g batch) =
      (Err err, evs) ->
    isReconnectableError (Some err) && (retryCount <? maxRetries) = false ->
    WriteRun batch retryCount g h (Returns (Some (ErrLib err))) g
      (beforeAppend g batch ++ evs)
| WriteReconnectFails (retryCount : Z) (g : gcpBigQueryOutput)
    (h : list Event) (ms : ManagedStream) (err : goError) (evs : list Event)
    (r : Outcome (option error)) (g2 : gcpBigQueryOutput)
    (revs : list Event) :
    managedStream g = Some ms ->
    convertedRows g batch <> [] ->
    appendStage R (h ++ beforeAppend g batch) ms (convertedRows g batch) =
      (Err err, evs) ->
    isReconnectableError (Some err) = true ->
    retryCount < maxRetries ->
    ReconnectRun g r g2 revs ->
    r <> Returns None ->
    WriteRun batch retryCount g h (reconnectFailed r) g2
      (beforeAppend g batch ++ evs ++ revs)
| WriteRetries (retryCount : Z) (g : gcpBigQueryOutput) (h : list Event)
    (ms : ManagedStream) (err : goError) (evs : list Event)
    (g2 : gcpBigQueryOutput) (revs : list Event)
    (res : Outcome (option error)) (g' : gcpBigQueryOutput)
    (evs' : list Event) :
    managedStream g = Some ms ->
    convertedRows g batch <> [] ->
    appendStage R (h ++ beforeAppend g batch) ms (convertedRows g batch) =
      (Err err, evs) ->
    isReconnectableError (Some err) = true ->
    retryCount < maxRetries ->
    ReconnectRun g (Returns None) g2 revs ->
    WriteRun batch (retryCount + 1) g2
      (h ++ beforeAppend g batch ++ evs ++ revs) res g' evs' ->
    WriteRun batch retryCount g h res g'
      (beforeAppend g batch ++ evs ++ revs ++ evs').

(** The error that [writeBatchWithRetry] returns when the stream creation
    of its reconnect fails with [e]. *)
Definition reconnectFailure (e : goError) : error :=
  Errorf "connection error reconnect failed: %w"
    [ArgError (Errorf "error creating new BigQuery managed stream: %w"
                 [ArgError (ErrLib e)])].

(** Events that touch neither the exclusive lock, nor a guarded field, nor
    a handle: all that an attempt produces outside [reconnect]. *)
Definition isLocalEvent (ev : Event) : bool :=
  match ev with
  | EvRLock | EvRUnlock | EvAsBytes _ | EvUnmarshal _ | EvMarshal _
  | EvAppendRows _ _ _ | EvGetResult _ _ | EvSleep _ => true
  | _ => false
  end.

(** Acknowledgements received: the calls of [GetResult] answered with an
    offset. *)
Definition isAck (ev : Event) : bool :=
  match ev with EvGetResult _ (Ok _) => true | _ => false end.
Definition acknowledgements (t : list Event) : nat :=
  length (filter (fun ev => isAck ev = true) t).

(** Every conversion, append and acknowledgement of [t] happens while
    neither lock is held; [shared] and [exclusive] tell which locks are
    held before [t]. *)
Fixpoint outsideLocks (shared exclusive : bool) (t : list Event) : bool :=
  match t with
  | [] => true
  | EvRLock :: t' => outsideLocks true exclusive t'
  | EvRUnlock :: t' => outsideLocks false exclusive t'
  | EvLock :: t' => outsideLocks shared true t'
  | EvUnlock :: t' => outsideLocks shared false t'
  | (EvAsBytes _ | EvUnmarshal _ | EvMarshal _ | EvAppendRows _ _ _
     | EvGetResult _ _) :: t' =>
      negb shared && negb exclusive && outsideLocks shared exclusive t'
  | _ :: t' => outsideLocks shared exclusive t'
  end.

(** The seconds slept during [t]. *)
Fixpoint sleepSeconds (t : list Event) : Z :=
  match t with
  | [] => 0
  | EvSleep seconds :: t' => seconds + sleepSeconds t'
  | _ :: t' => sleepSeconds t'
  end.

(** Whether an event closes a handle. *)
Definition isClose (ev : Event) : bool :=
  match ev with
  | EvClientClose _ | EvMWClientClose _ | EvStreamClose _ => true
  | _ => false
  end.

(** The error with which a remote call of [Connect] was answered, when
    the call failed. *)
Definition failedCall (ev : Event) : option goError :=
  match ev with
  | EvBQNewClient _ _ (Err e) | EvMWNewClient _ _ (Err e)
  | EvDatasetMetadata _ _ _ (Err e) | EvTableMetadata _ _ _ _ (Err e)
  | EvNewManagedStream _ _ _ _ (Err e) => Some e
  | _ => None
  end.

(** The events that follow the first failed call of a trace. *)
Fixpoint afterFailure (t : list Event) : list Event :=
  match t with
  | [] => []
  | ev :: t' =>
    match failedCall ev with
    | Some _ => t'
    | None => afterFailure t'
    end
  end.

(** Whether an event closes a handle or releases the exclusive lock. *)
Definition isCleanup (ev : Event) : bool :=
  isClose ev || match ev with EvUnlock => true | _ => false end.

(** *** Calls in a row *)

(** The calls that the host framework makes on an output. *)
Inductive Call : Type :=
| CallConnect
| CallWriteBatch (batch : MessageBatch)
| CallClose.

Definition call (c : Call) : M (option error) :=
  match c with
  | CallConnect => Connect R
  | CallWriteBatch batch => WriteBatch R batch
  | CallClose => Close
  end.

(** Calls made one after the other, whatever each of them returns. *)
Fixpoint calls (cs : list Call) : M unit :=
  match cs with
  | [] => ret tt
  | c :: cs' => bind (call c) (fun _ => calls cs')
  end.

(** What holds of the sink between calls: the configuration and the
    unmarshal options are those it was built with; whenever it holds a
    stream it holds both clients; the message descriptor and the
    descriptor proto are both cached or both nil. *)
Definition sessionInvariant (gconf : gcpBigQueryOutputConfig)
    (g : gcpBigQueryOutput) : Prop :=
  conf g = gconf /\
  protojson.AllowPartial (umo g) = AllowPartial gconf /\
  protojson.DiscardUnknown (umo g) = DiscardUnknown gconf /\
  (is_Some (managedStream g) ->
   is_Some (client g) /\ is_Some (mwClient g)) /\
  (messageDescriptor g = None <-> descriptorProto g = None).

End Derivations.

(** * Properties *)

(** Runs the monadic primitives of the sink on a world given as a record. *)
Ltac run_sink :=
  repeat (progress
    (unfold defer, bind, emit, load, store_client, store_mwClient,
       store_managedStream, store_messageDescriptor, store_descriptorProto,
       store, call_bigquery_NewClient, call_managedwriter_NewClient,
       call_Dataset_Metadata, call_Table_Metadata, call_NewManagedStream,
       call_AppendRows, call_GetResult, history, panic, ret;
     cbn [fst snd sink trace conf clientURL mwClientURL client mwClient
          managedStream messageDescriptor descriptorProto umo
          set_client set_mwClient set_managedStream set_messageDescriptor
          set_descriptorProto])).



(** ** Error classification *)

Lemma prefix_occurs (p s : string) :
  String.prefix p s = true <-> exists post : string, s = (p ++ post)%string.
Proof.
  revert s. induction p as [|a p IH]; intros s.
  - cbn. destruct s; split; eauto.
  - destruct s as [|b s]; cbn.
    + split; [discriminate|]. intros [post Hp]. discriminate.
    + destruct (Ascii.ascii_dec a b) as [->|Hne].
      * rewrite IH. split; intros [post Hp]; exists post.
        -- change (String b s = String b (p ++ post)). by rewrite Hp.
        -- change (String b s = String b (p ++ post)) in Hp.
           by injection Hp.
      * split; [discriminate|]. intros [post Hp].
        change (String b s = String a (p ++ post)) in Hp. congruence.
Qed.

Lemma Contains_occursIn (s sub : string) :
  Contains s sub = true <-> occursIn sub s.
Proof.
  unfold occursIn. induction s as [|a s IH]; cbn [Contains].
  - rewrite orb_false_r, prefix_occurs. split.
    + intros [post Hp]. exists EmptyString, post. exact Hp.
    + intros [pre [post Hp]]. destruct pre; [eauto|discriminate].
  - rewrite orb_true_iff, prefix_occurs, IH. split.
    + intros [[post Hp]|[pre [post Hp]]].
      * exists EmptyString, post. exact Hp.
      * exists (String a pre), post.
        change (String a s = String a (pre ++ sub ++ post)). by rewrite Hp.
    + intros [pre [post Hp]]. destruct pre as [|b pre].
      * left. eauto.
      * right. change (String a s = String b (pre ++ sub ++ post)) in Hp.
        injection Hp as _ Hp. eauto.
Qed.

Lemma reconnectCode_spec (c : Code) :
  reconnectCode c = true <->
  c = Aborted \/ c = Unavailable \/ c = Internal \/ c = DeadlineExceeded.
Proof. destruct c; cbn; intuition congruence. Qed.

Lemma status_carried (e : goError) :
  match grpcStatus e with
  | Some c => reconnectCode c
  | None => false
  end = true <-> carriesReconnectStatus e.
Proof.
  unfold carriesReconnectStatus. destruct (grpcStatus e) as [c|].
  - rewrite reconnectCode_spec. split; [eauto|].
    intros [c' [[= <-] Hc]]. exact Hc.
  - split; [discriminate|]. intros [c [[=] _]].
Qed.

Lemma cause_carried (e : goError) :
  match apiCause e with
  | Some (Some cause) =>
      match grpcStatus cause with
      | Some c => reconnectCode c
      | None => false
      end
  | _ => false
  end = true <->
  exists cause : goError,
    apiCause e = Some (Some cause) /\ carriesReconnectStatus cause.
Proof.
  destruct (apiCause e) as [[cause|]|].
  - rewrite status_carried. split; [eauto|].
    intros [cause' [[= <-] Hc]]. exact Hc.
  - split; [discriminate|]. intros [cause [[=] _]].
  - split; [discriminate|]. intros [cause [[=] _]].
Qed.

Lemma isReconnectableError_orb (e : goError) :
  isReconnectableError (Some e) =
  match grpcStatus e with
  | Some c => reconnectCode c
  | None => false
  end
  || (match apiCause e with
      | Some (Some cause) =>
          match grpcStatus cause with
          | Some c => reconnectCode c
          | None => false
          end
      | _ => false
      end
      || (Contains (errText e) "connection TTL" &&
          Contains (errText e) "exceeded"
          || Contains (errText e) "server_shutting_down")).
Proof.
  unfold isReconnectableError.
  repeat match goal with
         | |- context [if ?b then _ else _] => destruct b; cbn [orb]
         end; reflexivity.
Qed.

Lemma isReconnectableError_spec (e : goError) :
  isReconnectableError (Some e) = true <-> reconnectWorthy e.
Proof.
  rewrite isReconnectableError_orb. unfold reconnectWorthy.
  rewrite !orb_true_iff, andb_true_iff, status_carried, cause_carried,
    !Contains_occursIn.
  reflexivity.
Qed.

(** ** Runs of the sink *)

Section Runs.
Context `{Libraries}.
Variable R : Remote.

Lemma extend_nil (w : World) : extend w [] = w.
Proof. destruct w; unfold extend; cbn. by rewrite app_nil_r. Qed.

Lemma extend_extend (w : World) (a b : list Event) :
  extend (extend w a) b = extend w (a ++ b).
Proof. unfold extend; cbn. by rewrite app_assoc. Qed.

Lemma sink_extend (w : World) (a : list Event) : sink (extend w a) = sink w.
Proof. reflexivity. Qed.

Lemma trace_extend (w : World) (a : list Event) :
  trace (extend w a) = trace w ++ a.
Proof. reflexivity. Qed.

Lemma convertFrom_run (batch : MessageBatch) (msgs : list Message) :
  forall (i : nat) (batchErr : option service.BatchError) (rows : list bytes)
         (w : World),
    convertFrom batch i msgs batchErr rows w =
    (Returns (recordFailures batch (failedItems (sink w) i msgs) batchErr,
              rows ++ convertedRows (sink w) msgs),
     extend w (conversionEvents (sink w) i msgs)).
Proof.
  induction msgs as [|msg msgs IH]; intros i batchErr rows w.
  - cbn. by rewrite app_nil_r, extend_nil.
  - cbn [convertFrom failedItems conversionEvents].
    unfold convertedRows, convertOne in *. cbn [omap list_omap].
    unfold bind, emit, load; cbn.
    destruct (AsBytes msg) as [msgBytes|err]; cbn.
    + destruct (Unmarshal _ _ msgBytes) as [message|err]; cbn.
      * destruct (Marshal message) as [b|err]; cbn;
          rewrite IH; cbn; unfold extend; cbn;
          rewrite <- ?app_assoc; reflexivity.
      * rewrite IH; cbn; unfold extend; cbn;
          rewrite <- ?app_assoc; reflexivity.
    + rewrite IH; cbn; unfold extend; cbn;
          rewrite <- ?app_assoc; reflexivity.
Qed.

Lemma body_not_connected (retry : M (option error)) (batch : MessageBatch)
    (retryCount : Z) (w : World) :
  managedStream (sink w) = None ->
  writeBatchWithRetry_body R retry batch retryCount w =
  (Returns (Some ErrNotConnected), extend w [EvRLock; EvRUnlock]).
Proof.
  intros Hms. unfold writeBatchWithRetry_body, bind, emit, load; cbn.
  rewrite Hms. unfold ret, extend; cbn. by rewrite <- app_assoc.
Qed.

Lemma body_run (retry : M (option error)) (batch : MessageBatch)
    (retryCount : Z) (w : World) (ms : ManagedStream) :
  managedStream (sink w) = Some ms ->
  let g := sink w in
  let rows := convertedRows g batch in
  let batchErr := recordFailures batch (failedItems g 0 batch) None in
  let w1 := extend w (beforeAppend g batch) in
  writeBatchWithRetry_body R retry batch retryCount w =
  if (length rows =? 0)%nat then (Returns (returnBatchErr batchErr), w1)
  else
    match appendStage R (trace w1) ms rows with
    | (Err err, evs) =>
        if isReconnectableError (Some err) && (retryCount <? maxRetries)
        then
          match reconnect R (extend w1 evs) with
          | (Returns (Some reconnectErr), w2) =>
              (Returns (Some (Errorf "connection error reconnect failed: %w"
                                [ArgError reconnectErr])), w2)
          | (Returns None, w2) => retry w2
          | (Panics, w2) => (Panics, w2)
          | (OutOfFuel, w2) => (OutOfFuel, w2)
          end
        else (Returns (Some (ErrLib err)), extend w1 evs)
    | (Ok o, evs) =>
        if negb (o =? managedwriter.NoStreamOffset)
        then (Returns (Some (Errorf "offset mismatch, got %d want %d"
                               [ArgInt o;
                                ArgInt managedwriter.NoStreamOffset])),
              extend w1 evs)
        else (Returns (returnBatchErr batchErr), extend w1 evs)
    end.
Proof.
  intros Hms g rows batchErr w1.
  assert (Hw1 : extend {| sink := sink w;
                          trace := (trace w ++ [EvRLock]) ++ [EvRUnlock] |}
                  (conversionEvents g 0 batch) = w1).
  { unfold w1, beforeAppend, extend; cbn. by rewrite <- !app_assoc. }
  unfold writeBatchWithRetry_body, bind, emit, load.
  cbn [fst snd sink trace]. rewrite Hms, convertFrom_run.
  cbn [fst snd sink trace app]. fold g in Hw1 |- *. rewrite Hw1.
  fold rows; fold batchErr.
  destruct (length rows =? 0)%nat; [reflexivity|].
  unfold appendStage, call_AppendRows, call_GetResult, bind, history, emit,
    ret; cbn [fst snd sink trace].
  destruct (ManagedStream_AppendRows R (trace w1) ms rows) as [result|err].
  - destruct (AppendResult_GetResult R _ result) as [o|err].
    + destruct (negb (o =? managedwriter.NoStreamOffset));
        unfold extend; cbn [sink trace]; rewrite <- ?app_assoc; reflexivity.
    + destruct (isReconnectableError (Some err) && (retryCount <? maxRetries)).
      * unfold extend; cbn [sink trace]; rewrite <- ?app_assoc;
          cbn [app].
        destruct (reconnect R _) as [[[re|]| |] w2]; reflexivity.
      * unfold extend; cbn [sink trace]; rewrite <- ?app_assoc; reflexivity.
  - destruct (isReconnectableError (Some err) && (retryCount <? maxRetries)).
    + unfold extend; cbn [sink trace].
      destruct (reconnect R _) as [[[re|]| |] w2]; reflexivity.
    + reflexivity.
Qed.

Lemma body_retry_unused (r1 r2 : M (option error)) (batch : MessageBatch)
    (retryCount : Z) (w : World) :
  (retryCount <? maxRetries) = false ->
  writeBatchWithRetry_body R r1 batch retryCount w =
  writeBatchWithRetry_body R r2 batch retryCount w.
Proof.
  intros Hrc. destruct (managedStream (sink w)) as [ms|] eqn:Hms.
  - rewrite !(body_run _ _ _ _ ms Hms). cbv zeta.
    rewrite Hrc. destruct (length _ =? 0)%nat; [reflexivity|].
    destruct (appendStage _ _ _ _) as [[o|err] evs]; [reflexivity|].
    by rewrite andb_false_r.
  - by rewrite !body_not_connected.
Qed.

(** [writeBatchWithRetry] satisfies the recursive equation of the source:
    the recursion budget is never found spent. *)
Lemma writeBatchWithRetry_unfold (batch : MessageBatch) (retryCount : Z)
    (w : World) :
  writeBatchWithRetry R batch retryCount w =
  writeBatchWithRetry_body R (writeBatchWithRetry R batch (retryCount + 1))
    batch retryCount w.
Proof.
  unfold writeBatchWithRetry.
  destruct (retryCount <? maxRetries) eqn:Hrc.
  - apply Z.ltb_lt in Hrc. unfold maxRetries in *.
    replace (Z.to_nat (2 - retryCount))
      with (S (Z.to_nat (2 - (retryCount + 1)))) by lia.
    reflexivity.
  - destruct (Z.to_nat (maxRetries - retryCount)); cbn [writeBatchWithRetry_rec];
      by apply body_retry_unused.
Qed.

Lemma reconnect_run (w : World) :
  let g := sink w in
  let h := trace w ++ reconnectPrefix g in
  reconnect R w =
  match mwClient g with
  | None => (Panics, {| sink := withoutStream g; trace := h ++ [EvUnlock] |})
  | Some mw =>
    let r := Client_NewManagedStream R h mw (destinationTable g)
               managedwriter.DefaultStream (descriptorProto g) in
    let ev := EvNewManagedStream mw (destinationTable g)
                managedwriter.DefaultStream (descriptorProto g) r in
    match r with
    | Err err =>
        (Returns (Some (Errorf
                          "error creating new BigQuery managed stream: %w"
                          [ArgError (ErrLib err)])),
         {| sink := withoutStream g; trace := h ++ [ev; EvUnlock] |})
    | Ok ms =>
        (match client g with
         | Some _ => Returns None
         | None => Panics
         end,
         {| sink := set_managedStream (Some ms) g;
            trace := h ++ [ev; EvStore FmanagedStream; EvUnlock] |})
    end
  end.
Proof.
  intros g h. unfold h, reconnectPrefix, withoutStream, destinationTable.
  unfold g. destruct w as [g0 t]. clear g h.
  unfold reconnect.
  destruct (managedStream g0) as [old|] eqn:Hold;
    destruct (mwClient g0) as [mw|] eqn:Hmw; run_sink;
    rewrite ?Hold, ?Hmw; run_sink; rewrite ?Hmw; run_sink;
    rewrite <- ?app_assoc; cbn [app]; try reflexivity.
  - destruct (Client_NewManagedStream R _ mw _ _ _) as [ms|err]; run_sink;
      [destruct (client g0)|]; run_sink; unfold set_managedStream;
      cbn [conf clientURL mwClientURL client mwClient managedStream
           messageDescriptor descriptorProto umo];
      rewrite <- ?app_assoc; reflexivity.
  - destruct (Client_NewManagedStream R _ mw _ _ _) as [ms|err]; run_sink;
      [destruct (client g0)|]; run_sink; rewrite <- ?app_assoc; reflexivity.
Qed.


(** Reading a run that is known in full. *)
Lemma read_run {A} (c : M A) (w : World) (r : Outcome A)
    (g' : gcpBigQueryOutput) (evs : list Event) :
  c w = (r, {| sink := g'; trace := trace w ++ evs |}) ->
  resultOf c w = r /\ eventsOf c w = evs /\ sinkAfter c w = g'.
Proof.
  intros Hrun. unfold resultOf, eventsOf, sinkAfter. rewrite Hrun.
  cbn [fst snd sink trace]. by rewrite drop_app_length.
Qed.

(** *** Counting *)

Lemma appendAttempts_app (a b : list Event) :
  appendAttempts (a ++ b) = (appendAttempts a + appendAttempts b)%nat.
Proof. unfold appendAttempts. by rewrite filter_app, length_app. Qed.

Lemma exclusiveLocks_app (a b : list Event) :
  exclusiveLocks (a ++ b) = (exclusiveLocks a + exclusiveLocks b)%nat.
Proof. unfold exclusiveLocks. by rewrite filter_app, length_app. Qed.

Lemma streamCreations_app (a b : list Event) :
  streamCreations (a ++ b) = (streamCreations a + streamCreations b)%nat.
Proof. unfold streamCreations. by rewrite filter_app, length_app. Qed.

Lemma byteExtractions_app (a b : list Event) :
  byteExtractions (a ++ b) = (byteExtractions a + byteExtractions b)%nat.
Proof. unfold byteExtractions. by rewrite filter_app, length_app. Qed.

Lemma lastFailure_app (a b : list Event) :
  lastFailure (a ++ b) =
  match lastFailure b with
  | Some e => Some e
  | None => lastFailure a
  end.
Proof.
  induction a as [|ev a IH]; cbn [app lastFailure].
  - by destruct (lastFailure b).
  - rewrite IH. by destruct (lastFailure b).
Qed.

Lemma conversionEvents_counts (g : gcpBigQueryOutput) (msgs : list Message) :
  forall i : nat,
    appendAttempts (conversionEvents g i msgs) = 0%nat /\
    exclusiveLocks (conversionEvents g i msgs) = 0%nat /\
    streamCreations (conversionEvents g i msgs) = 0%nat /\
    byteExtractions (conversionEvents g i msgs) = length msgs /\
    lastFailure (conversionEvents g i msgs) = None.
Proof.
  induction msgs as [|msg msgs IH]; intros i; [done|].
  destruct (IH (S i)) as (Ha & Hl & Hs & Hb & Hf).
  cbn [conversionEvents length].
  change (EvAsBytes i :: ?l) with ([EvAsBytes i] ++ l).
  rewrite !appendAttempts_app, !exclusiveLocks_app, !streamCreations_app,
    !byteExtractions_app, !lastFailure_app, Ha, Hl, Hs, Hb, Hf.
  destruct (AsBytes msg) as [msgBytes|err]; [|done].
  by destruct (Unmarshal _ _ msgBytes).
Qed.

Lemma beforeAppend_counts (g : gcpBigQueryOutput) (batch : MessageBatch) :
  appendAttempts (beforeAppend g batch) = 0%nat /\
  exclusiveLocks (beforeAppend g batch) = 0%nat /\
  streamCreations (beforeAppend g batch) = 0%nat /\
  byteExtractions (beforeAppend g batch) = length batch /\
  lastFailure (beforeAppend g batch) = None.
Proof.
  destruct (conversionEvents_counts g batch 0) as (Ha & Hl & Hs & Hb & Hf).
  unfold beforeAppend.
  rewrite appendAttempts_app, exclusiveLocks_app, streamCreations_app,
    byteExtractions_app, lastFailure_app, Ha, Hl, Hs, Hb, Hf.
  done.
Qed.

Lemma appendStage_counts (h : list Event) (ms : ManagedStream)
    (rows : list bytes) (r : Result Z) (evs : list Event) :
  appendStage R h ms rows = (r, evs) ->
  appendAttempts evs = 1%nat /\ exclusiveLocks evs = 0%nat /\
  streamCreations evs = 0%nat /\ byteExtractions evs = 0%nat /\
  lastFailure evs = match r with Err e => Some e | Ok _ => None end.
Proof.
  unfold appendStage.
  destruct (ManagedStream_AppendRows R h ms rows) as [result|err].
  - destruct (AppendResult_GetResult R _ result) as [o|err];
      intros [= <- <-]; done.
  - intros [= <- <-]; done.
Qed.

Lemma reconnectEvents_counts (g : gcpBigQueryOutput) (mw : MWClient)
    (r : Result ManagedStream) :
  appendAttempts (reconnectEvents g mw r) = 0%nat /\
  exclusiveLocks (reconnectEvents g mw r) = 1%nat /\
  streamCreations (reconnectEvents g mw r) = 1%nat /\
  byteExtractions (reconnectEvents g mw r) = 0%nat /\
  lastFailure (reconnectEvents g mw r) = None.
Proof.
  unfold reconnectEvents, reconnectPrefix.
  destruct (managedStream g), r; done.
Qed.

(** *** What [reconnect] keeps *)

Lemma convertOne_set_managedStream (g : gcpBigQueryOutput)
    (v : option ManagedStream) (msg : Message) :
  convertOne (set_managedStream v g) msg = convertOne g msg.
Proof. reflexivity. Qed.

Lemma convertedRows_set_managedStream (g : gcpBigQueryOutput)
    (v : option ManagedStream) (msgs : list Message) :
  convertedRows (set_managedStream v g) msgs = convertedRows g msgs.
Proof. reflexivity. Qed.

Lemma failedItems_set_managedStream (g : gcpBigQueryOutput)
    (v : option ManagedStream) (msgs : list Message) (i : nat) :
  failedItems (set_managedStream v g) i msgs = failedItems g i msgs.
Proof. revert i. induction msgs as [|m msgs IH]; intros i; [done|].
  cbn [failedItems]. rewrite convertOne_set_managedStream, IH. done. Qed.

Lemma conversionEvents_set_managedStream (g : gcpBigQueryOutput)
    (v : option ManagedStream) (msgs : list Message) (i : nat) :
  conversionEvents (set_managedStream v g) i msgs = conversionEvents g i msgs.
Proof. revert i. induction msgs as [|m msgs IH]; intros i; [done|].
  cbn [conversionEvents]. by rewrite IH. Qed.

Lemma beforeAppend_set_managedStream (g : gcpBigQueryOutput)
    (v : option ManagedStream) (batch : MessageBatch) :
  beforeAppend (set_managedStream v g) batch = beforeAppend g batch.
Proof.
  unfold beforeAppend. by rewrite conversionEvents_set_managedStream.
Qed.

(** *** One attempt *)

(** An attempt whose append stage fails with an error that is not
    classified reconnectable, or at the retry ceiling, returns that error
    as it is. *)
Lemma attempt_gives_up (batch : MessageBatch) (retryCount : Z) (w : World)
    (ms : ManagedStream) (err : goError) (evs : list Event) :
  managedStream (sink w) = Some ms ->
  convertedRows (sink w) batch <> [] ->
  appendStage R (trace w ++ beforeAppend (sink w) batch) ms
    (convertedRows (sink w) batch) = (Err err, evs) ->
  isReconnectableError (Some err) && (retryCount <? maxRetries) = false ->
  writeBatchWithRetry R batch retryCount w =
  (Returns (Some (ErrLib err)),
   {| sink := sink w; trace := trace w ++ beforeAppend (sink w) batch ++ evs |}).
Proof.
  intros Hms Hrows Hstage Hfatal.
  rewrite writeBatchWithRetry_unfold, (body_run _ _ _ _ ms Hms). cbv zeta.
  destruct (convertedRows (sink w) batch) as [|row rows] eqn:Hr; [done|].
  cbn [length Nat.eqb]. rewrite trace_extend, Hstage, Hfatal.
  unfold extend; cbn [sink trace]. by rewrite <- app_assoc.
Qed.

(** An attempt whose append stage fails with a reconnectable error below
    the retry ceiling, followed by a reconnect that succeeds, hands over to
    the recursive call, which starts from the world after the reconnect. *)
Lemma attempt_retries (batch : MessageBatch) (retryCount : Z) (w : World)
    (ms : ManagedStream) (mw : MWClient) (c : Client) (err : goError)
    (evs : list Event) (ms' : ManagedStream) :
  managedStream (sink w) = Some ms ->
  mwClient (sink w) = Some mw ->
  client (sink w) = Some c ->
  convertedRows (sink w) batch <> [] ->
  appendStage R (trace w ++ beforeAppend (sink w) batch) ms
    (convertedRows (sink w) batch) = (Err err, evs) ->
  isReconnectableError (Some err) = true ->
  retryCount < maxRetries ->
  reconnectAnswer R (trace w ++ beforeAppend (sink w) batch ++ evs) (sink w) mw
    = Ok ms' ->
  writeBatchWithRetry R batch retryCount w =
  writeBatchWithRetry R batch (retryCount + 1)
    {| sink := set_managedStream (Some ms') (sink w);
       trace := trace w ++ beforeAppend (sink w) batch ++ evs ++
                reconnectEvents (sink w) mw (Ok ms') |}.
Proof.
  intros Hms Hmw Hc Hrows Hstage Hre Hrc Hanswer.
  rewrite writeBatchWithRetry_unfold, (body_run _ _ _ _ ms Hms). cbv zeta.
  destruct (convertedRows (sink w) batch) as [|row rows] eqn:Hr; [done|].
  cbn [length Nat.eqb]. rewrite trace_extend, Hstage, Hre.
  apply Z.ltb_lt in Hrc. rewrite Hrc. cbn [andb].
  rewrite reconnect_run. cbv zeta.
  rewrite !sink_extend, !trace_extend, Hmw, Hc.
  unfold reconnectAnswer in Hanswer.
  rewrite <- !app_assoc in Hanswer |- *. rewrite Hanswer.
  unfold reconnectEvents. rewrite <- !app_assoc. reflexivity.
Qed.


(** ** The batch-write protocol *)

(** C3. Without a stream handle the batch write returns the framework's
    not-connected error at once: it takes and releases the shared lock,
    converts nothing, issues no append, does not panic, and leaves the
    sink as it was. This holds at every retry count, in particular for
    [WriteBatch]. *)
Theorem not_connected_guard (batch : MessageBatch) (retryCount : Z)
    (w : World) :
  managedStream (sink w) = None ->
  resultOf (writeBatchWithRetry R batch retryCount) w =
    Returns (Some ErrNotConnected) /\
  eventsOf (writeBatchWithRetry R batch retryCount) w = [EvRLock; EvRUnlock] /\
  appendAttempts (eventsOf (writeBatchWithRetry R batch retryCount) w) = 0%nat /\
  sinkAfter (writeBatchWithRetry R batch retryCount) w = sink w /\
  resultOf (WriteBatch R batch) w = Returns (Some ErrNotConnected).
Proof.
  intros Hms.
  assert (Hrun : forall rc,
    writeBatchWithRetry R batch rc w =
    (Returns (Some ErrNotConnected),
     {| sink := sink w; trace := trace w ++ [EvRLock; EvRUnlock] |})).
  { intros rc. rewrite writeBatchWithRetry_unfold.
    by rewrite body_not_connected. }
  destruct (read_run _ _ _ _ _ (Hrun retryCount)) as (Hres & Hev & Hsink).
  rewrite Hres, Hev, Hsink. repeat split.
  unfold WriteBatch. by destruct (read_run _ _ _ _ _ (Hrun 0)) as (-> & _).
Qed.

(** An attempt whose append and acknowledgement succeed ends the call. *)
Lemma attempt_acknowledged (batch : MessageBatch) (retryCount : Z)
    (w : World) (ms : ManagedStream) (o : Z) (evs : list Event) :
  managedStream (sink w) = Some ms ->
  convertedRows (sink w) batch <> [] ->
  appendStage R (trace w ++ beforeAppend (sink w) batch) ms
    (convertedRows (sink w) batch) = (Ok o, evs) ->
  writeBatchWithRetry R batch retryCount w =
  (Returns
     (if negb (o =? managedwriter.NoStreamOffset)
      then Some (Errorf "offset mismatch, got %d want %d"
                   [ArgInt o; ArgInt managedwriter.NoStreamOffset])
      else returnBatchErr
             (recordFailures batch (failedItems (sink w) 0 batch) None)),
   {| sink := sink w; trace := trace w ++ beforeAppend (sink w) batch ++ evs |}).
Proof.
  intros Hms Hrows Hstage.
  rewrite writeBatchWithRetry_unfold, (body_run _ _ _ _ ms Hms). cbv zeta.
  destruct (convertedRows (sink w) batch) as [|row rows] eqn:Hr; [done|].
  cbn [length Nat.eqb]. rewrite trace_extend, Hstage.
  unfold extend; cbn [sink trace]. rewrite <- app_assoc.
  by destruct (negb (o =? managedwriter.NoStreamOffset)).
Qed.



(** C2. An error is classified reconnectable exactly when it carries one
    of the statuses aborted, unavailable, internal and deadline-exceeded,
    or is an API error whose cause carries one of them, or its text
    contains both "connection TTL" and "exceeded", or contains
    "server_shutting_down". An append or acknowledgement error outside this
    class is returned by the call as it is, and the call ends with that
    failure: no reconnect, no stream creation, no second append. *)
Theorem reconnectable_classification :
  (forall err : goError,
     isReconnectableError (Some err) = true <-> reconnectWorthy err) /\
  (forall (batch : MessageBatch) (retryCount : Z) (w : World)
          (ms : ManagedStream) (err : goError) (evs : list Event),
     managedStream (sink w) = Some ms ->
     convertedRows (sink w) batch <> [] ->
     appendStage R (trace w ++ beforeAppend (sink w) batch) ms
       (convertedRows (sink w) batch) = (Err err, evs) ->
     ~ reconnectWorthy err ->
     resultOf (writeBatchWithRetry R batch retryCount) w =
       Returns (Some (ErrLib err)) /\
     eventsOf (writeBatchWithRetry R batch retryCount) w =
       beforeAppend (sink w) batch ++ evs /\
     reconnectAttempts (eventsOf (writeBatchWithRetry R batch retryCount) w)
       = 0%nat /\
     streamCreations (eventsOf (writeBatchWithRetry R batch retryCount) w)
       = 0%nat /\
     appendAttempts (eventsOf (writeBatchWithRetry R batch retryCount) w)
       = 1%nat).
Proof.
  split; [exact isReconnectableError_spec|].
  intros batch retryCount w ms err evs Hms Hrows Hstage Hfatal.
  assert (Hcls : isReconnectableError (Some err) = false).
  { destruct (isReconnectableError (Some err)) eqn:Hc; [|done].
    by apply isReconnectableError_spec in Hc. }
  pose proof (attempt_gives_up batch retryCount w ms err evs Hms Hrows Hstage)
    as Hrun.
  rewrite Hcls in Hrun. specialize (Hrun eq_refl).
  destruct (read_run _ _ _ _ _ Hrun) as (-> & -> & _).
  destruct (beforeAppend_counts (sink w) batch) as (Pa & Pl & Ps & _).
  destruct (appendStage_counts _ _ _ _ _ Hstage) as (A1 & L1 & S1 & _).
  unfold reconnectAttempts.
  rewrite appendAttempts_app, exclusiveLocks_app, streamCreations_app,
    Pa, Pl, Ps, A1, L1, S1.
  done.
Qed.

(** C5. When the append and its acknowledgement succeed and the
    acknowledged offset is not [managedwriter.NoStreamOffset], the call
    returns the offset-mismatch error and ends there: no reconnect follows
    and the sink is left as it was. *)
Theorem offset_mismatch_is_fatal (batch : MessageBatch) (retryCount : Z)
    (w : World) (ms : ManagedStream) (o : Z) (evs : list Event) :
  managedStream (sink w) = Some ms ->
  convertedRows (sink w) batch <> [] ->
  appendStage R (trace w ++ beforeAppend (sink w) batch) ms
    (convertedRows (sink w) batch) = (Ok o, evs) ->
  o <> managedwriter.NoStreamOffset ->
  resultOf (writeBatchWithRetry R batch retryCount) w =
    Returns (Some (Errorf "offset mismatch, got %d want %d"
                     [ArgInt o; ArgInt managedwriter.NoStreamOffset])) /\
  eventsOf (writeBatchWithRetry R batch retryCount) w =
    beforeAppend (sink w) batch ++ evs /\
  reconnectAttempts (eventsOf (writeBatchWithRetry R batch retryCount) w)
    = 0%nat /\
  streamCreations (eventsOf (writeBatchWithRetry R batch retryCount) w)
    = 0%nat /\
  sinkAfter (writeBatchWithRetry R batch retryCount) w = sink w.
Proof.
  intros Hms Hrows Hstage Ho.
  pose proof (attempt_acknowledged batch retryCount w ms o evs
                Hms Hrows Hstage) as Hrun.
  apply Z.eqb_neq in Ho. rewrite Ho in Hrun. cbn [negb] in Hrun.
  destruct (read_run _ _ _ _ _ Hrun) as (-> & -> & ->).
  destruct (beforeAppend_counts (sink w) batch) as (_ & Pl & Ps & _).
  destruct (appendStage_counts _ _ _ _ _ Hstage) as (_ & L1 & S1 & _).
  unfold reconnectAttempts.
  rewrite exclusiveLocks_app, streamCreations_app, Pl, Ps, L1, S1.
  done.
Qed.


(** ** Accounting of per-item failures *)


Lemma failureCount_cons (g : gcpBigQueryOutput) (msg : Message)
    (msgs : list Message) :
  failureCount g (msg :: msgs) =
  match convertOne g msg with
  | Ok _ => failureCount g msgs
  | Err _ => S (failureCount g msgs)
  end.
Proof.
  unfold failureCount, failsConversion. rewrite filter_cons.
  destruct (convertOne g msg); by case_decide.
Qed.

Lemma failedItems_length (g : gcpBigQueryOutput) (msgs : list Message) :
  forall i : nat, length (failedItems g i msgs) = failureCount g msgs.
Proof.
  induction msgs as [|msg msgs IH]; intros i; [done|].
  cbn [failedItems]. rewrite failureCount_cons.
  destruct (convertOne g msg); cbn [length]; by rewrite IH.
Qed.


Lemma recordFailures_Some (batch : MessageBatch)
    (items : list (nat * goError)) :
  forall b : service.BatchError,
    recordFailures batch items (Some b) =
    Some {| service.headline := service.headline b;
            service.partErrors :=
              fold_left (fun m item => <[fst item := snd item]> m) items
                (service.partErrors b) |}.
Proof.
  unfold recordFailures.
  induction items as [|[i e] items IH]; intros b; cbn [fold_left].
  - by destruct b.
  - change (setErr batch (fst (i, e)) (snd (i, e)) (Some b))
      with (Some (service.Failed i e b)).
    rewrite IH. reflexivity.
Qed.

Lemma recordFailures_None (batch : MessageBatch)
    (items : list (nat * goError)) :
  recordFailures batch items None =
  match items with
  | [] => None
  | item :: _ =>
      Some {| service.headline := snd item;
              service.partErrors :=
                fold_left (fun m item => <[fst item := snd item]> m) items ∅ |}
  end.
Proof.
  destruct items as [|[i e] items]; [done|].
  change (recordFailures batch ((i, e) :: items) None)
    with (recordFailures batch items
            (Some (service.Failed i e (service.NewBatchError batch e)))).
  by rewrite recordFailures_Some.
Qed.

Lemma failures_lookup (g : gcpBigQueryOutput) (msgs : list Message) :
  forall (i : nat) (m : gmap nat goError) (j : nat),
    fold_left (fun m item => <[fst item := snd item]> m)
      (failedItems g i msgs) m !! j =
    if decide (i <= j)%nat then
      match msgs !! (j - i)%nat with
      | Some msg =>
        match convertOne g msg with
        | Err err => Some err
        | Ok _ => m !! j
        end
      | None => m !! j
      end
    else m !! j.
Proof.
  induction msgs as [|msg msgs IH]; intros i m j.
  - cbn. by case_decide.
  - cbn [failedItems].
    destruct (convertOne g msg) as [b|err] eqn:Hconv; cbn [fold_left fst snd];
      rewrite IH; destruct (decide (S i <= j)%nat) as [Hj|Hj];
      destruct (decide (i <= j)%nat) as [Hi|Hi]; try lia.
    + replace (j - i)%nat with (S (j - S i)) by lia. done.
    + replace (j - i)%nat with 0%nat by lia. cbn. by rewrite Hconv.
    + done.
    + replace (j - i)%nat with (S (j - S i)) by lia. cbn.
      rewrite lookup_insert_ne by lia. done.
    + replace (j - i)%nat with 0%nat by lia. cbn. rewrite Hconv.
      assert (j = i) as -> by lia. by rewrite lookup_insert_eq.
    + rewrite lookup_insert_ne by lia. done.
Qed.

Lemma failures_size (g : gcpBigQueryOutput) (msgs : list Message) :
  forall (i : nat) (m : gmap nat goError),
    (forall k : nat, (i <= k)%nat -> m !! k = None) ->
    size (fold_left (fun m item => <[fst item := snd item]> m)
            (failedItems g i msgs) m) =
    (size m + length (failedItems g i msgs))%nat.
Proof.
  induction msgs as [|msg msgs IH]; intros i m Hfresh; [cbn; lia|].
  cbn [failedItems].
  destruct (convertOne g msg) as [b|err]; cbn [fold_left fst snd length].
  - apply IH. intros k Hk. apply Hfresh. lia.
  - rewrite IH.
    + rewrite map_size_insert_None by (apply Hfresh; lia). lia.
    + intros k Hk. rewrite lookup_insert_ne by lia. apply Hfresh. lia.
Qed.

(** The batch error that the conversion loop accumulates: none when every
    message converts, and otherwise one whose map holds, at each index, the
    failure of the message at that index, and nothing else. *)
Lemma accumulated_failures (g : gcpBigQueryOutput) (batch : MessageBatch) :
  match recordFailures batch (failedItems g 0 batch) None with
  | None => failureCount g batch = 0%nat
  | Some b =>
      (0 < failureCount g batch)%nat /\
      service.IndexedErrors b = failureCount g batch /\
      forall i : nat, service.partErrors b !! i = itemFailure g batch i
  end.
Proof.
  rewrite recordFailures_None.
  pose proof (failedItems_length g batch 0) as Hlen.
  destruct (failedItems g 0 batch) as [|item items] eqn:Hitems; [done|].
  rewrite <- Hitems. unfold service.IndexedErrors. cbn [service.partErrors].
  split; [cbn in Hlen; lia|]. split.
  - rewrite failures_size by (intros; apply lookup_empty).
    rewrite map_size_empty. rewrite Hitems. cbn [length] in *. lia.
  - intros i. rewrite failures_lookup. unfold itemFailure.
    rewrite Nat.sub_0_r. case_decide; [|lia].
    unfold MessageBatch in *.
    destruct (batch !! i) as [msg|]; [|apply lookup_empty].
    destruct (convertOne g msg); [apply lookup_empty|done].
Qed.


(** C10. When some message fails conversion, some message converts, the
    append and its acknowledgement succeed, and the acknowledged offset is
    not the sentinel, the call returns the offset-mismatch error alone:
    the batch error accumulated by the conversion loop, which holds every
    per-item failure, is not what the call returns. *)
Theorem offset_mismatch_drops_item_failures (batch : MessageBatch)
    (retryCount : Z) (w : World) (ms : ManagedStream) (o : Z)
    (evs : list Event) :
  managedStream (sink w) = Some ms ->
  (0 < failureCount (sink w) batch)%nat ->
  convertedRows (sink w) batch <> [] ->
  appendStage R (trace w ++ beforeAppend (sink w) batch) ms
    (convertedRows (sink w) batch) = (Ok o, evs) ->
  o <> managedwriter.NoStreamOffset ->
  resultOf (writeBatchWithRetry R batch retryCount) w =
    Returns (Some (Errorf "offset mismatch, got %d want %d"
                     [ArgInt o; ArgInt managedwriter.NoStreamOffset])) /\
  (exists b : service.BatchError,
     recordFailures batch (failedItems (sink w) 0 batch) None = Some b /\
     service.IndexedErrors b = failureCount (sink w) batch) /\
  (forall b : service.BatchError,
     resultOf (writeBatchWithRetry R batch retryCount) w <>
       Returns (Some (ErrBatch b))).
Proof.
  intros Hms Hfail Hrows Hstage Ho.
  pose proof (attempt_acknowledged batch retryCount w ms o evs
                Hms Hrows Hstage) as Hrun.
  apply Z.eqb_neq in Ho. rewrite Ho in Hrun. cbn [negb] in Hrun.
  destruct (read_run _ _ _ _ _ Hrun) as (-> & _ & _).
  split; [done|]. split; [|done].
  pose proof (accumulated_failures (sink w) batch) as Hacc.
  destruct (recordFailures batch (failedItems (sink w) 0 batch) None) as [b|].
  - exists b. by destruct Hacc as (_ & ? & _).
  - lia.
Qed.

(** *** Facts about every run of the batch write *)

Lemma conversionEvents_no_append (g : gcpBigQueryOutput)
    (msgs : list Message) :
  forall (i : nat) (ms : ManagedStream) (rows : list bytes)
         (r : Result AppendResult),
    ~ In (EvAppendRows ms rows r) (conversionEvents g i msgs).
Proof.
  induction msgs as [|msg msgs IH]; intros i ms rows r; [by intros []|].
  cbn [conversionEvents]. intros [Hin|Hin]; [done|].
  apply in_app_iff in Hin as [Hin|Hin]; [|by apply IH in Hin].
  destruct (AsBytes msg) as [msgBytes|err]; [|done].
  destruct Hin as [Hin|Hin]; [done|].
  destruct (Unmarshal _ _ msgBytes); [|done].
  by destruct Hin as [Hin|Hin].
Qed.

Lemma beforeAppend_no_append (g : gcpBigQueryOutput) (batch : MessageBatch)
    (ms : ManagedStream) (rows : list bytes) (r : Result AppendResult) :
  ~ In (EvAppendRows ms rows r) (beforeAppend g batch).
Proof.
  unfold beforeAppend. intros [Hin|[Hin|Hin]]; try done.
  by apply conversionEvents_no_append in Hin.
Qed.

Lemma appendStage_appends (h : list Event) (ms : ManagedStream)
    (rows : list bytes) (res : Result Z) (evs : list Event)
    (ms' : ManagedStream) (rows' : list bytes) (r : Result AppendResult) :
  appendStage R h ms rows = (res, evs) ->
  In (EvAppendRows ms' rows' r) evs -> ms' = ms /\ rows' = rows.
Proof.
  unfold appendStage.
  destruct (ManagedStream_AppendRows R h ms rows) as [result|err].
  - destruct (AppendResult_GetResult R _ result) as [o|err];
      intros [= <- <-] [[= -> -> _]|[Hin|[]]]; done.
  - intros [= <- <-] [[= -> -> _]|[]]. done.
Qed.

Lemma reconnectEvents_no_append (g : gcpBigQueryOutput) (mw : MWClient)
    (res : Result ManagedStream) (ms : ManagedStream) (rows : list bytes)
    (r : Result AppendResult) :
  ~ In (EvAppendRows ms rows r) (reconnectEvents g mw res).
Proof.
  unfold reconnectEvents, reconnectPrefix. cbn [app].
  destruct (managedStream g), res; cbn [app In]; intuition discriminate.
Qed.

(** What a call of [reconnect] that returns nil has done. *)
Lemma reconnect_succeeds (w : World) (w' : World) :
  reconnect R w = (Returns None, w') ->
  exists (mw : MWClient) (ms' : ManagedStream),
    mwClient (sink w) = Some mw /\
    w' = {| sink := set_managedStream (Some ms') (sink w);
            trace := trace w ++ reconnectEvents (sink w) mw (Ok ms') |}.
Proof.
  rewrite reconnect_run. cbv zeta.
  destruct (mwClient (sink w)) as [mw|]; [|discriminate].
  unfold reconnectEvents.
  destruct (Client_NewManagedStream R _ mw _ _ _) as [ms'|err] eqn:Hnew;
    [|discriminate].
  destruct (client (sink w)); [|discriminate].
  intros [= <-]. exists mw, ms'. split; [done|].
  by rewrite <- !app_assoc.
Qed.

(** The events of a call of [reconnect], whatever its outcome. *)
Lemma reconnect_events (w : World) :
  exists evs : list Event,
    trace (snd (reconnect R w)) = trace w ++ evs /\
    exclusiveLocks evs = 1%nat /\ appendAttempts evs = 0%nat /\
    (forall ms rows r, ~ In (EvAppendRows ms rows r) evs) /\
    fst (reconnect R w) <> OutOfFuel.
Proof.
  rewrite reconnect_run. cbv zeta. unfold reconnectPrefix.
  destruct (mwClient (sink w)) as [mw|].
  - destruct (Client_NewManagedStream R _ mw _ _ _) as [ms'|err];
      cbn [fst snd trace]; rewrite <- !app_assoc; eexists;
      (split; [reflexivity|]);
      destruct (managedStream (sink w)), (client (sink w));
      cbn [app In]; repeat split; try done; intuition discriminate.
  - cbn [fst snd trace]; rewrite <- !app_assoc; eexists;
      (split; [reflexivity|]);
      destruct (managedStream (sink w));
      cbn [app In]; repeat split; try done; intuition discriminate.
Qed.


(** The facts for a run that ends with its first attempt. *)
Lemma single_attempt_facts (batch : MessageBatch) (n : nat) (retryCount : Z)
    (w : World) (res : Outcome (option error)) (evs : list Event) :
  writeBatchWithRetry R batch retryCount w = (res, extend w evs) ->
  (forall ms rows r,
     In (EvAppendRows ms rows r) evs -> rows = convertedRows (sink w) batch) ->
  (res = Returns (returnBatchErr
                    (recordFailures batch (failedItems (sink w) 0 batch) None))
   \/ exists e, res = Returns (Some e) /\ forall b, e <> ErrBatch b) ->
  exclusiveLocks evs = 0%nat ->
  (appendAttempts evs <= 1)%nat ->
  writeRunFacts R batch n retryCount w.
Proof.
  intros Hrun Hrows Hres Hlocks Happs. unfold writeRunFacts, reconnectAttempts.
  exists evs. rewrite Hrun. cbn [fst snd extend trace].
  pose proof (accumulated_failures (sink w) batch) as Hacc.
  repeat split; try done; try lia.
  - intros b ->. destruct Hres as [[= Hb]|(e & [= <-] & Hne)];
      [|by destruct (Hne b)].
    destruct (recordFailures batch (failedItems (sink w) 0 batch) None)
      as [b'|]; unfold returnBatchErr in Hb; congruence.
  - intros ->. destruct Hres as [[= Hb]|(e & [=] & _)].
    by destruct (recordFailures batch (failedItems (sink w) 0 batch) None).
  - destruct Hres as [->|(e & -> & _)]; done.
Qed.

Lemma write_step_facts (batch : MessageBatch) (n : nat) (retryCount : Z)
    (w : World) :
  n = Z.to_nat (maxRetries - retryCount) ->
  (retryCount < maxRetries ->
   forall w' : World, writeRunFacts R batch (pred n) (retryCount + 1) w') ->
  writeRunFacts R batch n retryCount w.
Proof.
  intros Hn IH.
  destruct (managedStream (sink w)) as [ms|] eqn:Hms.
  2: { apply (single_attempt_facts _ _ _ _ (Returns (Some ErrNotConnected))
                [EvRLock; EvRUnlock]); try done; try (compute; lia).
       - rewrite writeBatchWithRetry_unfold. by apply body_not_connected.
       - intros ? ? ? [?|[?|[]]]; done.
       - right. by eexists. }
  pose proof (writeBatchWithRetry_unfold batch retryCount w) as Hrun.
  rewrite (body_run _ _ _ _ ms Hms) in Hrun. cbv zeta in Hrun.
  destruct (beforeAppend_counts (sink w) batch) as (Pa & Pl & _).
  destruct (length (convertedRows (sink w) batch) =? 0)%nat.
  { apply (single_attempt_facts _ _ _ _ _ _ Hrun); try done; try lia.
    - intros ? ? ? Hin. by apply beforeAppend_no_append in Hin.
    - by left. }
  rewrite trace_extend in Hrun.
  destruct (appendStage R _ ms _) as [[o|err] evs] eqn:Hstage;
    destruct (appendStage_counts _ _ _ _ _ Hstage) as (A1 & L1 & _).
  - (* acknowledged *)
    assert (Hfin : forall res,
      writeBatchWithRetry R batch retryCount w =
        (res, extend (extend w (beforeAppend (sink w) batch)) evs) ->
      (res = Returns (returnBatchErr
                (recordFailures batch (failedItems (sink w) 0 batch) None))
       \/ exists e, res = Returns (Some e) /\ forall b, e <> ErrBatch b) ->
      writeRunFacts R batch n retryCount w).
    { intros res Hr Hres. rewrite extend_extend in Hr.
      apply (single_attempt_facts _ _ _ _ _ _ Hr); try done.
      - intros ? ? ? Hin; apply in_app_iff in Hin as [Hin|Hin];
          [by apply beforeAppend_no_append in Hin
          |by apply (appendStage_appends _ _ _ _ _ _ _ _ Hstage) in Hin as [_ ->]].
      - rewrite exclusiveLocks_app. lia.
      - rewrite appendAttempts_app. lia. }
    destruct (negb (o =? managedwriter.NoStreamOffset));
      apply (Hfin _ Hrun); [right; by eexists|by left].
  - (* failed *)
    destruct (isReconnectableError (Some err) && (retryCount <? maxRetries))
      eqn:Hguard.
    2: { rewrite extend_extend in Hrun.
         apply (single_attempt_facts _ _ _ _ _ _ Hrun); try done.
         - intros ? ? ? Hin; apply in_app_iff in Hin as [Hin|Hin];
             [by apply beforeAppend_no_append in Hin
             |by apply (appendStage_appends _ _ _ _ _ _ _ _ Hstage) in Hin as [_ ->]].
         - right. by eexists.
         - rewrite exclusiveLocks_app. lia.
         - rewrite appendAttempts_app. lia. }
    apply andb_true_iff in Hguard as [_ Hrc%Z.ltb_lt].
    specialize (IH Hrc).
    assert (Hn' : n = S (pred n)) by (unfold maxRetries in *; lia).
    set (w1 := extend (extend w (beforeAppend (sink w) batch)) evs) in *.
    assert (Htr1 : trace w1 = trace w ++ beforeAppend (sink w) batch ++ evs).
    { unfold w1; cbn [extend trace]. by rewrite <- app_assoc. }
    assert (Hfirst : forall t ms' rows' r,
              In (EvAppendRows ms' rows' r)
                 (beforeAppend (sink w) batch ++ evs ++ t) ->
              In (EvAppendRows ms' rows' r) t \/
              rows' = convertedRows (sink w) batch).
    { intros t ? ? ? Hin. apply in_app_iff in Hin as [Hin|Hin];
        [by apply beforeAppend_no_append in Hin|].
      apply in_app_iff in Hin as [Hin|Hin]; [|by left].
      right.
      by apply (appendStage_appends _ _ _ _ _ _ _ _ Hstage) in Hin as [_ ->]. }
    destruct (reconnect_events w1) as (revs & Htr & RL & RA & Rno & Rfuel).
    destruct (reconnect R w1) as [[[re|]| |] w2] eqn:Hre; cbn [fst snd] in *.
    + unfold writeRunFacts, reconnectAttempts. rewrite Hrun. cbn [fst snd].
      exists (beforeAppend (sink w) batch ++ evs ++ revs).
      rewrite Htr, Htr1, <- !app_assoc.
      rewrite !appendAttempts_app, !exclusiveLocks_app, Pa, Pl, A1, L1, RL, RA.
      repeat split; try done; try lia.
      intros ? ? ? Hin. apply Hfirst in Hin as [Hin|Hin]; [|done].
      by apply Rno in Hin.
    + apply reconnect_succeeds in Hre as (mw & ms' & Hmw & ->).
      destruct (IH {| sink := set_managedStream (Some ms') (sink w1);
                      trace := trace w1 ++
                               reconnectEvents (sink w1) mw (Ok ms') |})
        as (evs2 & Htr2 & Hrows2 & Hb2 & Hn2 & HL2 & HA2 & Hfuel2).
      unfold reconnectAttempts in *.
      cbn [sink trace] in Htr2, Hrows2, Hb2, Hn2.
      change (sink w1) with (sink w) in *.
      rewrite failedItems_set_managedStream in Hb2.
      change (failureCount (set_managedStream (Some ms') (sink w)) batch)
        with (failureCount (sink w) batch) in Hn2.
      change (convertedRows (set_managedStream (Some ms') (sink w)) batch)
        with (convertedRows (sink w) batch) in Hrows2.
      rewrite Htr1 in Hrun, Htr2, Hb2, Hn2, Hfuel2.
      rewrite <- !app_assoc in Hrun, Htr2, Hb2, Hn2, Hfuel2.
      unfold writeRunFacts, reconnectAttempts. rewrite Hrun.
      exists (beforeAppend (sink w) batch ++ evs ++
              reconnectEvents (sink w) mw (Ok ms') ++ evs2).
      rewrite Htr2, <- !app_assoc.
      destruct (reconnectEvents_counts (sink w) mw (Ok ms')) as (QA & QL & _).
      rewrite !appendAttempts_app, !exclusiveLocks_app, Pa, Pl, A1, L1, QA, QL.
      repeat split; try done; try lia.
      intros ? ? ? Hin. apply Hfirst in Hin as [Hin|Hin]; [|done].
      apply in_app_iff in Hin as [Hin|Hin];
        [by apply reconnectEvents_no_append in Hin|].
      by apply Hrows2 in Hin.
    + unfold writeRunFacts, reconnectAttempts. rewrite Hrun. cbn [fst snd].
      exists (beforeAppend (sink w) batch ++ evs ++ revs).
      rewrite Htr, Htr1, <- !app_assoc.
      rewrite !appendAttempts_app, !exclusiveLocks_app, Pa, Pl, A1, L1, RL, RA.
      repeat split; try done; try lia.
      intros ? ? ? Hin. apply Hfirst in Hin as [Hin|Hin]; [|done].
      by apply Rno in Hin.
    + done.
Qed.

(** Every run of [writeBatchWithRetry] has the facts of [writeRunFacts]. *)
Lemma write_run_facts (batch : MessageBatch) :
  forall (n : nat) (retryCount : Z) (w : World),
    n = Z.to_nat (maxRetries - retryCount) ->
    writeRunFacts R batch n retryCount w.
Proof.
  induction n as [|n IH]; intros retryCount w Hn;
    apply write_step_facts; try done.
  - intros Hrc. unfold maxRetries in *. lia.
  - intros Hrc w'. apply IH. unfold maxRetries in *. cbn [pred]. lia.
Qed.



(** The retry ceiling, for every run: at most [maxRetries] reconnects and
    one append more. *)
Lemma retry_bound (batch : MessageBatch) (w : World) :
  (reconnectAttempts (eventsOf (WriteBatch R batch) w) <= 2)%nat /\
  (appendAttempts (eventsOf (WriteBatch R batch) w) <= 3)%nat /\
  resultOf (WriteBatch R batch) w <> OutOfFuel.
Proof.
  destruct (write_run_facts batch 2 0 w eq_refl)
    as (evs & Htr & _ & _ & _ & HL & HA & Hfuel).
  unfold eventsOf, resultOf, WriteBatch.
  by rewrite Htr, drop_app_length.
Qed.


Lemma appendStage_head (h : list Event) (ms : ManagedStream)
    (rows : list bytes) (res : Result Z) (evs : list Event) :
  appendStage R h ms rows = (res, evs) ->
  exists r tl, evs = EvAppendRows ms rows r :: tl.
Proof.
  unfold appendStage.
  destruct (ManagedStream_AppendRows R h ms rows) as [result|err].
  - destruct (AppendResult_GetResult R _ result) as [o|err];
      intros [= <- <-]; eauto.
  - intros [= <- <-]; eauto.
Qed.

(** Every call that holds a stream and has a row to send begins by
    reading the handle, converting the whole batch and appending. *)
Lemma run_starts_with_conversion (batch : MessageBatch) (retryCount : Z)
    (w : World) (ms : ManagedStream) :
  managedStream (sink w) = Some ms ->
  convertedRows (sink w) batch <> [] ->
  exists r rest,
    trace (snd (writeBatchWithRetry R batch retryCount w)) =
    trace w ++ beforeAppend (sink w) batch ++
    EvAppendRows ms (convertedRows (sink w) batch) r :: rest.
Proof.
  intros Hms Hrows.
  rewrite writeBatchWithRetry_unfold, (body_run _ _ _ _ ms Hms). cbv zeta.
  destruct (convertedRows (sink w) batch) as [|row rows] eqn:Hr; [done|].
  cbn [length Nat.eqb]. rewrite trace_extend.
  destruct (appendStage R _ ms _) as [[o|err] evs] eqn:Hstage;
    destruct (appendStage_head _ _ _ _ _ Hstage) as (r & tl & ->).
  - exists r, tl.
    destruct (negb (o =? managedwriter.NoStreamOffset));
      cbn [snd extend trace]; by rewrite <- app_assoc.
  - destruct (isReconnectableError (Some err) && (retryCount <? maxRetries)).
    + set (w1 := extend _ _).
      assert (Htr1 : trace w1 = trace w ++ beforeAppend (sink w) batch ++
                                EvAppendRows ms (row :: rows) r :: tl).
      { unfold w1; cbn [extend trace]. by rewrite <- app_assoc. }
      destruct (reconnect_events w1) as (revs & Htr & _).
      destruct (reconnect R w1) as [[[re|]| |] w2]; cbn [fst snd] in *;
        try (exists r, (tl ++ revs); rewrite Htr, Htr1, <- !app_assoc; done).
      destruct (write_run_facts batch _ (retryCount + 1) w2 eq_refl)
        as (evs2 & Htr2 & _).
      exists r, (tl ++ revs ++ evs2).
      rewrite Htr2, Htr, Htr1, <- !app_assoc. done.
    + exists r, tl. cbn [snd extend trace]. by rewrite <- app_assoc.
Qed.

(** C7, as the code has it. After a reconnectable append or
    acknowledgement failure below the retry ceiling and a successful
    reconnect, the retry is a call of the whole function: it reads the
    stream handle again, converts every message of the batch again, and
    only then appends the rows to the new stream. Each message has its
    bytes extracted at least twice. *)
Theorem retry_repeats_conversion (batch : MessageBatch) (retryCount : Z)
    (w : World) (ms : ManagedStream) (mw : MWClient) (c : Client)
    (err : goError) (evs : list Event) (ms' : ManagedStream) :
  managedStream (sink w) = Some ms ->
  mwClient (sink w) = Some mw ->
  client (sink w) = Some c ->
  convertedRows (sink w) batch <> [] ->
  appendStage R (trace w ++ beforeAppend (sink w) batch) ms
    (convertedRows (sink w) batch) = (Err err, evs) ->
  isReconnectableError (Some err) = true ->
  retryCount < maxRetries ->
  reconnectAnswer R (trace w ++ beforeAppend (sink w) batch ++ evs) (sink w) mw
    = Ok ms' ->
  exists (r : Result AppendResult) (rest : list Event),
    eventsOf (writeBatchWithRetry R batch retryCount) w =
      beforeAppend (sink w) batch ++ evs ++
      reconnectEvents (sink w) mw (Ok ms') ++
      beforeAppend (sink w) batch ++
      EvAppendRows ms' (convertedRows (sink w) batch) r :: rest /\
    (2 * length batch <=
     byteExtractions (eventsOf (writeBatchWithRetry R batch retryCount) w))%nat.
Proof.
  intros Hms Hmw Hc Hrows Hstage Hre Hrc Hanswer.
  pose proof (attempt_retries batch retryCount w ms mw c err evs ms'
                Hms Hmw Hc Hrows Hstage Hre Hrc Hanswer) as Hrun.
  set (w2 := {| sink := set_managedStream (Some ms') (sink w);
                trace := trace w ++ beforeAppend (sink w) batch ++ evs ++
                         reconnectEvents (sink w) mw (Ok ms') |}) in *.
  destruct (run_starts_with_conversion batch (retryCount + 1) w2 ms'
              eq_refl Hrows) as (r & rest & Htr).
  change (sink w2) with (set_managedStream (Some ms') (sink w)) in Htr.
  rewrite beforeAppend_set_managedStream in Htr.
  change (convertedRows (set_managedStream (Some ms') (sink w)) batch)
    with (convertedRows (sink w) batch) in Htr.
  exists r, rest.
  assert (Hev : eventsOf (writeBatchWithRetry R batch retryCount) w =
                beforeAppend (sink w) batch ++ evs ++
                reconnectEvents (sink w) mw (Ok ms') ++
                beforeAppend (sink w) batch ++
                EvAppendRows ms' (convertedRows (sink w) batch) r :: rest).
  { unfold eventsOf. rewrite Hrun, Htr. unfold w2; cbn [trace].
    rewrite <- !app_assoc. by rewrite drop_app_length. }
  rewrite Hev. split; [done|].
  destruct (beforeAppend_counts (sink w) batch) as (_ & _ & _ & Pb & _).
  rewrite !byteExtractions_app, Pb. lia.
Qed.

End Runs.

(** ** The connection life cycle *)

Section Connection.
Context `{Libraries}.
Variable R : Remote.

Lemma closed_handle (x : Handle) (l : list Handle) :
  filter (fun h => h <> x) (x :: l) = filter (fun h => h <> x) l.
Proof. rewrite filter_cons. by case_decide. Qed.

Lemma kept_handle (x y : Handle) (l : list Handle) :
  y <> x ->
  filter (fun h => h <> x) (y :: l) = y :: filter (fun h => h <> x) l.
Proof. intros Hne. rewrite filter_cons. by case_decide. Qed.

Ltac connect_leaf Hrun :=
  rewrite <- ?app_assoc in Hrun; cbn [app] in Hrun;
  injection Hrun as <- <-;
  eexists; split; [reflexivity|];
  cbv [fst snd sink trace storesGuarded openHandles storedFields omap
       list_omap andb app last];
  rewrite ?closed_handle; rewrite ?kept_handle by done;
  rewrite ?closed_handle; rewrite ?filter_nil.

Ltac connect_step Hrun :=
  cbv beta iota zeta in Hrun;
  cbn [fst snd sink trace conf clientURL mwClientURL client mwClient
       managedStream messageDescriptor descriptorProto umo] in Hrun.

(** Every run of [Connect]: it takes the exclusive lock once and releases
    it last, and stores only while it holds it. When it returns an error,
    the sink is as before, nothing was stored, and every handle opened was
    closed. When it returns nil, the five session fields were stored, and
    the handles held are the two clients and the stream of the one stream
    creation, made with the descriptor that is now cached. It never
    panics. *)
Lemma Connect_facts (w : World) :
  exists evs : list Event,
    trace (snd (Connect R w)) = trace w ++ evs /\
    storesGuarded false evs = true /\
    exclusiveLocks evs = 1%nat /\
    last evs = Some EvUnlock /\
    match fst (Connect R w) with
    | Returns (Some err) =>
        sink (snd (Connect R w)) = sink w /\
        storedFields evs = [] /\
        openHandles [] evs = []
    | Returns None =>
        exists c mw ms md dp,
          sink (snd (Connect R w)) =
            set_descriptorProto dp
              (set_messageDescriptor md
                 (set_managedStream (Some ms)
                    (set_mwClient (Some mw)
                       (set_client (Some c) (sink w))))) /\
          storedFields evs =
            [Fclient; FmwClient; FmanagedStream; FmessageDescriptor;
             FdescriptorProto] /\
          openHandles [] evs = [HClient c; HMWClient mw; HStream ms] /\
          In (EvNewManagedStream mw (destinationTable (sink w))
                managedwriter.DefaultStream dp (Ok ms)) evs /\
          streamCreations evs = 1%nat
    | _ => False
    end.
Proof.
  destruct (Connect R w) as [res w'] eqn:Hrun. cbn [fst snd].
  destruct w as [g t]. cbn [sink trace].
  unfold Connect, gcpBQClientURL_NewClient, gcpMWClientURL_NewClient,
    getClientOptionWithCredential in Hrun.
  cbv [defer bind emit load ret history store store_client store_mwClient
       store_managedStream store_messageDescriptor store_descriptorProto
       call_bigquery_NewClient call_managedwriter_NewClient
       call_Dataset_Metadata call_Table_Metadata call_NewManagedStream
       fst snd sink trace] in Hrun.
  destruct (String.eqb _ EmptyString) in Hrun; connect_step Hrun;
    (destruct (bigquery_NewClient R _ _ _) as [c|e] in Hrun;
     connect_step Hrun; [|by connect_leaf Hrun]);
    (destruct (String.eqb _ EmptyString) in Hrun; connect_step Hrun;
     (destruct (managedwriter_NewClient R _ _ _) as [mw|e] in Hrun;
      connect_step Hrun; [|by connect_leaf Hrun]);
     (destruct (Dataset_Metadata R _ _ _ _) as [[]|e] in Hrun;
      connect_step Hrun;
      [|destruct (hasStatusCode e http.StatusNotFound) in Hrun;
        connect_step Hrun; by connect_leaf Hrun]);
     (destruct (Table_Metadata R _ _ _ _ _) as [schema|e] in Hrun;
      connect_step Hrun;
      [|destruct (hasStatusCode e http.StatusNotFound) in Hrun;
        connect_step Hrun; by connect_leaf Hrun]);
     (destruct (getDescriptor schema) as [[md dp] [e|]] in Hrun;
      connect_step Hrun; [by connect_leaf Hrun|]);
     (destruct (Client_NewManagedStream R _ _ _ _ _) as [ms|e] in Hrun;
      connect_step Hrun; [|by connect_leaf Hrun]);
     connect_leaf Hrun; repeat split; try done;
     exists c, mw, ms, md, dp; repeat split; try done;
     do 5 right; left; reflexivity).
Qed.



(** *** Reconnects *)

Lemma reconnectEventOk_same (g g' : gcpBigQueryOutput) (ev : Event) :
  set_managedStream None g' = set_managedStream None g ->
  reconnectEventOk g ev -> reconnectEventOk g' ev.
Proof.
  intros Heq. unfold reconnectEventOk, destinationTable.
  pose proof (f_equal mwClient Heq) as Hmw.
  pose proof (f_equal conf Heq) as Hconf.
  pose proof (f_equal descriptorProto Heq) as Hdp.
  cbn in Hmw, Hconf, Hdp. by rewrite Hmw, Hconf, Hdp.
Qed.

Lemma reconnectPrefix_ok (g : gcpBigQueryOutput) :
  Forall (reconnectEventOk g) (reconnectPrefix g).
Proof.
  unfold reconnectPrefix. destruct (managedStream g); cbn [app];
    repeat constructor.
Qed.

(** One call of [reconnect] by a sink that holds both clients: it returns
    (nil or the stream-creation error), keeps every field but the stream,
    and makes one stream creation, with the cached descriptor. *)
Lemma reconnect_facts (w : World) :
  is_Some (mwClient (sink w)) ->
  is_Some (client (sink w)) ->
  exists (res : option error) (w' : World) (evs : list Event),
    reconnect R w = (Returns res, w') /\
    trace w' = trace w ++ evs /\
    set_managedStream None (sink w') = set_managedStream None (sink w) /\
    Forall (reconnectEventOk (sink w)) evs /\
    streamCreations evs = 1%nat /\
    reconnectAttempts evs = 1%nat /\
    (forall ms,
       managedStream (sink w') = Some ms ->
       exists mw,
         In (EvNewManagedStream mw (destinationTable (sink w))
               managedwriter.DefaultStream (descriptorProto (sink w)) (Ok ms))
            evs).
Proof.
  intros [mw Hmw] [c Hc]. rewrite reconnect_run. cbv zeta. rewrite Hmw, Hc.
  pose proof (reconnectPrefix_ok (sink w)) as Hpre.
  set (r := Client_NewManagedStream R _ mw _ _ _).
  destruct (reconnectEvents_counts (sink w) mw r) as (_ & RL & RS & _).
  unfold reconnectEvents in RL, RS.
  destruct r as [ms|err] eqn:Hr.
  - eexists _, _, _. split; [reflexivity|]. cbn [trace sink].
    rewrite <- app_assoc. split; [reflexivity|].
    split; [reflexivity|]. split.
    { apply Forall_app. split; [done|]. repeat constructor; done. }
    split; [done|]. split; [done|].
    intros ms0 [= <-]. exists mw. apply in_app_iff. right. by left.
  - eexists _, _, _. split; [reflexivity|]. cbn [trace sink].
    rewrite <- app_assoc. split; [reflexivity|].
    split. { unfold withoutStream. by destruct (managedStream (sink w)). }
    split.
    { apply Forall_app. split; [done|]. repeat constructor; done. }
    split; [done|]. split; [done|].
    unfold withoutStream. intros ms0.
    destruct (managedStream (sink w)) eqn:Hold; cbn; congruence.
Qed.

Lemma reconnects_facts (n : nat) :
  forall w : World,
    is_Some (mwClient (sink w)) ->
    is_Some (client (sink w)) ->
    exists (w' : World) (evs : list Event),
      reconnects R n w = (Returns tt, w') /\
      trace w' = trace w ++ evs /\
      set_managedStream None (sink w') = set_managedStream None (sink w) /\
      Forall (reconnectEventOk (sink w)) evs /\
      streamCreations evs = n /\
      reconnectAttempts evs = n /\
      (forall ms,
         (0 < n)%nat ->
         managedStream (sink w') = Some ms ->
         exists mw,
           In (EvNewManagedStream mw (destinationTable (sink w))
                 managedwriter.DefaultStream (descriptorProto (sink w))
                 (Ok ms)) evs).
Proof.
  induction n as [|n IH]; intros w Hmw Hc.
  - exists w, []. cbn [reconnects]. unfold ret.
    rewrite app_nil_r. repeat split; try done. lia.
  - destruct (reconnect_facts w Hmw Hc)
      as (res & w1 & evs1 & Hrun1 & Htr1 & Hsame1 & Hok1 & HS1 & HL1 & Hms1).
    pose proof (f_equal mwClient Hsame1) as Hmw1.
    pose proof (f_equal client Hsame1) as Hc1.
    pose proof (f_equal conf Hsame1) as Hconf1.
    pose proof (f_equal descriptorProto Hsame1) as Hdp1.
    cbn in Hmw1, Hc1, Hconf1, Hdp1.
    destruct (IH w1) as (w' & evs2 & Hrun2 & Htr2 & Hsame2 & Hok2 & HS2 & HL2
                          & Hms2); [by rewrite Hmw1|by rewrite Hc1|].
    exists w', (evs1 ++ evs2). cbn [reconnects]. unfold bind.
    rewrite Hrun1, Hrun2, Htr2, Htr1, <- app_assoc.
    unfold reconnectAttempts in *.
    rewrite streamCreations_app, exclusiveLocks_app, HS1, HS2, HL1, HL2.
    repeat split; try done.
    + congruence.
    + apply Forall_app. split; [done|].
      eapply Forall_impl; [exact Hok2|].
      intros ev. by apply reconnectEventOk_same.
    + intros ms _ Hms. destruct n as [|n].
      * cbn [reconnects] in Hrun2. injection Hrun2 as <-.
        destruct (Hms1 ms Hms) as [mw' Hin]. exists mw'.
        apply in_app_iff. by left.
      * destruct (Hms2 ms ltac:(lia) Hms) as [mw' Hin]. exists mw'.
        apply in_app_iff. right. unfold destinationTable in *.
        by rewrite <- Hconf1, <- Hdp1.
Qed.

(** C6. From the sink that a successful [Connect] leaves, any number of
    reconnects in a row each return, keep the cached descriptor and every
    other field but the stream, and produce only events that spare the
    metadata client (of which [reconnect] reads the project id for its log
    line, and nothing more); each of the stream creations, one per
    reconnect, asks
    the write client for a default stream on the configured table with the
    descriptor that [Connect] derived and opened its own stream with; the
    stream held afterwards is one that such a creation returned. *)
Theorem reconnect_reuses_cached_schema (w0 : World) (n : nat) :
  resultOf (Connect R) w0 = Returns None ->
  let w1 := snd (Connect R w0) in
  let g1 := sink w1 in
  let evs := eventsOf (reconnects R n) w1 in
  (exists mw ms,
     In (EvNewManagedStream mw (destinationTable g1)
           managedwriter.DefaultStream (descriptorProto g1) (Ok ms))
        (eventsOf (Connect R) w0)) /\
  streamCreations (eventsOf (Connect R) w0) = 1%nat /\
  resultOf (reconnects R n) w1 = Returns tt /\
  Forall (reconnectEventOk g1) evs /\
  streamCreations evs = n /\
  reconnectAttempts evs = n /\
  set_managedStream None (sinkAfter (reconnects R n) w1) =
    set_managedStream None g1 /\
  descriptorProto (sinkAfter (reconnects R n) w1) = descriptorProto g1 /\
  messageDescriptor (sinkAfter (reconnects R n) w1) = messageDescriptor g1 /\
  (forall ms,
     (0 < n)%nat ->
     managedStream (sinkAfter (reconnects R n) w1) = Some ms ->
     exists mw,
       In (EvNewManagedStream mw (destinationTable g1)
             managedwriter.DefaultStream (descriptorProto g1) (Ok ms)) evs).
Proof.
  intros Hok w1 g1 evs. subst evs.
  destruct (Connect_facts w0) as (cevs & Htr & _ & _ & _ & Hres).
  unfold resultOf in Hok. rewrite Hok in Hres.
  destruct Hres as (c & mw & ms & md & dp & Hsink & _ & _ & Hin & Hone).
  fold w1 in Hsink. fold g1 in Hsink.
  assert (Hev0 : eventsOf (Connect R) w0 = cevs).
  { unfold eventsOf. by rewrite Htr, drop_app_length. }
  assert (Hdest : destinationTable g1 = destinationTable (sink w0)).
  { by rewrite Hsink. }
  assert (Hdp : descriptorProto g1 = dp) by by rewrite Hsink.
  destruct (reconnects_facts n w1)
    as (w' & evs & Hrun & Htr' & Hsame & Hevs & HS & HL & Hms).
  { fold g1. rewrite Hsink. by eexists. }
  { fold g1. rewrite Hsink. by eexists. }
  fold g1 in Hsame, Hevs, Hms.
  assert (Hev1 : eventsOf (reconnects R n) w1 = evs).
  { unfold eventsOf. rewrite Hrun. cbn [snd].
    by rewrite Htr', drop_app_length. }
  assert (Hres1 : resultOf (reconnects R n) w1 = Returns tt).
  { unfold resultOf. by rewrite Hrun. }
  assert (Hsink1 : sinkAfter (reconnects R n) w1 = sink w').
  { unfold sinkAfter. by rewrite Hrun. }
  rewrite Hev0, Hev1, Hres1, Hsink1, Hdest, Hdp.
  rewrite Hdest, Hdp in Hms.
  pose proof (f_equal descriptorProto Hsame) as Hdp'.
  pose proof (f_equal messageDescriptor Hsame) as Hmd'.
  cbn in Hdp', Hmd'.
  split; [eauto|]. repeat split; try done.
  congruence.
Qed.


(** *** Close *)

(** Every run of [Close]: it returns nil, takes the exclusive lock once
    and releases it last, stores only while it holds it, closes every
    handle the sink holds, and clears the metadata client and the stream;
    the field of the write client is left as it was. *)
Lemma Close_facts (w : World) :
  exists evs : list Event,
    fst (Close w) = Returns None /\
    trace (snd (Close w)) = trace w ++ evs /\
    exclusiveLocks evs = 1%nat /\
    storesGuarded false evs = true /\
    last evs = Some EvUnlock /\
    openHandles (heldHandles (sink w)) evs = [] /\
    client (sink (snd (Close w))) = None /\
    managedStream (sink (snd (Close w))) = None /\
    mwClient (sink (snd (Close w))) = mwClient (sink w).
Proof.
  destruct (Close w) as [res w'] eqn:Hrun. cbn [fst snd].
  destruct w as [g t]. cbn [sink trace]. unfold heldHandles.
  unfold Close in Hrun.
  cbv [bind emit load ret store store_client store_managedStream
       fst snd sink trace] in Hrun.
  destruct (client g) as [c|] eqn:Hc; connect_step Hrun;
    unfold set_client in Hrun; connect_step Hrun;
    destruct (mwClient g) as [mw|] eqn:Hmw; connect_step Hrun;
    unfold set_client in Hrun; connect_step Hrun;
    destruct (managedStream g) as [ms|] eqn:Hms; connect_step Hrun;
    rewrite <- ?app_assoc in Hrun; cbn [app] in Hrun;
    injection Hrun as <- <-;
    (eexists; split; [reflexivity|]; split; [reflexivity|]);
    cbv [openHandles storesGuarded last andb app sink set_managedStream
         client managedStream mwClient];
    rewrite ?closed_handle; rewrite ?kept_handle by done;
    rewrite ?closed_handle; rewrite ?kept_handle by done;
    rewrite ?closed_handle; rewrite ?filter_nil; done.
Qed.

(** After [Close], every batch write finds the sink not connected. *)
Lemma write_after_close (batch : MessageBatch) (w : World) :
  resultOf (WriteBatch R batch) (snd (Close w)) =
    Returns (Some ErrNotConnected) /\
  eventsOf (WriteBatch R batch) (snd (Close w)) = [EvRLock; EvRUnlock].
Proof.
  destruct (Close_facts w) as (_ & _ & _ & _ & _ & _ & _ & _ & Hms & _).
  assert (Hrun : WriteBatch R batch (snd (Close w)) =
    (Returns (Some ErrNotConnected),
     {| sink := sink (snd (Close w));
        trace := trace (snd (Close w)) ++ [EvRLock; EvRUnlock] |})).
  { unfold WriteBatch. rewrite writeBatchWithRetry_unfold.
    by rewrite body_not_connected. }
  by destruct (read_run _ _ _ _ _ Hrun) as (-> & -> & _).
Qed.

End Connection.

(** * The properties on concrete runs *)

(** ** Runs that witness the hypotheses *)

Lemma not_connected_guard_witness :
  managedStream (sink (startAt newSink)) = None /\
  resultOf (writeBatchWithRetry (scriptedRemote [] []) [goodMessage] 0)
    (startAt newSink) = Returns (Some ErrNotConnected) /\
  eventsOf (writeBatchWithRetry (scriptedRemote [] []) [goodMessage] 0)
    (startAt newSink) = [EvRLock; EvRUnlock].
Proof.
  split; [reflexivity|].
  destruct (not_connected_guard (scriptedRemote [] []) [goodMessage] 0
              (startAt newSink) eq_refl) as (Hres & Hev & _).
  split; [exact Hres|exact Hev].
Defined.


Lemma reconnectable_classification_witness :
  managedStream (sink (startAt connectedSink)) = Some (Stream 3) /\
  ~ reconnectWorthy deniedError /\
  resultOf
    (writeBatchWithRetry (scriptedRemote [AppendFails deniedError] [])
       [goodMessage] 0) (startAt connectedSink) =
    Returns (Some (ErrLib deniedError)) /\
  reconnectAttempts
    (eventsOf
       (writeBatchWithRetry (scriptedRemote [AppendFails deniedError] [])
          [goodMessage] 0) (startAt connectedSink)) = 0%nat.
Proof.
  assert (Hfatal : ~ reconnectWorthy deniedError).
  { intros Hw. apply isReconnectableError_spec in Hw.
    vm_compute in Hw. discriminate. }
  split; [reflexivity|]. split; [exact Hfatal|].
  destruct (proj2 (reconnectable_classification
                     (scriptedRemote [AppendFails deniedError] []))
              [goodMessage] 0 (startAt connectedSink) (Stream 3) deniedError
              [EvAppendRows (Stream 3) [list_byte_of_string "{}"]
                 (Err deniedError)])
    as (Hres & _ & Hre & _).
  - reflexivity.
  - vm_compute. discriminate.
  - reflexivity.
  - exact Hfatal.
  - split; assumption.
Defined.

Lemma offset_mismatch_is_fatal_witness :
  managedStream (sink (startAt connectedSink)) = Some (Stream 3) /\
  7 <> managedwriter.NoStreamOffset /\
  resultOf (writeBatchWithRetry (scriptedRemote [Acked 7] []) [goodMessage] 0)
    (startAt connectedSink) =
    Returns (Some (Errorf "offset mismatch, got %d want %d"
                     [ArgInt 7; ArgInt managedwriter.NoStreamOffset])) /\
  reconnectAttempts
    (eventsOf (writeBatchWithRetry (scriptedRemote [Acked 7] [])
                 [goodMessage] 0) (startAt connectedSink)) = 0%nat.
Proof.
  split; [reflexivity|]. split; [discriminate|].
  destruct (offset_mismatch_is_fatal (scriptedRemote [Acked 7] [])
              [goodMessage] 0 (startAt connectedSink) (Stream 3) 7
              [EvAppendRows (Stream 3) [list_byte_of_string "{}"]
                 (Ok (Pending 0));
               EvGetResult (Pending 0) (Ok 7)])
    as (Hres & _ & Hre & _).
  - reflexivity.
  - vm_compute. discriminate.
  - reflexivity.
  - discriminate.
  - split; assumption.
Defined.

Lemma offset_mismatch_drops_item_failures_witness :
  (0 < failureCount (sink (startAt connectedSink))
         [goodMessage; badMessage])%nat /\
  convertedRows (sink (startAt connectedSink)) [goodMessage; badMessage]
    <> [] /\
  resultOf
    (writeBatchWithRetry (scriptedRemote [Acked 7] [])
       [goodMessage; badMessage] 0) (startAt connectedSink) =
    Returns (Some (Errorf "offset mismatch, got %d want %d"
                     [ArgInt 7; ArgInt managedwriter.NoStreamOffset])).
Proof.
  assert (Hfail : (0 < failureCount (sink (startAt connectedSink))
                         [goodMessage; badMessage])%nat).
  { vm_compute. lia. }
  assert (Hrows : convertedRows (sink (startAt connectedSink))
                    [goodMessage; badMessage] <> []).
  { vm_compute. discriminate. }
  split; [exact Hfail|]. split; [exact Hrows|].
  destruct (offset_mismatch_drops_item_failures (scriptedRemote [Acked 7] [])
              [goodMessage; badMessage] 0 (startAt connectedSink) (Stream 3) 7
              [EvAppendRows (Stream 3) [list_byte_of_string "{}"]
                 (Ok (Pending 0));
               EvGetResult (Pending 0) (Ok 7)]
              eq_refl Hfail Hrows eq_refl)
    as (Hres & _).
  - discriminate.
  - exact Hres.
Defined.


Lemma retry_repeats_conversion_witness :
  isReconnectableError (Some abortedError) = true /\
  0 < maxRetries /\
  (2 * length [goodMessage] <=
   byteExtractions
     (eventsOf
        (writeBatchWithRetry (scriptedRemote [AppendFails abortedError] [])
           [goodMessage] 0) (startAt connectedSink)))%nat.
Proof.
  split; [reflexivity|]. split; [reflexivity|].
  destruct (retry_repeats_conversion
              (scriptedRemote [AppendFails abortedError] [])
              [goodMessage] 0 (startAt connectedSink)
              (Stream 3) (MWriterClient 2) (BQClient 1) abortedError
              [EvAppendRows (Stream 3) [list_byte_of_string "{}"]
                 (Err abortedError)]
              (Stream 10))
    as (r & rest & _ & Hcount).
  - reflexivity.
  - reflexivity.
  - reflexivity.
  - vm_compute. discriminate.
  - reflexivity.
  - reflexivity.
  - reflexivity.
  - reflexivity.
  - exact Hcount.
Defined.

Lemma reconnect_reuses_cached_schema_witness :
  resultOf (Connect (scriptedRemote [] [Ok (Stream 3)])) (startAt newSink)
    = Returns None /\
  streamCreations
    (eventsOf (reconnects (scriptedRemote [] [Ok (Stream 3)]) 2)
       (snd (Connect (scriptedRemote [] [Ok (Stream 3)]) (startAt newSink))))
    = 2%nat /\
  descriptorProto
    (sinkAfter (reconnects (scriptedRemote [] [Ok (Stream 3)]) 2)
       (snd (Connect (scriptedRemote [] [Ok (Stream 3)]) (startAt newSink))))
    = descriptorProto
        (sink (snd (Connect (scriptedRemote [] [Ok (Stream 3)])
                      (startAt newSink)))).
Proof.
  split; [reflexivity|].
  destruct (reconnect_reuses_cached_schema (scriptedRemote [] [Ok (Stream 3)])
              (startAt newSink) 2 eq_refl)
    as (_ & _ & _ & _ & HS & _ & _ & Hdp & _).
  split; [exact HS|exact Hdp].
Defined.

(** ** Runs on which the specification's sentences fail *)


(** C7, as stated, fails: with one message in the batch, a first append
    that fails with the aborted status and a reconnect that succeeds, the
    bytes of the message are extracted, parsed and serialized a second
    time before the append to the new stream. *)
Lemma conversion_repeated_on_retry :
  eventsOf
    (WriteBatch (scriptedRemote [AppendFails abortedError] []) [goodMessage])
    (startAt connectedSink) =
  [EvRLock; EvRUnlock; EvAsBytes 0; EvUnmarshal 0; EvMarshal 0;
   EvAppendRows (Stream 3) [list_byte_of_string "{}"] (Err abortedError);
   EvLock; EvStreamClose (Stream 3); EvStore FmanagedStream; EvSleep 1;
   EvNewManagedStream (MWriterClient 2)
     "projects/proj/datasets/ds/tables/events" managedwriter.DefaultStream
     (Some toyDescriptor) (Ok (Stream 10));
   EvStore FmanagedStream; EvUnlock;
   EvRLock; EvRUnlock; EvAsBytes 0; EvUnmarshal 0; EvMarshal 0;
   EvAppendRows (Stream 10) [list_byte_of_string "{}"] (Ok (Pending 1));
   EvGetResult (Pending 1) (Ok managedwriter.NoStreamOffset)] /\
  byteExtractions
    (eventsOf
       (WriteBatch (scriptedRemote [AppendFails abortedError] [])
          [goodMessage]) (startAt connectedSink)) <> length [goodMessage].
Proof. split; [vm_compute; reflexivity|vm_compute; discriminate]. Qed.

(** C9 on the code: [Close] on a connected sink closes the three handles
    under one acquisition of the exclusive lock and returns nil, but its
    second branch stores nil to [g.client] once more, so that the write
    client is still in its field afterwards. *)
Theorem close_keeps_write_client :
  Close (startAt connectedSink) =
    (Returns None,
     {| sink := set_managedStream None (set_client None connectedSink);
        trace := [EvLock; EvClientClose (BQClient 1); EvStore Fclient;
                  EvMWClientClose (MWriterClient 2); EvStore Fclient;
                  EvStreamClose (Stream 3); EvStore FmanagedStream;
                  EvUnlock] |}) /\
  mwClient (sinkAfter Close (startAt connectedSink)) =
    Some (MWriterClient 2).
Proof. split; reflexivity. Qed.

(** * The life cycle of the sink *)

Section Lifecycle.
Context `{Libraries}.
Variable R : Remote.

(** ** Every run of a method is a derivation *)

Ltac connect_exec Hrun :=
  cbv beta iota zeta in Hrun;
  cbn [fst snd sink trace conf clientURL mwClientURL client mwClient
       managedStream messageDescriptor descriptorProto umo app] in Hrun.

Ltac connect_rule Hrun rule :=
  rewrite <- ?app_assoc in Hrun; cbn [app] in Hrun;
  injection Hrun as <- <-;
  eexists _, _, _; split; [reflexivity|];
  let Hc := fresh "Hc" in
  pose proof rule as Hc;
  unfold evClient, evWriter, evDataset, evTable, evStream, installed,
    bqClientOptions, mwClientOptions, destinationTable in Hc;
  cbn [conf clientURL mwClientURL] in Hc;
  repeat match goal with
         | E : _ = true |- _ => rewrite E in Hc
         | E : _ = false |- _ => rewrite E in Hc
         end;
  exact Hc.

Lemma Connect_run (w : World) :
  exists (res : Outcome (option error)) (g' : gcpBigQueryOutput)
         (evs : list Event),
    Connect R w = (res, {| sink := g'; trace := trace w ++ evs |}) /\
    ConnectRun (sink w) res g' evs.
Proof.
  destruct (Connect R w) as [res w'] eqn:Hrun.
  destruct w as [g t]. cbn [sink trace].
  unfold Connect, gcpBQClientURL_NewClient, gcpMWClientURL_NewClient,
    getClientOptionWithCredential in Hrun.
  cbv [defer bind emit load ret history store store_client store_mwClient
       store_managedStream store_messageDescriptor store_descriptorProto
       call_bigquery_NewClient call_managedwriter_NewClient
       call_Dataset_Metadata call_Table_Metadata call_NewManagedStream
       fst snd sink trace] in Hrun.
  revert Hrun.
  destruct (String.eqb (clientURL g) EmptyString) eqn:Hurl; intros Hrun;
    connect_exec Hrun;
    (destruct (bigquery_NewClient R _ _ _) as [c|e] in Hrun;
     connect_exec Hrun;
     [|by connect_rule Hrun (ConnectClientFails g e)]);
    (revert Hrun;
     destruct (String.eqb (mwClientURL g) EmptyString) eqn:Hmwurl;
     intros Hrun; connect_exec Hrun;
     (destruct (managedwriter_NewClient R _ _ _) as [mw|e] in Hrun;
      connect_exec Hrun;
      [|by connect_rule Hrun (ConnectWriterFails g c e)]);
     (destruct (Dataset_Metadata R _ _ _ _) as [[]|e] in Hrun;
      connect_exec Hrun;
      [|revert Hrun;
        destruct (hasStatusCode e http.StatusNotFound) eqn:Hcode;
        intros Hrun; connect_exec Hrun;
        by connect_rule Hrun (ConnectDatasetFails g c mw e)]);
     (destruct (Table_Metadata R _ _ _ _ _) as [schema|e] in Hrun;
      connect_exec Hrun;
      [|revert Hrun;
        destruct (hasStatusCode e http.StatusNotFound) eqn:Hcode;
        intros Hrun; connect_exec Hrun;
        by connect_rule Hrun (ConnectTableFails g c mw e)]);
     (destruct (getDescriptor schema) as [[md dp] [e|]] eqn:Hdesc in Hrun;
      connect_exec Hrun;
      [by connect_rule Hrun
            (ConnectDescriptorFails g c mw schema md dp e Hdesc)|]);
     (destruct (Client_NewManagedStream R _ _ _ _ _) as [ms|e] in Hrun;
      connect_exec Hrun;
      [|by connect_rule Hrun
             (ConnectStreamFails g c mw schema md dp e Hdesc)]);
     by connect_rule Hrun (ConnectSucceeds g c mw schema md dp ms Hdesc)).
Qed.

Lemma reconnect_derivation (w : World) :
  exists (res : Outcome (option error)) (g' : gcpBigQueryOutput)
         (evs : list Event),
    reconnect R w = (res, {| sink := g'; trace := trace w ++ evs |}) /\
    ReconnectRun (sink w) res g' evs.
Proof.
  rewrite reconnect_run. cbv zeta.
  destruct (mwClient (sink w)) as [mw|] eqn:Hmw.
  - destruct (Client_NewManagedStream R _ mw _ _ _) as [ms|e].
    + destruct (client (sink w)) as [c|] eqn:Hc; eexists _, _, _;
        (split;
         [rewrite <- app_assoc; unfold reconnectEvents; reflexivity
         |unfold reconnectEvents; cbn [app]]).
      * fold (reconnectEvents (sink w) mw (Ok ms)).
        by eapply ReconnectSucceeds.
      * fold (reconnectEvents (sink w) mw (Ok ms)).
        by eapply ReconnectNoClient.
    + eexists _, _, _.
      split; [rewrite <- app_assoc; reflexivity|].
      by apply (ReconnectStreamFails (sink w) mw e).
  - eexists _, _, _. split; [rewrite <- app_assoc; reflexivity|].
    by apply ReconnectNoWriter.
Qed.

Lemma writeBatchWithRetry_derivation (batch : MessageBatch) :
  forall (n : nat) (retryCount : Z) (w : World),
    n = Z.to_nat (maxRetries - retryCount) ->
    exists (res : Outcome (option error)) (g' : gcpBigQueryOutput)
           (evs : list Event),
      writeBatchWithRetry R batch retryCount w =
        (res, {| sink := g'; trace := trace w ++ evs |}) /\
      WriteRun R batch retryCount (sink w) (trace w) res g' evs.
Proof.
  induction n as [|n IH]; intros retryCount w Hn.
  all: rewrite writeBatchWithRetry_unfold.
  all: destruct (managedStream (sink w)) as [ms|] eqn:Hms;
    [|rewrite body_not_connected by done; eexists _, _, _;
      split; [reflexivity|by apply WriteNotConnected]].
  all: rewrite (body_run _ _ _ _ _ ms Hms); cbv zeta.
  all: destruct (convertedRows (sink w) batch) as [|row rows] eqn:Hrows;
    [cbn [length Nat.eqb]; eexists _, _, _; split; [reflexivity|];
     by eapply WriteNoRows|].
  all: cbn [length Nat.eqb]; rewrite trace_extend.
  all: destruct (appendStage R _ ms _) as [[o|err] evs] eqn:Hstage;
    [rewrite extend_extend;
     destruct (negb (o =? managedwriter.NoStreamOffset)) eqn:Ho;
     eexists _, _, _; (split; [reflexivity|]);
     pose proof (WriteAnswered R batch retryCount (sink w) (trace w) ms o evs
                   Hms) as Hr;
     rewrite Hrows, Ho in Hr; by apply Hr|].
  all: destruct (isReconnectableError (Some err) && (retryCount <? maxRetries))
         eqn:Hguard;
    [|rewrite extend_extend; eexists _, _, _; split; [reflexivity|];
      pose proof (WriteGivesUp R batch retryCount (sink w) (trace w) ms err
                    evs Hms) as Hr;
      rewrite Hrows in Hr; by apply Hr].
  all: apply andb_true_iff in Hguard as [Hre Hrc%Z.ltb_lt].
  - unfold maxRetries in *. lia.
  - rewrite extend_extend.
    destruct (reconnect_derivation
                (extend w (beforeAppend (sink w) batch ++ evs)))
      as (r & g2 & revs & Hrec & Hd).
    rewrite Hrec. cbn [sink trace extend] in Hd |- *.
    assert (Hfail : r <> Returns None ->
      exists res g' evs0,
        (reconnectFailed r,
         {| sink := g2;
            trace := (trace w ++ beforeAppend (sink w) batch ++ evs) ++ revs |})
        = (res, {| sink := g'; trace := trace w ++ evs0 |}) /\
        WriteRun R batch retryCount (sink w) (trace w) res g' evs0).
    { intros Hne. eexists _, _, _. split.
      - rewrite <- !app_assoc. reflexivity.
      - pose proof (WriteReconnectFails R batch retryCount (sink w) (trace w)
                      ms err evs r g2 revs Hms) as Hr.
        rewrite Hrows in Hr. by apply Hr. }
    destruct r as [[re|]| |]; try (by apply Hfail).
    destruct (IH (retryCount + 1)
                {| sink := g2;
                   trace := (trace w ++ beforeAppend (sink w) batch ++ evs)
                            ++ revs |})
      as (res & g' & evs' & Hrun & Hd'); [unfold maxRetries in *; lia|].
    rewrite Hrun. cbn [sink trace] in Hd' |- *.
    eexists _, _, _. split.
    + rewrite <- !app_assoc. reflexivity.
    + pose proof (WriteRetries R batch retryCount (sink w) (trace w) ms err
                    evs g2 revs res g' evs' Hms) as Hr.
      rewrite Hrows in Hr. rewrite <- !app_assoc in Hd'. by apply Hr.
Qed.

(** ** Reading the runs of the methods *)

Lemma WriteBatch_read (batch : MessageBatch) (w : World) :
  exists (res : Outcome (option error)) (g' : gcpBigQueryOutput)
         (evs : list Event),
    WriteBatch R batch w = (res, {| sink := g'; trace := trace w ++ evs |}) /\
    WriteRun R batch 0 (sink w) (trace w) res g' evs /\
    resultOf (WriteBatch R batch) w = res /\
    eventsOf (WriteBatch R batch) w = evs /\
    sinkAfter (WriteBatch R batch) w = g'.
Proof.
  destruct (writeBatchWithRetry_derivation batch 2 0 w eq_refl)
    as (res & g' & evs & Hrun & Hd).
  exists res, g', evs. split; [done|]. split; [done|].
  by apply read_run.
Qed.

Lemma reconnect_read (w : World) :
  exists (res : Outcome (option error)) (g' : gcpBigQueryOutput)
         (evs : list Event),
    ReconnectRun (sink w) res g' evs /\
    resultOf (reconnect R) w = res /\
    eventsOf (reconnect R) w = evs /\
    sinkAfter (reconnect R) w = g'.
Proof.
  destruct (reconnect_derivation w) as (res & g' & evs & Hrun & Hd).
  exists res, g', evs. split; [done|]. by apply read_run.
Qed.

Lemma Connect_read (w : World) :
  exists (res : Outcome (option error)) (g' : gcpBigQueryOutput)
         (evs : list Event),
    ConnectRun (sink w) res g' evs /\
    resultOf (Connect R) w = res /\
    eventsOf (Connect R) w = evs /\
    sinkAfter (Connect R) w = g'.
Proof.
  destruct (Connect_run w) as (res & g' & evs & Hrun & Hd).
  exists res, g', evs. split; [done|]. by apply read_run.
Qed.

(** ** Events of an attempt outside [reconnect] *)

Lemma conversionEvents_local (g : gcpBigQueryOutput) (msgs : list Message) :
  forall i : nat,
    Forall (fun ev => isLocalEvent ev = true) (conversionEvents g i msgs).
Proof.
  induction msgs as [|msg msgs IH]; intros i; [constructor|].
  cbn [conversionEvents]. constructor; [done|].
  apply Forall_app. split; [|apply IH].
  destruct (AsBytes msg) as [msgBytes|err]; [|constructor].
  constructor; [done|].
  destruct (Unmarshal _ _ msgBytes); repeat constructor.
Qed.

Lemma beforeAppend_local (g : gcpBigQueryOutput) (batch : MessageBatch) :
  Forall (fun ev => isLocalEvent ev = true) (beforeAppend g batch).
Proof.
  unfold beforeAppend. apply Forall_app. split; [by repeat constructor|].
  apply conversionEvents_local.
Qed.

Lemma appendStage_local (h : list Event) (ms : ManagedStream)
    (rows : list bytes) (r : Result Z) (evs : list Event) :
  appendStage R h ms rows = (r, evs) ->
  Forall (fun ev => isLocalEvent ev = true) evs.
Proof.
  unfold appendStage.
  destruct (ManagedStream_AppendRows R h ms rows) as [result|err].
  - destruct (AppendResult_GetResult R _ result) as [o|err];
      intros [= <- <-]; by repeat constructor.
  - intros [= <- <-]; by repeat constructor.
Qed.

Lemma local_storesGuarded (a b : list Event) (held : bool) :
  Forall (fun ev => isLocalEvent ev = true) a ->
  storesGuarded held (a ++ b) = storesGuarded held b.
Proof.
  induction 1 as [|ev a Hev _ IH]; [done|].
  destruct ev; try discriminate; cbn [app storesGuarded]; exact IH.
Qed.

Lemma local_openHandles (a b : list Event) (held : list Handle) :
  Forall (fun ev => isLocalEvent ev = true) a ->
  openHandles held (a ++ b) = openHandles held b.
Proof.
  induction 1 as [|ev a Hev _ IH]; [done|].
  destruct ev; try discriminate; cbn [app openHandles]; exact IH.
Qed.

Lemma storedFields_app (a b : list Event) :
  storedFields (a ++ b) = storedFields a ++ storedFields b.
Proof. unfold storedFields. apply omap_app. Qed.

Lemma local_storedFields (a : list Event) :
  Forall (fun ev => isLocalEvent ev = true) a -> storedFields a = [].
Proof.
  induction 1 as [|ev a Hev _ IH]; [done|].
  destruct ev; try discriminate; exact IH.
Qed.

Lemma last_app_unlock (a : list Event) : last (a ++ [EvUnlock]) = Some EvUnlock.
Proof. by rewrite last_snoc. Qed.

(** ** What every run of [reconnect] does *)

Lemma heldHandles_close_stream (g : gcpBigQueryOutput) (ms : ManagedStream) :
  managedStream g = Some ms ->
  filter (fun h => h <> HStream ms) (heldHandles g) =
  heldHandles (set_managedStream None g).
Proof.
  intros Hms. unfold heldHandles. cbn [client mwClient managedStream
    set_managedStream]. rewrite Hms.
  destruct (client g), (mwClient g); cbn [app];
    rewrite ?kept_handle by done; rewrite ?closed_handle; by rewrite filter_nil.
Qed.

Lemma heldHandles_open_stream (g : gcpBigQueryOutput) (ms : ManagedStream) :
  heldHandles (withoutStream g) ++ [HStream ms] =
  heldHandles (set_managedStream (Some ms) g).
Proof.
  unfold heldHandles, withoutStream.
  destruct (managedStream g) eqn:Hms;
    cbn [client mwClient managedStream set_managedStream]; rewrite ?Hms;
    destruct (client g), (mwClient g); reflexivity.
Qed.

Lemma reconnectPrefix_handles (g : gcpBigQueryOutput) (rest : list Event) :
  openHandles (heldHandles g) (reconnectPrefix g ++ rest) =
  openHandles (heldHandles (withoutStream g)) rest.
Proof.
  unfold reconnectPrefix, withoutStream.
  destruct (managedStream g) as [ms|] eqn:Hms; cbn [app openHandles];
    [by rewrite heldHandles_close_stream|done].
Qed.

Lemma withoutStream_fields (g : gcpBigQueryOutput) :
  set_managedStream None (withoutStream g) = set_managedStream None g.
Proof. unfold withoutStream. by destruct (managedStream g). Qed.

Lemma ReconnectRun_facts (g : gcpBigQueryOutput) (r : Outcome (option error))
    (g2 : gcpBigQueryOutput) (revs : list Event) :
  ReconnectRun g r g2 revs ->
  set_managedStream None g2 = set_managedStream None g /\
  (forall rest,
     storesGuarded false (revs ++ rest) = storesGuarded false rest) /\
  (forall rest,
     openHandles (heldHandles g) (revs ++ rest) =
     openHandles (heldHandles g2) rest) /\
  Forall (fun f => f = FmanagedStream) (storedFields revs) /\
  exclusiveLocks revs = 1%nat /\ appendAttempts revs = 0%nat /\
  byteExtractions revs = 0%nat /\
  last revs = Some EvUnlock /\
  r <> OutOfFuel.
Proof.
  intros Hrun.
  assert (Hprefix : forall rest,
            storesGuarded false (reconnectPrefix g ++ rest) =
            storesGuarded true rest /\
            Forall (fun f => f = FmanagedStream)
              (storedFields (reconnectPrefix g)) /\
            exclusiveLocks (reconnectPrefix g) = 1%nat /\
            appendAttempts (reconnectPrefix g) = 0%nat /\
            byteExtractions (reconnectPrefix g) = 0%nat).
  { intros rest. unfold reconnectPrefix.
    destruct (managedStream g); cbn [app storesGuarded andb];
      repeat split; repeat constructor. }
  destruct Hrun as [Hmw|mw e Hmw|mw ms Hmw Hc|mw ms c Hmw Hc];
    unfold reconnectEvents.
  all: split; [by rewrite ?withoutStream_fields|].
  all: split;
    [intros rest; rewrite <- ?app_assoc;
     rewrite (proj1 (Hprefix _)); reflexivity|].
  all: split;
    [intros rest; rewrite <- ?app_assoc; rewrite reconnectPrefix_handles;
     cbn [app openHandles]; by rewrite ?heldHandles_open_stream|].
  all: destruct (Hprefix []) as (_ & Hf & Hl & Ha & Hb).
  all: rewrite ?storedFields_app, ?exclusiveLocks_app, ?appendAttempts_app,
         ?byteExtractions_app, Hl, Ha, Hb.
  all: split; [repeat (apply Forall_app; split); try done;
               repeat constructor|].
  all: rewrite ?app_assoc, ?last_app_unlock.
  all: repeat split; try done.
  all: change [?a; ?b; EvUnlock] with ([a; b] ++ [EvUnlock]).
  all: change [?a; EvUnlock] with ([a] ++ [EvUnlock]).
  all: by rewrite ?app_assoc, last_app_unlock.
Qed.

Lemma ReconnectRun_creations (g : gcpBigQueryOutput)
    (r : Outcome (option error)) (g2 : gcpBigQueryOutput)
    (revs : list Event) :
  ReconnectRun g r g2 revs ->
  (streamCreations revs <= 1)%nat /\
  (r = Returns None -> streamCreations revs = 1%nat).
Proof.
  intros Hd.
  destruct Hd as [Hmw|mw e Hmw|mw ms Hmw Hc|mw ms c Hmw Hc];
    try (destruct (reconnectEvents_counts g mw (Err e)) as (_ & _ & -> & _));
    try (destruct (reconnectEvents_counts g mw (Ok ms)) as (_ & _ & -> & _));
    try (split; [lia|done]).
  assert (streamCreations (reconnectPrefix g ++ [EvUnlock]) = 0%nat) as ->
    by (unfold reconnectPrefix; by destruct (managedStream g)).
  split; [lia|done].
Qed.

Lemma ReconnectRun_head (g : gcpBigQueryOutput) (r : Outcome (option error))
    (g2 : gcpBigQueryOutput) (revs : list Event) :
  ReconnectRun g r g2 revs -> exists rest : list Event, revs = EvLock :: rest.
Proof.
  intros Hd. destruct Hd; unfold reconnectEvents, reconnectPrefix;
    cbn [app]; by eexists.
Qed.

(** X1. [reconnect], whatever the state of the sink: it takes the
    exclusive lock once and releases it last, also when it panics; it
    stores only while it holds the lock, and to nothing but the stream; it
    closes the stream held and sleeps one second, with the lock held,
    before it asks for a new one, at most once, so that the handles open
    afterwards are those the sink holds; it returns nil only with a new
    stream installed, and an error only with no stream left; it panics
    exactly when the write client is nil, or when the metadata client is
    nil and the new stream was created. *)
Theorem reconnect_always_unlocks (w : World) :
  let res := resultOf (reconnect R) w in
  let evs := eventsOf (reconnect R) w in
  let g' := sinkAfter (reconnect R) w in
  (exists rest : list Event, evs = reconnectPrefix (sink w) ++ rest) /\
  (streamCreations evs <= 1)%nat /\
  exclusiveLocks evs = 1%nat /\
  last evs = Some EvUnlock /\
  storesGuarded false evs = true /\
  Forall (fun f => f = FmanagedStream) (storedFields evs) /\
  set_managedStream None g' = set_managedStream None (sink w) /\
  openHandles (heldHandles (sink w)) evs = heldHandles g' /\
  (res = Returns None -> is_Some (managedStream g')) /\
  (forall e : error, res = Returns (Some e) -> managedStream g' = None) /\
  (res = Panics <->
   mwClient (sink w) = None \/
   (client (sink w) = None /\ is_Some (managedStream g'))).
Proof.
  destruct (reconnect_read w) as (res & g' & evs & Hd & -> & -> & ->).
  cbv zeta.
  destruct (ReconnectRun_facts _ _ _ _ Hd)
    as (Hsame & HG & HO & HF & HL & _ & _ & Hlast & _).
  specialize (HG []). specialize (HO []). rewrite app_nil_r in HG, HO.
  split; [destruct Hd; unfold reconnectEvents; by eexists|].
  split; [by destruct (ReconnectRun_creations _ _ _ _ Hd)|].
  repeat (split; [done|]).
  assert (Hnone : managedStream (withoutStream (sink w)) = None).
  { unfold withoutStream. by destruct (managedStream (sink w)) eqn:E. }
  destruct Hd as [Hmw|mw e Hmw|mw ms Hmw Hc|mw ms c Hmw Hc].
  - rewrite Hnone. split; [done|]. split; [done|]. split; [by left|done].
  - rewrite Hnone. split; [done|]. split; [done|].
    split; [done|]. intros [?|[_ [? ?]]]; congruence.
  - cbn [managedStream set_managedStream]. split; [done|]. split; [done|].
    split; [right; by eauto|done].
  - cbn [managedStream set_managedStream]. split; [by eauto|].
    split; [done|]. split; [done|]. intros [?|[? _]]; congruence.
Qed.

(** ** What every run of [writeBatchWithRetry] keeps *)

Lemma same_session (g g2 : gcpBigQueryOutput) (batch : MessageBatch) :
  set_managedStream None g2 = set_managedStream None g ->
  convertedRows g2 batch = convertedRows g batch /\
  client g2 = client g /\ mwClient g2 = mwClient g /\ conf g2 = conf g /\
  descriptorProto g2 = descriptorProto g /\
  messageDescriptor g2 = messageDescriptor g /\ umo g2 = umo g.
Proof.
  intros Heq.
  rewrite <- (convertedRows_set_managedStream g2 None),
          <- (convertedRows_set_managedStream g None), Heq.
  split; [done|].
  pose proof (f_equal client Heq). pose proof (f_equal mwClient Heq).
  pose proof (f_equal conf Heq). pose proof (f_equal descriptorProto Heq).
  pose proof (f_equal messageDescriptor Heq). pose proof (f_equal umo Heq).
  done.
Qed.

Ltac write_run_induction Hrun :=
  induction Hrun as
    [rc g h Hms
    |rc g h ms Hms Hrows
    |rc g h ms o evs Hms Hrows Hstage
    |rc g h ms err evs Hms Hrows Hstage Hguard
    |rc g h ms err evs r g2 revs Hms Hrows Hstage Hre Hrc Hrec Hne
    |rc g h ms err evs g2 revs res g' evs' Hms Hrows Hstage Hre Hrc Hrec
       Hrun IH].

Lemma WriteRun_fields (batch : MessageBatch) (rc : Z) (g : gcpBigQueryOutput)
    (h : list Event) (res : Outcome (option error)) (g' : gcpBigQueryOutput)
    (evs : list Event) :
  WriteRun R batch rc g h res g' evs ->
  set_managedStream None g' = set_managedStream None g.
Proof.
  intros Hrun. write_run_induction Hrun; try done.
  - by destruct (ReconnectRun_facts _ _ _ _ Hrec) as (-> & _).
  - destruct (ReconnectRun_facts _ _ _ _ Hrec) as (<- & _). exact IH.
Qed.

Lemma WriteRun_unchanged (batch : MessageBatch) (rc : Z)
    (g : gcpBigQueryOutput) (h : list Event) (res : Outcome (option error))
    (g' : gcpBigQueryOutput) (evs : list Event) :
  WriteRun R batch rc g h res g' evs ->
  exclusiveLocks evs = 0%nat -> g' = g.
Proof.
  intros Hrun. write_run_induction Hrun; try done.
  all: destruct (ReconnectRun_facts _ _ _ _ Hrec) as (_ & _ & _ & _ & HL & _).
  all: rewrite !exclusiveLocks_app, HL; lia.
Qed.

Lemma WriteRun_guarded (batch : MessageBatch) (rc : Z) (g : gcpBigQueryOutput)
    (h : list Event) (res : Outcome (option error)) (g' : gcpBigQueryOutput)
    (evs : list Event) :
  WriteRun R batch rc g h res g' evs ->
  forall rest : list Event,
    storesGuarded false (evs ++ rest) = storesGuarded false rest.
Proof.
  intros Hrun. write_run_induction Hrun; intros rest; try done.
  all: pose proof (beforeAppend_local g batch) as Hb.
  all: try pose proof (appendStage_local _ _ _ _ _ Hstage) as Hs.
  all: rewrite <- ?app_assoc, ?local_storesGuarded by done; try done.
  all: destruct (ReconnectRun_facts _ _ _ _ Hrec) as (_ & HG & _).
  all: rewrite HG; done.
Qed.

Lemma WriteRun_stores (batch : MessageBatch) (rc : Z) (g : gcpBigQueryOutput)
    (h : list Event) (res : Outcome (option error)) (g' : gcpBigQueryOutput)
    (evs : list Event) :
  WriteRun R batch rc g h res g' evs ->
  Forall (fun f => f = FmanagedStream) (storedFields evs).
Proof.
  intros Hrun. write_run_induction Hrun; try done.
  all: pose proof (local_storedFields _ (beforeAppend_local g batch)) as Hb.
  all: try pose proof (local_storedFields _
                         (appendStage_local _ _ _ _ _ Hstage)) as Hs.
  all: rewrite ?storedFields_app, ?Hb, ?Hs; cbn [app]; try done.
  all: destruct (ReconnectRun_facts _ _ _ _ Hrec) as (_ & _ & _ & HF & _).
  all: try done.
  by apply Forall_app.
Qed.

Lemma WriteRun_handles (batch : MessageBatch) (rc : Z) (g : gcpBigQueryOutput)
    (h : list Event) (res : Outcome (option error)) (g' : gcpBigQueryOutput)
    (evs : list Event) :
  WriteRun R batch rc g h res g' evs ->
  forall rest : list Event,
    openHandles (heldHandles g) (evs ++ rest) =
    openHandles (heldHandles g') rest.
Proof.
  intros Hrun. write_run_induction Hrun; intros rest; try done.
  all: pose proof (beforeAppend_local g batch) as Hb.
  all: try pose proof (appendStage_local _ _ _ _ _ Hstage) as Hs.
  all: rewrite <- ?app_assoc, ?local_openHandles by done; try done.
  all: destruct (ReconnectRun_facts _ _ _ _ Hrec) as (_ & _ & HO & _).
  all: rewrite HO; done.
Qed.

Lemma WriteRun_passes (batch : MessageBatch) (rc : Z) (g : gcpBigQueryOutput)
    (h : list Event) (res : Outcome (option error)) (g' : gcpBigQueryOutput)
    (evs : list Event) :
  WriteRun R batch rc g h res g' evs ->
  match managedStream g with
  | None => byteExtractions evs = 0%nat /\ appendAttempts evs = 0%nat
  | Some _ =>
      byteExtractions evs =
        (length batch * Nat.max 1 (appendAttempts evs))%nat /\
      (convertedRows g batch = [] <-> appendAttempts evs = 0%nat)
  end.
Proof.
  intros Hrun. write_run_induction Hrun; rewrite Hms; try done.
  all: destruct (beforeAppend_counts g batch) as (Pa & _ & _ & Pb & _).
  all: try destruct (appendStage_counts _ _ _ _ _ _ Hstage)
         as (A1 & _ & _ & B1 & _).
  all: try destruct (ReconnectRun_facts _ _ _ _ Hrec)
         as (Hsame & _ & _ & _ & _ & RA & RB & _).
  all: rewrite ?byteExtractions_app, ?appendAttempts_app, ?Pa, ?Pb, ?A1, ?B1,
         ?RA, ?RB.
  - split; [cbn; lia|done].
  - split; [cbn; lia|]. split; [done|lia].
  - split; [cbn; lia|]. split; [done|lia].
  - split; [cbn; lia|]. split; [done|lia].
  - destruct (same_session _ _ batch Hsame) as (Hrows2 & _).
    inversion Hrec as [| | |mw ms' c Hmw Hc Hr Hg2 Hrevs]; subst g2.
    cbn [managedStream set_managedStream] in IH.
    destruct IH as (IHb & IHa). rewrite IHb.
    assert (appendAttempts evs' <> 0%nat)
      by (rewrite <- IHa; rewrite Hrows2; done).
    split; [|split; [done|lia]].
    replace (Nat.max 1 (appendAttempts evs')) with (appendAttempts evs')
      by lia.
    replace (Nat.max 1 (0 + (1 + (0 + appendAttempts evs'))))
      with (S (appendAttempts evs')) by lia.
    lia.
Qed.

Lemma WriteRun_safe (batch : MessageBatch) (rc : Z) (g : gcpBigQueryOutput)
    (h : list Event) (res : Outcome (option error)) (g' : gcpBigQueryOutput)
    (evs : list Event) :
  WriteRun R batch rc g h res g' evs ->
  res <> OutOfFuel /\
  (is_Some (managedStream g') -> is_Some (managedStream g)) /\
  ((is_Some (managedStream g) -> is_Some (client g) /\ is_Some (mwClient g)) ->
   exists r : option error, res = Returns r).
Proof.
  intros Hrun. write_run_induction Hrun.
  1-4: split; [done|]; split; [done|]; intros _; by eexists.
  - destruct (ReconnectRun_facts _ _ _ _ Hrec) as (_ & _ & _ & _ & _ & _ & _
                                                     & _ & Hfuel).
    split; [by destruct r as [[?|]| |]|].
    split; [by rewrite Hms|].
    intros Hinv. destruct Hinv as [[c Hc] [mw Hmw]]; [by rewrite Hms|].
    inversion Hrec; subst; try congruence. by eexists.
  - destruct IH as (IHf & IHs & IHp).
    split; [done|]. split; [by rewrite Hms|].
    intros Hinv. apply IHp. intros _.
    destruct (ReconnectRun_facts _ _ _ _ Hrec) as (Hsame & _).
    destruct (same_session _ _ batch Hsame) as (_ & -> & -> & _).
    apply Hinv. by rewrite Hms.
Qed.

Lemma WriteRun_stream (batch : MessageBatch) (rc : Z) (g : gcpBigQueryOutput)
    (h : list Event) (res : Outcome (option error)) (g' : gcpBigQueryOutput)
    (evs : list Event) :
  WriteRun R batch rc g h res g' evs ->
  is_Some (managedStream g) -> is_Some (client g) ->
  forall mw : MWClient,
    mwClient g = Some mw ->
    (managedStream g' = None <->
     exists e : goError, res = Returns (Some (reconnectFailure e))) /\
    (forall e : goError,
       res = Returns (Some (reconnectFailure e)) ->
       In (evStream g mw (descriptorProto g) (Err e)) evs).
Proof.
  intros Hrun. write_run_induction Hrun; intros [ms0 Hms0] [c Hc] mw Hmw.
  - congruence.
  - rewrite Hms.
    destruct (recordFailures batch (failedItems g 0 batch) None);
      split; [split; [done|by intros [e [=]]]|by intros e [=]
             |split; [done|by intros [e [=]]]|by intros e [=]].
  - rewrite Hms.
    destruct (negb (o =? managedwriter.NoStreamOffset));
      [|destruct (recordFailures batch (failedItems g 0 batch) None)];
      (split; [split; [done|by intros [e [=]]]|by intros e [=]]).
  - rewrite Hms. split; [split; [done|by intros [e [=]]]|by intros e [=]].
  - inversion Hrec as [Hmw'|mw' e Hmw' Hr Hg2 Hrevs|mw' ms' Hmw' Hc'
                      |mw' ms' c' Hmw' Hc' Hr]; subst; try congruence.
    assert (mw' = mw) as -> by congruence.
    unfold withoutStream. rewrite Hms. cbn [managedStream set_managedStream].
    split; [split; [by eexists|done]|].
    intros e' [= <-]. rewrite !in_app_iff. right. right.
    unfold reconnectEvents, evStream. rewrite !in_app_iff. right. left.
    by left.
  - inversion Hrec as [| | |mw' ms' c' Hmw' Hc' Hr Hg2 Hrevs]; subst g2.
    destruct (IH ltac:(by eexists) ltac:(by eexists) mw Hmw) as (IH1 & IH2).
    split; [exact IH1|].
    intros e Hres. specialize (IH2 e Hres).
    rewrite !in_app_iff. by do 3 right.
Qed.

Lemma WriteRun_not_connected (batch : MessageBatch) (rc : Z)
    (g : gcpBigQueryOutput) (h : list Event) (res : Outcome (option error))
    (g' : gcpBigQueryOutput) (evs : list Event) :
  WriteRun R batch rc g h res g' evs ->
  res = Returns (Some ErrNotConnected) -> managedStream g = None.
Proof.
  intros Hrun. write_run_induction Hrun; try done.
  - by destruct (recordFailures batch (failedItems g 0 batch) None).
  - destruct (negb (o =? managedwriter.NoStreamOffset)); [done|].
    by destruct (recordFailures batch (failedItems g 0 batch) None).
  - by destruct Hrec.
  - intros Hres. specialize (IH Hres).
    inversion Hrec as [| | |mw ms' c Hmw Hc Hr Hg2 Hrevs]; subst g2.
    discriminate.
Qed.

Lemma WriteRun_bound (batch : MessageBatch) (rc : Z) (g : gcpBigQueryOutput)
    (h : list Event) (res : Outcome (option error)) (g' : gcpBigQueryOutput)
    (evs : list Event) :
  WriteRun R batch rc g h res g' evs ->
  (exclusiveLocks evs <= Z.to_nat (maxRetries - rc))%nat /\
  (exclusiveLocks evs <= appendAttempts evs)%nat /\
  (appendAttempts evs <= exclusiveLocks evs + 1)%nat /\
  (streamCreations evs <= exclusiveLocks evs)%nat.
Proof.
  intros Hrun. write_run_induction Hrun.
  1: { assert (exclusiveLocks [EvRLock; EvRUnlock] = 0%nat) as -> by done.
       assert (appendAttempts [EvRLock; EvRUnlock] = 0%nat) as -> by done.
       assert (streamCreations [EvRLock; EvRUnlock] = 0%nat) as -> by done.
       repeat split; lia. }
  all: destruct (beforeAppend_counts g batch) as (Pa & Pl & Ps & _).
  all: try destruct (appendStage_counts _ _ _ _ _ _ Hstage)
         as (A1 & L1 & S1 & _).
  all: try destruct (ReconnectRun_facts _ _ _ _ Hrec)
         as (_ & _ & _ & _ & RL & RA & _).
  all: try destruct (ReconnectRun_creations _ _ _ _ Hrec) as (RS & RS1).
  all: rewrite ?exclusiveLocks_app, ?appendAttempts_app, ?streamCreations_app,
         ?Pa, ?Pl, ?Ps, ?A1, ?L1, ?S1, ?RL, ?RA.
  1-3: repeat split; lia.
  - unfold maxRetries in *. repeat split; lia.
  - rewrite (RS1 eq_refl). destruct IH as (I1 & I2 & I3 & I4).
    unfold maxRetries in *. repeat split; lia.
Qed.

Lemma acknowledgements_app (a b : list Event) :
  acknowledgements (a ++ b) = (acknowledgements a + acknowledgements b)%nat.
Proof. unfold acknowledgements. by rewrite filter_app, length_app. Qed.

Lemma local_acknowledgements (g : gcpBigQueryOutput) (msgs : list Message) :
  forall i : nat, acknowledgements (conversionEvents g i msgs) = 0%nat.
Proof.
  induction msgs as [|msg msgs IH]; intros i; [done|].
  cbn [conversionEvents].
  change (EvAsBytes i :: ?l) with ([EvAsBytes i] ++ l).
  rewrite !acknowledgements_app, IH.
  destruct (AsBytes msg) as [msgBytes|err]; [|done].
  by destruct (Unmarshal _ _ msgBytes).
Qed.

Lemma appendStage_acknowledgements (h : list Event) (ms : ManagedStream)
    (rows : list bytes) (r : Result Z) (evs : list Event) :
  appendStage R h ms rows = (r, evs) ->
  match r with
  | Ok o =>
      acknowledgements evs = 1%nat /\
      exists a : AppendResult, last evs = Some (EvGetResult a (Ok o))
  | Err _ => acknowledgements evs = 0%nat
  end.
Proof.
  unfold appendStage.
  destruct (ManagedStream_AppendRows R h ms rows) as [result|err].
  - destruct (AppendResult_GetResult R _ result) as [o|err];
      intros [= <- <-]; [|done]. split; [done|by eexists].
  - by intros [= <- <-].
Qed.

Lemma WriteRun_acknowledgements (batch : MessageBatch) (rc : Z)
    (g : gcpBigQueryOutput) (h : list Event) (res : Outcome (option error))
    (g' : gcpBigQueryOutput) (evs : list Event) :
  WriteRun R batch rc g h res g' evs ->
  (acknowledgements evs <= 1)%nat /\
  (acknowledgements evs = 1%nat ->
   exists (a : AppendResult) (o : Z),
     last evs = Some (EvGetResult a (Ok o)) /\
     (res = Returns None -> o = managedwriter.NoStreamOffset)) /\
  (acknowledgements evs = 0%nat ->
   convertedRows g batch <> [] -> is_Some (managedStream g) ->
   res <> Returns None /\
   forall b : service.BatchError, res <> Returns (Some (ErrBatch b))).
Proof.
  intros Hrun. write_run_induction Hrun.
  1: { split; [by compute; lia|]. split; [by intros [=]|].
       intros _ _ [? ?]. congruence. }
  all: assert (Pk : acknowledgements (beforeAppend g batch) = 0%nat)
         by (unfold beforeAppend; rewrite acknowledgements_app,
               local_acknowledgements; done).
  all: try (pose proof (appendStage_acknowledgements _ _ _ _ _ Hstage) as Ak;
            cbn beta iota in Ak).
  all: try (assert (Rk : acknowledgements revs = 0%nat)
              by (destruct Hrec; unfold reconnectEvents, reconnectPrefix;
                  destruct (managedStream g); done)).
  all: rewrite ?acknowledgements_app, ?Pk, ?Rk.
  - split; [lia|]. split; [by intros [=]|]. by intros _ ?.
  - destruct Ak as (-> & a & Hlast). split; [lia|]. split; [|by intros [=]].
    intros _. exists a, o. split.
    + rewrite last_app, Hlast. done.
    + destruct (negb (o =? managedwriter.NoStreamOffset)) eqn:Ho; [done|].
      intros _. apply negb_false_iff, Z.eqb_eq in Ho. done.
  - rewrite Ak. split; [lia|]. split; [by intros [=]|]. by intros _ _ _.
  - rewrite Ak. split; [lia|]. split; [by intros [=]|]. intros _ _ _.
    destruct Hrec; done.
  - rewrite Ak. destruct IH as (I1 & I2 & I3).
    assert (Hg2 : convertedRows g2 batch = convertedRows g batch /\
                  is_Some (managedStream g2)).
    { inversion Hrec as [| | |mw ms' c Hmw Hc Hr Hg2 Hrevs]; subst g2.
      split; [done|by eexists]. }
    destruct Hg2 as (Hrows2 & Hms2).
    cbn [Nat.add]. split; [done|]. split.
    + intros Hone. destruct (I2 Hone) as (a & o & Hlast & Hnil).
      exists a, o. split; [|done].
      by rewrite !last_app, Hlast.
    + intros Hzero _ _. apply I3; [done|by rewrite Hrows2|done].
Qed.

Lemma conversionEvents_outsideLocks (g : gcpBigQueryOutput)
    (msgs : list Message) (rest : list Event) :
  forall i : nat,
    outsideLocks false false (conversionEvents g i msgs ++ rest) =
    outsideLocks false false rest /\
    sleepSeconds (conversionEvents g i msgs ++ rest) = sleepSeconds rest.
Proof.
  induction msgs as [|msg msgs IH]; intros i; [done|].
  cbn [conversionEvents]. destruct (IH (S i)) as (IH1 & IH2).
  destruct (AsBytes msg) as [msgBytes|err];
    [destruct (Unmarshal _ _ msgBytes)|];
    cbn [app outsideLocks sleepSeconds negb andb]; done.
Qed.

Lemma appendStage_outsideLocks (h : list Event) (ms : ManagedStream)
    (rows : list bytes) (r : Result Z) (evs rest : list Event) :
  appendStage R h ms rows = (r, evs) ->
  outsideLocks false false (evs ++ rest) = outsideLocks false false rest /\
  sleepSeconds (evs ++ rest) = sleepSeconds rest.
Proof.
  unfold appendStage.
  destruct (ManagedStream_AppendRows R h ms rows) as [result|err].
  - destruct (AppendResult_GetResult R _ result) as [o|err];
      by intros [= <- <-].
  - by intros [= <- <-].
Qed.

Lemma ReconnectRun_outsideLocks (g : gcpBigQueryOutput)
    (r : Outcome (option error)) (g2 : gcpBigQueryOutput)
    (revs rest : list Event) :
  ReconnectRun g r g2 revs ->
  outsideLocks false false (revs ++ rest) = outsideLocks false false rest /\
  sleepSeconds (revs ++ rest) = 1 + sleepSeconds rest.
Proof.
  intros Hd. destruct Hd; unfold reconnectEvents, reconnectPrefix;
    destruct (managedStream g); done.
Qed.

Lemma beforeAppend_outsideLocks (g : gcpBigQueryOutput)
    (batch : MessageBatch) (rest : list Event) :
  outsideLocks false false (beforeAppend g batch ++ rest) =
  outsideLocks false false rest /\
  sleepSeconds (beforeAppend g batch ++ rest) = sleepSeconds rest.
Proof.
  unfold beforeAppend. rewrite <- app_assoc.
  cbn [app outsideLocks sleepSeconds].
  apply conversionEvents_outsideLocks.
Qed.

Lemma WriteRun_outsideLocks (batch : MessageBatch) (rc : Z)
    (g : gcpBigQueryOutput) (h : list Event) (res : Outcome (option error))
    (g' : gcpBigQueryOutput) (evs : list Event) :
  WriteRun R batch rc g h res g' evs ->
  forall rest : list Event,
    outsideLocks false false (evs ++ rest) = outsideLocks false false rest /\
    sleepSeconds (evs ++ rest) =
      Z.of_nat (exclusiveLocks evs) + sleepSeconds rest.
Proof.
  intros Hrun. write_run_induction Hrun; intros rest.
  1: { assert (exclusiveLocks [EvRLock; EvRUnlock] = 0%nat) as -> by done.
       done. }
  all: destruct (beforeAppend_counts g batch) as (_ & Pl & _).
  all: try destruct (appendStage_counts _ _ _ _ _ _ Hstage) as (_ & L1 & _).
  all: try destruct (ReconnectRun_facts _ _ _ _ Hrec)
         as (_ & _ & _ & _ & RL & _).
  all: rewrite ?exclusiveLocks_app, ?Pl, ?L1, ?RL, <- ?app_assoc.
  all: destruct (beforeAppend_outsideLocks g batch rest) as (B1 & B2).
  - by rewrite B1, B2.
  - destruct (beforeAppend_outsideLocks g batch (evs ++ rest)) as (-> & ->).
    by destruct (appendStage_outsideLocks _ _ _ _ _ rest Hstage) as (-> & ->).
  - destruct (beforeAppend_outsideLocks g batch (evs ++ rest)) as (-> & ->).
    by destruct (appendStage_outsideLocks _ _ _ _ _ rest Hstage) as (-> & ->).
  - destruct (beforeAppend_outsideLocks g batch (evs ++ revs ++ rest))
      as (-> & ->).
    destruct (appendStage_outsideLocks _ _ _ _ _ (revs ++ rest) Hstage)
      as (-> & ->).
    by destruct (ReconnectRun_outsideLocks _ _ _ _ rest Hrec) as (-> & ->).
  - destruct (beforeAppend_outsideLocks g batch
                (evs ++ revs ++ evs' ++ rest)) as (-> & ->).
    destruct (appendStage_outsideLocks _ _ _ _ _ (revs ++ evs' ++ rest)
                Hstage) as (-> & ->).
    destruct (ReconnectRun_outsideLocks _ _ _ _ (evs' ++ rest) Hrec)
      as (-> & ->).
    destruct (IH rest) as (-> & ->). split; [done|]. lia.
Qed.

Lemma ReconnectRun_lastFailure (g : gcpBigQueryOutput)
    (r : Outcome (option error)) (g2 : gcpBigQueryOutput)
    (revs : list Event) :
  ReconnectRun g r g2 revs -> lastFailure revs = None.
Proof.
  intros Hd. destruct Hd; unfold reconnectEvents, reconnectPrefix;
    destruct (managedStream g); done.
Qed.

Lemma WriteRun_result (batch : MessageBatch) (rc : Z)
    (g : gcpBigQueryOutput) (h : list Event) (res : Outcome (option error))
    (g' : gcpBigQueryOutput) (evs : list Event) :
  WriteRun R batch rc g h res g' evs ->
  res = Returns None \/
  res = Returns (Some ErrNotConnected) \/
  (exists b : service.BatchError, res = Returns (Some (ErrBatch b))) \/
  (exists o : Z,
     o <> managedwriter.NoStreamOffset /\
     res = Returns
             (Some (Errorf "offset mismatch, got %d want %d"
                      [ArgInt o; ArgInt managedwriter.NoStreamOffset]))) \/
  (exists e : goError,
     res = Returns (Some (ErrLib e)) /\ lastFailure evs = Some e /\
     (isReconnectableError (Some e) = true ->
      exclusiveLocks evs = Z.to_nat (maxRetries - rc))) \/
  (exists e : goError, res = Returns (Some (reconnectFailure e))) \/
  res = Panics.
Proof.
  intros Hrun. write_run_induction Hrun.
  - right. by left.
  - destruct (recordFailures batch (failedItems g 0 batch) None) as [b|];
      [do 2 right; left; by eexists|by left].
  - destruct (negb (o =? managedwriter.NoStreamOffset)) eqn:Ho.
    + do 3 right. left. exists o. split; [|done].
      apply negb_true_iff, Z.eqb_neq in Ho. done.
    + destruct (recordFailures batch (failedItems g 0 batch) None) as [b|];
        [do 2 right; left; by eexists|by left].
  - do 4 right. left. exists err.
    destruct (beforeAppend_counts g batch) as (_ & Pl & _ & _ & Pf).
    destruct (appendStage_counts _ _ _ _ _ _ Hstage) as (_ & L1 & _ & _ & Lf).
    rewrite lastFailure_app, Lf, exclusiveLocks_app, Pl, L1.
    split; [done|]. split; [done|].
    intros Hre. rewrite Hre in Hguard. cbn [andb] in Hguard.
    apply Z.ltb_ge in Hguard. unfold maxRetries in *. lia.
  - destruct Hrec; try done; [by do 6 right|do 5 right; left|by do 6 right].
    by eexists.
  - destruct IH as [->|[->|[[b ->]|[(o & Ho & ->)|[(e & -> & Hf & Hl)
                   |[[e ->]| ->]]]]]].
    + by left.
    + right. by left.
    + do 2 right. left. by eexists.
    + do 3 right. left. by eexists.
    + do 4 right. left. exists e. split; [done|].
      destruct (beforeAppend_counts g batch) as (_ & Pl & _).
      destruct (appendStage_counts _ _ _ _ _ _ Hstage) as (_ & L1 & _).
      destruct (ReconnectRun_facts _ _ _ _ Hrec) as (_ & _ & _ & _ & RL & _).
      rewrite !lastFailure_app, Hf, !exclusiveLocks_app, Pl, L1, RL.
      split; [done|]. intros Hre'. rewrite (Hl Hre').
      unfold maxRetries in *. lia.
    + do 5 right. left. by eexists.
    + by do 6 right.
Qed.

(** ** The batch write and the session *)

(** X2. The retry ceiling holds for every batch write, whatever the remote
    side answers: at most two reconnects; an append before each reconnect
    and at most one more after the last; no stream creation outside a
    reconnect; and the recursion always comes to an end. *)
Theorem write_attempts_bounded (batch : MessageBatch) (w : World) :
  let evs := eventsOf (WriteBatch R batch) w in
  (reconnectAttempts evs <= 2)%nat /\
  (reconnectAttempts evs <= appendAttempts evs)%nat /\
  (appendAttempts evs <= reconnectAttempts evs + 1)%nat /\
  (streamCreations evs <= reconnectAttempts evs)%nat /\
  resultOf (WriteBatch R batch) w <> OutOfFuel.
Proof.
  destruct (WriteBatch_read batch w) as (res & g' & evs & _ & Hd & -> & -> & _).
  cbv zeta. unfold reconnectAttempts.
  destruct (WriteRun_bound _ _ _ _ _ _ _ Hd) as (B1 & B2 & B3 & B4).
  destruct (WriteRun_safe _ _ _ _ _ _ _ Hd) as (Hfuel & _).
  unfold maxRetries in B1. repeat split; try done; lia.
Qed.

(** X3. What a batch write can return: nil; the not-connected error; a
    batch error; the offset-mismatch error, for an offset other than the
    sentinel; the error of the last append or acknowledgement that failed,
    as it is, which when classified reconnectable comes only after two
    reconnects; the reconnect-failed error, wrapping the error of a stream
    creation; or no value, when [reconnect] panics. *)
Theorem write_result_kinds (batch : MessageBatch) (w : World) :
  let res := resultOf (WriteBatch R batch) w in
  let evs := eventsOf (WriteBatch R batch) w in
  res = Returns None \/
  res = Returns (Some ErrNotConnected) \/
  (exists b : service.BatchError, res = Returns (Some (ErrBatch b))) \/
  (exists o : Z,
     o <> managedwriter.NoStreamOffset /\
     res = Returns
             (Some (Errorf "offset mismatch, got %d want %d"
                      [ArgInt o; ArgInt managedwriter.NoStreamOffset]))) \/
  (exists e : goError,
     res = Returns (Some (ErrLib e)) /\ lastFailure evs = Some e /\
     (isReconnectableError (Some e) = true ->
      reconnectAttempts evs = 2%nat)) \/
  (exists e : goError, res = Returns (Some (reconnectFailure e))) \/
  res = Panics.
Proof.
  destruct (WriteBatch_read batch w) as (res & g' & evs & _ & Hd & -> & -> & _).
  exact (WriteRun_result _ _ _ _ _ _ _ Hd).
Qed.

(** X4. A batch write converts, appends and fetches acknowledgements while
    it holds neither lock: the shared lock is held only to read the stream
    handle. It sleeps one second in each reconnect and at no other time,
    which makes at most two seconds in a call. *)
Theorem appends_hold_no_lock (batch : MessageBatch) (w : World) :
  let evs := eventsOf (WriteBatch R batch) w in
  outsideLocks false false evs = true /\
  sleepSeconds evs = Z.of_nat (reconnectAttempts evs) /\
  sleepSeconds evs <= 2.
Proof.
  destruct (WriteBatch_read batch w) as (res & g' & evs & _ & Hd & _ & -> & _).
  cbv zeta. unfold reconnectAttempts.
  destruct (WriteRun_outsideLocks _ _ _ _ _ _ _ Hd []) as (Ho & Hs).
  destruct (WriteRun_bound _ _ _ _ _ _ _ Hd) as (B1 & _).
  rewrite app_nil_r in Ho, Hs. cbn [sleepSeconds] in Hs.
  unfold maxRetries in B1. cbn [outsideLocks] in Ho.
  split; [done|]. split; lia.
Qed.

(** X5. A batch write ends with its first acknowledged append: at most
    one append of a run is acknowledged, it is the last event of the run,
    and nothing is appended or converted after it. The write returns nil
    only after an append acknowledged at the sentinel offset, when any
    message converts; with a stream held and a message that converts, a
    run without an acknowledgement returns neither nil nor a batch
    error. *)
Theorem stops_after_acknowledgement (batch : MessageBatch) (w : World) :
  let res := resultOf (WriteBatch R batch) w in
  let evs := eventsOf (WriteBatch R batch) w in
  (acknowledgements evs <= 1)%nat /\
  (acknowledgements evs = 1%nat ->
   exists (a : AppendResult) (o : Z),
     last evs = Some (EvGetResult a (Ok o)) /\
     (res = Returns None -> o = managedwriter.NoStreamOffset)) /\
  (acknowledgements evs = 0%nat ->
   convertedRows (sink w) batch <> [] ->
   is_Some (managedStream (sink w)) ->
   res <> Returns None /\
   forall b : service.BatchError, res <> Returns (Some (ErrBatch b))).
Proof.
  destruct (WriteBatch_read batch w) as (res & g' & evs & _ & Hd & -> & -> & _).
  by apply (WriteRun_acknowledgements _ _ _ _ _ _ _ Hd).
Qed.

(** X6. A batch write returns the not-connected error exactly when the
    sink holds no stream as the call begins: in particular never because a
    reconnect of the call failed. *)
Theorem not_connected_only_without_stream (batch : MessageBatch) (w : World) :
  resultOf (WriteBatch R batch) w = Returns (Some ErrNotConnected) <->
  managedStream (sink w) = None.
Proof.
  destruct (WriteBatch_read batch w)
    as (res & g' & evs & Hrun & Hd & <- & _ & _).
  split; [by apply (WriteRun_not_connected _ _ _ _ _ _ _ Hd)|].
  intros Hms. unfold resultOf, WriteBatch.
  rewrite writeBatchWithRetry_unfold. by rewrite body_not_connected.
Qed.

(** X7. A batch write, however it ends, leaves every field of the sink but
    the stream handle as it was; the only guarded field it stores to is
    the stream handle, and only while the exclusive lock is held; a run
    without a reconnect leaves the whole sink as it was; and a write never
    gives a stream to a sink that held none. *)
Theorem write_keeps_session (batch : MessageBatch) (w : World) :
  let evs := eventsOf (WriteBatch R batch) w in
  let g' := sinkAfter (WriteBatch R batch) w in
  set_managedStream None g' = set_managedStream None (sink w) /\
  Forall (fun f => f = FmanagedStream) (storedFields evs) /\
  storesGuarded false evs = true /\
  (reconnectAttempts evs = 0%nat -> g' = sink w) /\
  (is_Some (managedStream g') -> is_Some (managedStream (sink w))).
Proof.
  destruct (WriteBatch_read batch w) as (res & g' & evs & _ & Hd & _ & -> & ->).
  cbv zeta. split; [by eapply WriteRun_fields|].
  split; [by eapply WriteRun_stores|].
  split.
  { pose proof (WriteRun_guarded _ _ _ _ _ _ _ Hd []) as Hg.
    by rewrite app_nil_r in Hg. }
  split; [by eapply WriteRun_unchanged|].
  by destruct (WriteRun_safe _ _ _ _ _ _ _ Hd) as (_ & ? & _).
Qed.

(** X8. The handles open after a batch write are exactly those the sink
    holds: every stream that a reconnect replaced was closed before, also
    when the reconnect fails or panics. *)
Theorem write_accounts_for_handles (batch : MessageBatch) (w : World) :
  openHandles (heldHandles (sink w)) (eventsOf (WriteBatch R batch) w) =
  heldHandles (sinkAfter (WriteBatch R batch) w).
Proof.
  destruct (WriteBatch_read batch w) as (res & g' & evs & _ & Hd & _ & -> & ->).
  pose proof (WriteRun_handles _ _ _ _ _ _ _ Hd []) as Hh.
  by rewrite app_nil_r in Hh.
Qed.

(** X9. Every attempt of a batch write converts the whole batch anew: with
    a stream held, the bytes of each message are extracted once per append
    issued, and once when no message converts, in which case nothing is
    appended; without a stream nothing is converted or appended. *)
Theorem conversion_once_per_append (batch : MessageBatch) (w : World) :
  let evs := eventsOf (WriteBatch R batch) w in
  match managedStream (sink w) with
  | None => byteExtractions evs = 0%nat /\ appendAttempts evs = 0%nat
  | Some _ =>
      byteExtractions evs =
        (length batch * Nat.max 1 (appendAttempts evs))%nat /\
      (convertedRows (sink w) batch = [] <-> appendAttempts evs = 0%nat)
  end.
Proof.
  destruct (WriteBatch_read batch w) as (res & g' & evs & _ & Hd & _ & -> & _).
  by apply (WriteRun_passes _ _ _ _ _ _ _ Hd).
Qed.

(** X10. A batch write by a connected sink returns (it does not panic). It
    leaves the sink without a stream exactly when it returns the
    reconnect-failed error, which wraps the error of a stream creation of
    the run; every batch write after that finds the sink not connected,
    until [Connect] is called again. *)
Theorem failed_reconnect_disconnects (batch next : MessageBatch) (w : World) :
  connected (sink w) ->
  let run := WriteBatch R batch in
  (exists r : option error, resultOf run w = Returns r) /\
  (managedStream (sinkAfter run w) = None <->
   exists e : goError, resultOf run w = Returns (Some (reconnectFailure e))) /\
  (forall e : goError,
     resultOf run w = Returns (Some (reconnectFailure e)) ->
     exists mw : MWClient,
       In (EvNewManagedStream mw (destinationTable (sink w))
             managedwriter.DefaultStream (descriptorProto (sink w)) (Err e))
          (eventsOf run w)) /\
  (managedStream (sinkAfter run w) = None ->
   resultOf (WriteBatch R next) (snd (run w)) =
     Returns (Some ErrNotConnected)).
Proof.
  intros (Hc & [mw Hmw] & Hms) run. subst run.
  destruct (WriteBatch_read batch w)
    as (res & g' & evs & Hrun & Hd & -> & -> & Hsink).
  destruct (WriteRun_stream _ _ _ _ _ _ _ Hd Hms Hc mw Hmw) as (Hiff & Hcause).
  destruct (WriteRun_safe _ _ _ _ _ _ _ Hd) as (_ & _ & Hsafe).
  rewrite Hsink. split; [by apply Hsafe|]. split; [exact Hiff|].
  split; [intros e He; exists mw; by apply Hcause|].
  intros Hnone. rewrite Hrun. unfold resultOf, WriteBatch.
  rewrite writeBatchWithRetry_unfold. by rewrite body_not_connected.
Qed.

(** ** The batch write before the reconnect wrapper *)

Lemma Original_run (batch : MessageBatch) (w : World) :
  Original.WriteBatch R batch w =
  writeBatchWithRetry R batch maxRetries w.
Proof.
  rewrite writeBatchWithRetry_unfold.
  destruct (managedStream (sink w)) as [ms|] eqn:Hms.
  2: { rewrite body_not_connected by done.
       unfold Original.WriteBatch, bind, emit, load; cbn.
       rewrite Hms. unfold ret, extend; cbn. by rewrite <- app_assoc. }
  rewrite (body_run _ _ _ _ _ ms Hms). cbv zeta.
  set (g := sink w).
  set (w1 := extend w (beforeAppend g batch)).
  assert (Hw1 : extend {| sink := sink w;
                          trace := (trace w ++ [EvRLock]) ++ [EvRUnlock] |}
                  (conversionEvents g 0 batch) = w1).
  { unfold w1, beforeAppend, extend; cbn. by rewrite <- !app_assoc. }
  unfold Original.WriteBatch, bind, emit, load.
  cbn [fst snd sink trace]. rewrite Hms, convertFrom_run.
  cbn [fst snd sink trace app]. fold g in Hw1 |- *. rewrite Hw1.
  destruct (length (convertedRows g batch) =? 0)%nat; [reflexivity|].
  unfold appendStage, call_AppendRows, call_GetResult, bind, history, emit,
    ret; cbn [fst snd sink trace].
  destruct (ManagedStream_AppendRows R (trace w1) ms _) as [result|err].
  - destruct (AppendResult_GetResult R _ result) as [o|err].
    + destruct (negb (o =? managedwriter.NoStreamOffset));
        unfold extend; cbn [sink trace]; rewrite <- ?app_assoc; reflexivity.
    + rewrite andb_false_r.
      unfold extend; cbn [sink trace]; rewrite <- ?app_assoc; reflexivity.
  - rewrite andb_false_r. reflexivity.
Qed.

(** X11. The batch write of the earlier revision of the file is the last
    attempt of the present one: [writeBatchWithRetry] at the retry
    ceiling. The present [WriteBatch] runs exactly as the earlier one,
    unless the earlier one returns an append or acknowledgement error that
    is classified reconnectable; then it does all that the earlier one
    does and goes on by taking the exclusive lock for a reconnect. *)
Theorem retry_extends_original (batch : MessageBatch) (w : World) :
  Original.WriteBatch R batch w = writeBatchWithRetry R batch maxRetries w /\
  (WriteBatch R batch w = Original.WriteBatch R batch w \/
   exists (err : goError) (rest : list Event),
     resultOf (Original.WriteBatch R batch) w = Returns (Some (ErrLib err)) /\
     isReconnectableError (Some err) = true /\
     eventsOf (WriteBatch R batch) w =
       eventsOf (Original.WriteBatch R batch) w ++ EvLock :: rest).
Proof.
  split; [apply Original_run|].
  pose proof (Original_run batch w) as Hold.
  assert (Hnew : WriteBatch R batch w = writeBatchWithRetry R batch 0 w)
    by reflexivity.
  rewrite writeBatchWithRetry_unfold in Hold.
  rewrite writeBatchWithRetry_unfold in Hnew.
  destruct (managedStream (sink w)) as [ms|] eqn:Hms.
  2: { rewrite body_not_connected in Hold by done.
       rewrite body_not_connected in Hnew by done.
       left. by rewrite Hold, Hnew. }
  rewrite (body_run _ _ _ _ _ ms Hms) in Hold.
  rewrite (body_run _ _ _ _ _ ms Hms) in Hnew. cbv zeta in Hold, Hnew.
  destruct (length (convertedRows (sink w) batch) =? 0)%nat;
    [left; by rewrite Hold, Hnew|].
  destruct (appendStage R _ ms _) as [[o|err] evs];
    [left; by rewrite Hold, Hnew|].
  rewrite andb_false_r in Hold.
  destruct (isReconnectableError (Some err)) eqn:Hre;
    [|left; by rewrite Hold, Hnew].
  right. exists err. cbn [andb Z.ltb Z.compare maxRetries] in Hnew.
  set (w1 := extend (extend w (beforeAppend (sink w) batch)) evs) in *.
  assert (Htr1 : trace w1 = trace w ++ beforeAppend (sink w) batch ++ evs).
  { unfold w1; cbn [extend trace]. by rewrite <- app_assoc. }
  destruct (reconnect_derivation w1) as (r & g2 & revs & Hrec & Hd).
  destruct (ReconnectRun_head _ _ _ _ Hd) as [rest0 ->].
  rewrite Hrec in Hnew.
  assert (Hevs : exists rest,
            trace (snd (WriteBatch R batch w)) =
            trace w ++ beforeAppend (sink w) batch ++ evs ++ EvLock :: rest).
  { destruct r as [[re|]| |]; rewrite Hnew; cbn [snd trace];
      try (rewrite Htr1, <- !app_assoc; by eexists).
    destruct (writeBatchWithRetry_derivation batch
                (Z.to_nat (maxRetries - (0 + 1))) (0 + 1)
                {| sink := g2; trace := trace w1 ++ EvLock :: rest0 |}
                eq_refl)
      as (res' & g' & evs' & Hrun' & _).
    rewrite Hrun'. cbn [snd trace]. rewrite Htr1, <- !app_assoc.
    cbn [app]. by eexists. }
  destruct Hevs as [rest Hevs]. exists rest.
  unfold resultOf, eventsOf. rewrite Hold, Hevs.
  cbn [fst snd trace]. rewrite Htr1, !drop_app_length.
  by rewrite <- app_assoc.
Qed.

(** ** Connect *)

Ltac connect_events :=
  unfold evClient, evWriter, evDataset, evTable, evStream, installed,
    destinationTable in *.

Ltac in_cases Hin :=
  cbn [In] in Hin;
  repeat (destruct Hin as [Hin|Hin];
          [try discriminate Hin; try (injection Hin as; subst)|]);
  try (destruct Hin).

(** X12. The error of [Connect] names the step that failed and wraps its
    cause: a failed creation of either client, a failed lookup of the
    dataset or of the table, a failed stream creation. A lookup answered
    with HTTP status 404 is the exception: the error then says that the
    dataset, or the table, does not exist, names it by its configured id,
    and does not wrap the cause. [Connect] returns an error only when one
    of these calls failed, or when [getDescriptor] fails on the schema of
    the table, whose error it returns as it is. *)
Theorem connect_error_names_failed_step (w : World) :
  let g := sink w in
  let evs := eventsOf (Connect R) w in
  let res := resultOf (Connect R) w in
  (forall p o e,
     In (EvBQNewClient p o (Err e)) evs ->
     res = Returns (Some (Errorf "error creating big query client: %w"
                            [ArgError (ErrLib e)]))) /\
  (forall p o e,
     In (EvMWNewClient p o (Err e)) evs ->
     res = Returns (Some (Errorf
                            "error creating BigQuery managed writer client: %w"
                            [ArgError (ErrLib e)]))) /\
  (forall c p d e,
     In (EvDatasetMetadata c p d (Err e)) evs ->
     res = Returns (Some (if hasStatusCode e http.StatusNotFound
                          then Errorf "dataset does not exist: %v"
                                 [ArgString (DatasetID (conf g))]
                          else Errorf "error checking dataset existence: %w"
                                 [ArgError (ErrLib e)]))) /\
  (forall c p d t e,
     In (EvTableMetadata c p d t (Err e)) evs ->
     res = Returns (Some (if hasStatusCode e http.StatusNotFound
                          then Errorf "table does not exist: %v"
                                 [ArgString (TableID (conf g))]
                          else Errorf "error checking table existence: %w"
                                 [ArgError (ErrLib e)]))) /\
  (forall mw d ty dp e,
     In (EvNewManagedStream mw d ty dp (Err e)) evs ->
     res = Returns (Some (Errorf "error creating BigQuery managed stream: %w"
                            [ArgError (ErrLib e)]))) /\
  (forall err : error,
     res = Returns (Some err) ->
     (exists (ev : Event) (e : goError), In ev evs /\ failedCall ev = Some e) \/
     (exists (c : Client) (schema : Schema) (md : option MessageDescriptor)
             (dp : option DescriptorProto) (e : goError),
        In (EvTableMetadata c (ProjectID (conf g)) (DatasetID (conf g))
              (TableID (conf g)) (Ok schema)) evs /\
        getDescriptor schema = (md, dp, Some e) /\ err = ErrLib e)).
Proof.
  destruct (Connect_read w) as (res & g' & evs & Hd & -> & -> & _).
  cbv zeta.
  assert (Hcalls :
    (forall p o e,
       In (EvBQNewClient p o (Err e)) evs ->
       res = Returns (Some (Errorf "error creating big query client: %w"
                              [ArgError (ErrLib e)]))) /\
    (forall p o e,
       In (EvMWNewClient p o (Err e)) evs ->
       res = Returns
               (Some (Errorf
                        "error creating BigQuery managed writer client: %w"
                        [ArgError (ErrLib e)]))) /\
    (forall c p d e,
       In (EvDatasetMetadata c p d (Err e)) evs ->
       res = Returns (Some (if hasStatusCode e http.StatusNotFound
                            then Errorf "dataset does not exist: %v"
                                   [ArgString (DatasetID (conf (sink w)))]
                            else Errorf "error checking dataset existence: %w"
                                   [ArgError (ErrLib e)]))) /\
    (forall c p d t e,
       In (EvTableMetadata c p d t (Err e)) evs ->
       res = Returns (Some (if hasStatusCode e http.StatusNotFound
                            then Errorf "table does not exist: %v"
                                   [ArgString (TableID (conf (sink w)))]
                            else Errorf "error checking table existence: %w"
                                   [ArgError (ErrLib e)]))) /\
    (forall mw d ty dp e,
       In (EvNewManagedStream mw d ty dp (Err e)) evs ->
       res = Returns (Some (Errorf "error creating BigQuery managed stream: %w"
                              [ArgError (ErrLib e)])))).
  { destruct Hd; connect_events; repeat split; intros;
      match goal with Hin : In _ _ |- _ => in_cases Hin end; reflexivity. }
  destruct Hcalls as (H1 & H2 & H3 & H4 & H5).
  do 5 (split; [assumption|]).
  intros err Hres.
  destruct Hd as [e|c e|c mw e|c mw e|c mw schema md dp e Hdesc
                 |c mw schema md dp e Hdesc|c mw schema md dp ms Hdesc];
    connect_events.
  - left. eexists _, e. split; [right; by left|done].
  - left. eexists _, e. split; [do 2 right; by left|done].
  - left. eexists _, e. split; [do 3 right; by left|done].
  - left. eexists _, e. split; [do 4 right; by left|done].
  - right. exists c, schema, md, dp, e. injection Hres as <-.
    split; [do 4 right; by left|done].
  - left. eexists _, e. split; [do 5 right; by left|done].
  - discriminate.
Qed.

(** X13. [Connect] stops at the first call that fails: what follows it in
    the run is the closing of the handles opened so far and the release of
    the exclusive lock, and no further call. A run that returns nil has no
    failed call and closes nothing. *)
Theorem connect_stops_at_first_failure (w : World) :
  let evs := eventsOf (Connect R) w in
  Forall (fun ev => isCleanup ev = true) (afterFailure evs) /\
  (resultOf (Connect R) w = Returns None ->
   Forall (fun ev => failedCall ev = None /\ isClose ev = false) evs).
Proof.
  destruct (Connect_read w) as (res & g' & evs & Hd & -> & -> & _).
  cbv zeta.
  destruct Hd; connect_events; cbn [afterFailure failedCall];
    (split; [by repeat constructor|]); try discriminate.
  intros _. by repeat constructor.
Qed.

Lemma bqClientOptions_spec (g : gcpBigQueryOutput) :
  (forall j : string, ~ In (WithCredentialsJSON j) (bqClientOptions g)) /\
  (In WithoutAuthentication (bqClientOptions g) <->
   clientURL g <> EmptyString).
Proof.
  unfold bqClientOptions.
  destruct (String.eqb (clientURL g) EmptyString) eqn:Hurl.
  - apply String.eqb_eq in Hurl. split; [by intros j []|].
    split; [by intros []|done].
  - apply String.eqb_neq in Hurl. split.
    + intros j Hin. in_cases Hin.
    + split; [done|intros _; by left].
Qed.

Lemma mwClientOptions_spec (g : gcpBigQueryOutput) :
  (forall j : string,
     In (WithCredentialsJSON j) (mwClientOptions g) <->
     mwClientURL g = EmptyString /\ j = CredentialsJSON (conf g) /\
     j <> EmptyString) /\
  (In WithoutAuthentication (mwClientOptions g) <->
   mwClientURL g <> EmptyString).
Proof.
  unfold mwClientOptions.
  destruct (String.eqb (mwClientURL g) EmptyString) eqn:Hurl.
  - apply String.eqb_eq in Hurl.
    destruct (CredentialsJSON (conf g)) as [|a cred] eqn:Hcred;
      cbn [String.length Nat.ltb Nat.leb].
    + split; [|split; [by intros []|done]].
      intros j. split; [by intros []|]. intros (_ & -> & ?). done.
    + split; [|split; [intros Hin; in_cases Hin|done]].
      intros j. split.
      * intros Hin. in_cases Hin. done.
      * intros (_ & -> & _). by left.
  - apply String.eqb_neq in Hurl. split.
    + intros j. split; [intros Hin; in_cases Hin|]. by intros (? & _).
    + split; [done|intros _; by left].
Qed.

(** X14. The options of the two client creations of [Connect]. The
    metadata client is never given the configured credentials: without a
    test endpoint it is created with no option at all. The write client is
    given the credentials exactly when no test endpoint is set and the
    configured credentials are not empty. Either client is created without
    authentication exactly when its test endpoint is set. Both are created
    for the configured project. *)
Theorem connect_client_options (w : World) :
  let g := sink w in
  Forall (fun ev =>
            match ev with
            | EvBQNewClient p opts _ =>
                p = ProjectID (conf g) /\
                (forall j : string, ~ In (WithCredentialsJSON j) opts) /\
                (clientURL g = EmptyString -> opts = []) /\
                (In WithoutAuthentication opts <->
                 clientURL g <> EmptyString)
            | EvMWNewClient p opts _ =>
                p = ProjectID (conf g) /\
                (forall j : string,
                   In (WithCredentialsJSON j) opts <->
                   mwClientURL g = EmptyString /\
                   j = CredentialsJSON (conf g) /\ j <> EmptyString) /\
                (In WithoutAuthentication opts <->
                 mwClientURL g <> EmptyString)
            | _ => True
            end) (eventsOf (Connect R) w).
Proof.
  destruct (Connect_read w) as (res & g' & evs & Hd & _ & -> & _).
  cbv zeta.
  pose proof (bqClientOptions_spec (sink w)) as [Hb1 Hb2].
  pose proof (mwClientOptions_spec (sink w)) as [Hm1 Hm2].
  assert (Hb3 : clientURL (sink w) = EmptyString ->
                bqClientOptions (sink w) = []).
  { unfold bqClientOptions. by intros ->. }
  destruct Hd; connect_events;
    repeat (apply List.Forall_cons;
            [first [exact I
                   |exact (conj eq_refl (conj Hb1 (conj Hb3 Hb2)))
                   |exact (conj eq_refl (conj Hm1 Hm2))]|]);
    apply List.Forall_nil.
Qed.

(** X15. A [Connect] that returns nil closes nothing: the handles open
    before it stay open, and to them it adds the two clients and the
    stream that the sink holds from then on. Called on a sink that is
    connected already, it leaves the clients and the stream of the earlier
    session open and out of reach. *)
Theorem connect_leaves_old_handles_open (w : World) :
  resultOf (Connect R) w = Returns None ->
  let evs := eventsOf (Connect R) w in
  let g' := sinkAfter (Connect R) w in
  Forall (fun ev => isClose ev = false) evs /\
  exists (c : Client) (mw : MWClient) (ms : ManagedStream),
    client g' = Some c /\ mwClient g' = Some mw /\
    managedStream g' = Some ms /\
    forall held : list Handle,
      openHandles held evs = held ++ [HClient c; HMWClient mw; HStream ms].
Proof.
  destruct (Connect_read w) as (res & g' & evs & Hd & -> & -> & ->).
  intros ->. cbv zeta.
  inversion Hd as [| | | | | |c mw schema md dp ms Hdesc Hg' Hevs].
  connect_events. split; [by repeat constructor|].
  exists c, mw, ms. repeat split.
  intros held. cbv [openHandles]. by rewrite <- !app_assoc.
Qed.

Lemma getDescriptor_paired (schema : Schema)
    (md : option MessageDescriptor) (dp : option DescriptorProto)
    (err : option goError) :
  getDescriptor schema = (md, dp, err) -> (md = None <-> dp = None).
Proof.
  unfold getDescriptor.
  destruct (BQSchemaToStorageTableSchema schema) as [ts|e];
    [|by intros [= <- <- _]].
  destruct (StorageSchemaToProto2Descriptor ts "root") as [d|e];
    [|by intros [= <- <- _]].
  destruct (asMessageDescriptor d) as [m|]; [|by intros [= <- <- _]].
  destruct (NormalizeDescriptor m) as [d'|e]; by intros [= <- <- _].
Qed.

(** X16. [getDescriptor] yields the message descriptor and its descriptor
    proto together or not at all, and none of them with an error. It
    yields neither of them and no error either exactly when the descriptor
    derived from the schema is not a message descriptor. *)
Theorem getDescriptor_pairs (schema : Schema) :
  let '(md, dp, err) := getDescriptor schema in
  (md = None <-> dp = None) /\
  (is_Some err -> md = None) /\
  (forall m : MessageDescriptor,
     md = Some m ->
     exists d : DescriptorProto, dp = Some d /\ NormalizeDescriptor m = Ok d) /\
  (md = None /\ err = None <->
   exists (ts : TableSchema) (d : Descriptor),
     BQSchemaToStorageTableSchema schema = Ok ts /\
     StorageSchemaToProto2Descriptor ts "root" = Ok d /\
     asMessageDescriptor d = None).
Proof.
  unfold getDescriptor.
  destruct (BQSchemaToStorageTableSchema schema) as [ts|e] eqn:Hts.
  2: { split; [done|]. split; [done|]. split; [done|].
       split; [by intros [_ ?]|by intros (? & ? & ? & _)]. }
  destruct (StorageSchemaToProto2Descriptor ts "root") as [d|e] eqn:Hd.
  2: { split; [done|]. split; [done|]. split; [done|].
       split; [by intros [_ ?]|].
       intros (? & ? & [= <-] & ? & _). congruence. }
  destruct (asMessageDescriptor d) as [m|] eqn:Hm.
  2: { split; [done|]. split; [done|]. split; [done|].
       split; [intros _; by exists ts, d|done]. }
  destruct (NormalizeDescriptor m) as [dp|e] eqn:Hn.
  - split; [done|]. split; [by intros [? ?]|].
    split; [intros m' [= <-]; by exists dp|].
    split; [by intros [? _]|].
    intros (? & ? & [= <-] & ? & ?). congruence.
  - split; [done|]. split; [done|]. split; [done|].
    split; [by intros [_ ?]|].
    intros (? & ? & [= <-] & ? & ?). congruence.
Qed.

(** X17. A [Connect] that returns nil has made exactly five calls, in this
    order and each answered without an error: it created the metadata
    client and the write client, looked up the configured dataset and the
    configured table through the new metadata client, and asked the new
    write client for a default stream on the configured table; then it
    stored the two clients, the stream and the descriptors, and released
    the lock. The descriptors cached are what [getDescriptor] derives,
    without an error, from the schema that the table lookup returned; they
    are both set or both nil; and the stream was created with the
    descriptor proto that is cached. *)
Theorem successful_connect_script (w : World) :
  resultOf (Connect R) w = Returns None ->
  let g := sink w in
  let g' := sinkAfter (Connect R) w in
  (messageDescriptor g' = None <-> descriptorProto g' = None) /\
  exists (c : Client) (mw : MWClient) (schema : Schema) (ms : ManagedStream),
    client g' = Some c /\ mwClient g' = Some mw /\
    managedStream g' = Some ms /\
    getDescriptor schema =
      (messageDescriptor g', descriptorProto g', None) /\
    eventsOf (Connect R) w =
      [EvLock;
       EvBQNewClient (ProjectID (conf g)) (bqClientOptions g) (Ok c);
       EvMWNewClient (ProjectID (conf g)) (mwClientOptions g) (Ok mw);
       EvDatasetMetadata c (ProjectID (conf g)) (DatasetID (conf g)) (Ok tt);
       EvTableMetadata c (ProjectID (conf g)) (DatasetID (conf g))
         (TableID (conf g)) (Ok schema);
       EvNewManagedStream mw (destinationTable g)
         managedwriter.DefaultStream (descriptorProto g') (Ok ms);
       EvStore Fclient; EvStore FmwClient; EvStore FmanagedStream;
       EvStore FmessageDescriptor; EvStore FdescriptorProto; EvUnlock].
Proof.
  destruct (Connect_read w) as (res & g' & evs & Hd & -> & -> & ->).
  intros ->. cbv zeta.
  inversion Hd as [| | | | | |c mw schema md dp ms Hdesc Hg' Hevs].
  connect_events.
  cbn [client mwClient messageDescriptor descriptorProto managedStream
       set_descriptorProto set_messageDescriptor set_managedStream
       set_mwClient set_client].
  split; [by eapply getDescriptor_paired|].
  by exists c, mw, schema, ms.
Qed.

(** ** Close *)

Lemma Close_run (w : World) :
  exists g' : gcpBigQueryOutput,
    Close w =
      (Returns None,
       {| sink := g'; trace := trace w ++ closeEvents (sink w) |}) /\
    set_client None (set_managedStream None g') =
      set_client None (set_managedStream None (sink w)) /\
    client g' = None /\ managedStream g' = None /\
    mwClient g' = mwClient (sink w).
Proof.
  destruct (Close w) as [res w'] eqn:Hrun.
  destruct w as [g t]. cbn [sink trace].
  unfold Close in Hrun.
  cbv [bind emit load ret store store_client store_managedStream
       fst snd sink trace] in Hrun.
  unfold closeEvents.
  destruct (client g) as [c|] eqn:Hc; connect_exec Hrun;
    unfold set_client in Hrun; connect_exec Hrun;
    destruct (mwClient g) as [mw|] eqn:Hmw; connect_exec Hrun;
    unfold set_client in Hrun; connect_exec Hrun;
    destruct (managedStream g) as [ms|] eqn:Hms; connect_exec Hrun;
    rewrite <- ?app_assoc in Hrun; cbn [app] in Hrun;
    injection Hrun as <- <-;
    (eexists; split; [reflexivity|]);
    unfold set_client, set_managedStream;
    cbn [sink conf clientURL mwClientURL client mwClient managedStream
         messageDescriptor descriptorProto umo];
    rewrite ?Hc, ?Hmw, ?Hms; done.
Qed.

Lemma closeEvents_facts (g : gcpBigQueryOutput) :
  exclusiveLocks (closeEvents g) = 1%nat /\
  last (closeEvents g) = Some EvUnlock /\
  storesGuarded false (closeEvents g) = true /\
  openHandles (heldHandles g) (closeEvents g) = [] /\
  Forall (fun ev => isLocalEvent ev = false) (closeEvents g).
Proof.
  unfold closeEvents, heldHandles.
  destruct (client g), (mwClient g), (managedStream g);
    cbv [app exclusiveLocks isLock storesGuarded andb openHandles last];
    rewrite ?closed_handle; rewrite ?kept_handle by done;
    rewrite ?closed_handle; rewrite ?kept_handle by done;
    rewrite ?closed_handle; rewrite ?filter_nil;
    repeat split; by repeat constructor.
Qed.

(** X18. [Close], whatever the sink holds: it returns nil; it takes the
    exclusive lock once, stores only while it holds it and releases it
    last; it closes every handle the sink holds; it leaves the sink
    without metadata client and without stream, with its configuration,
    unmarshal options and cached descriptors as they were; and every batch
    write after it finds the sink not connected. *)
Theorem close_releases_everything (batch : MessageBatch) (w : World) :
  let evs := eventsOf Close w in
  let g' := sinkAfter Close w in
  resultOf Close w = Returns None /\
  exclusiveLocks evs = 1%nat /\
  last evs = Some EvUnlock /\
  storesGuarded false evs = true /\
  openHandles (heldHandles (sink w)) evs = [] /\
  client g' = None /\ managedStream g' = None /\
  conf g' = conf (sink w) /\ umo g' = umo (sink w) /\
  messageDescriptor g' = messageDescriptor (sink w) /\
  descriptorProto g' = descriptorProto (sink w) /\
  resultOf (WriteBatch R batch) (snd (Close w)) =
    Returns (Some ErrNotConnected).
Proof.
  destruct (Close_run w) as (g' & Hrun & Hk & Hc & Hms & _).
  destruct (read_run _ _ _ _ _ Hrun) as (-> & -> & ->). cbv zeta.
  destruct (closeEvents_facts (sink w)) as (HL & Hlast & HG & HO & _).
  pose proof (f_equal conf Hk) as Hcf. pose proof (f_equal umo Hk) as Humo.
  pose proof (f_equal messageDescriptor Hk) as Hmd.
  pose proof (f_equal descriptorProto Hk) as Hdp.
  cbn [conf umo messageDescriptor descriptorProto set_client
       set_managedStream] in Hcf, Humo, Hmd, Hdp.
  do 11 (split; [done|]).
  rewrite Hrun. unfold resultOf, WriteBatch. cbn [snd].
  rewrite writeBatchWithRetry_unfold. by rewrite body_not_connected.
Qed.

(** X19. A [reconnect] on the sink that [Close] has left never returns nil:
    it panics or returns the error of the stream creation. When the sink
    held a write client, [Close] has closed it and the reconnect still
    asks that client for the new stream; it panics exactly when the sink
    held no write client or that creation succeeded. *)
Theorem reconnect_after_close_never_succeeds (w : World) :
  let w1 := snd (Close w) in
  let res := resultOf (reconnect R) w1 in
  let evs := eventsOf (reconnect R) w1 in
  (res = Panics \/ exists e : error, res = Returns (Some e)) /\
  (res = Panics <->
   mwClient (sink w) = None \/
   exists (mw : MWClient) (d : string) (ty : managedwriter.StreamType)
          (dp : option DescriptorProto) (ms : ManagedStream),
     In (EvNewManagedStream mw d ty dp (Ok ms)) evs) /\
  (forall mw : MWClient,
     mwClient (sink w) = Some mw ->
     In (EvMWClientClose mw) (eventsOf Close w) /\
     exists r : Result ManagedStream,
       In (EvNewManagedStream mw (destinationTable (sink w))
             managedwriter.DefaultStream (descriptorProto (sink w)) r) evs).
Proof.
  destruct (Close_run w) as (g' & Hrun & Hk & Hc & Hms & Hmw).
  destruct (read_run _ _ _ _ _ Hrun) as (_ & Hcev & _).
  rewrite Hcev, Hrun. cbn [snd]. clear Hcev Hrun.
  set (w1 := {| sink := g'; trace := trace w ++ closeEvents (sink w) |}).
  pose proof (f_equal conf Hk) as Hcf.
  pose proof (f_equal descriptorProto Hk) as Hdp.
  cbn [conf descriptorProto set_client set_managedStream] in Hcf, Hdp.
  destruct (reconnect_read w1) as (res & g2 & evs & Hd & -> & -> & _).
  cbv zeta. cbn [sink w1] in Hd.
  assert (Hdest : destinationTable g' = destinationTable (sink w)).
  { unfold destinationTable. by rewrite Hcf. }
  destruct Hd as [Hmw'|mw e Hmw'|mw ms Hmw' Hc'|mw ms c Hmw' Hc'];
    [| | |congruence].
  - split; [by left|]. split; [split; [left; congruence|done]|].
    intros mw Hmw0. congruence.
  - split; [right; by eexists|]. split.
    { split; [done|]. intros [Hn|(mw' & d & ty & dp & ms & Hin)];
        [congruence|].
      unfold reconnectEvents, reconnectPrefix in Hin. rewrite Hms in Hin.
      in_cases Hin. }
    intros mw0 Hmw0. assert (mw0 = mw) as -> by congruence.
    split.
    { unfold closeEvents. rewrite Hmw0. rewrite !in_app_iff.
      right. right. left. by left. }
    exists (Err e). rewrite <- Hdest, <- Hdp.
    unfold reconnectEvents. rewrite !in_app_iff. right. left. by left.
  - split; [by left|]. split.
    { split; [|done]. intros _. right.
      exists mw, (destinationTable g'), managedwriter.DefaultStream,
        (descriptorProto g'), ms.
      unfold reconnectEvents. rewrite !in_app_iff. right. left. by left. }
    intros mw0 Hmw0. assert (mw0 = mw) as -> by congruence.
    split.
    { unfold closeEvents. rewrite Hmw0. rewrite !in_app_iff.
      right. right. left. by left. }
    exists (Ok ms). rewrite <- Hdest, <- Hdp.
    unfold reconnectEvents. rewrite !in_app_iff. right. left. by left.
Qed.

(** ** Calls in a row *)

Lemma sessionInvariant_Connect (gconf : gcpBigQueryOutputConfig)
    (g : gcpBigQueryOutput) (res : Outcome (option error))
    (g' : gcpBigQueryOutput) (evs : list Event) :
  ConnectRun g res g' evs ->
  sessionInvariant gconf g ->
  sessionInvariant gconf g' /\ exists r : option error, res = Returns r.
Proof.
  intros Hd Hinv. destruct Hd; try (split; [exact Hinv|by eexists]).
  split; [|by eexists].
  destruct Hinv as (Hconf & Hap & Hdu & _ & _).
  unfold sessionInvariant, installed.
  cbn [conf umo client mwClient managedStream messageDescriptor
       descriptorProto set_descriptorProto set_messageDescriptor
       set_managedStream set_mwClient set_client].
  do 3 (split; [done|]). split; [intros _; split; by eexists|].
  by eapply getDescriptor_paired.
Qed.

Lemma sessionInvariant_WriteRun (gconf : gcpBigQueryOutputConfig)
    (batch : MessageBatch) (rc : Z) (g : gcpBigQueryOutput) (h : list Event)
    (res : Outcome (option error)) (g' : gcpBigQueryOutput)
    (evs : list Event) :
  WriteRun R batch rc g h res g' evs ->
  sessionInvariant gconf g ->
  sessionInvariant gconf g' /\ exists r : option error, res = Returns r.
Proof.
  intros Hd (Hconf & Hap & Hdu & Hheld & Hpair).
  destruct (same_session _ _ batch (WriteRun_fields _ _ _ _ _ _ _ Hd))
    as (_ & Hc & Hmw & Hcf & Hdp & Hmd & Humo).
  destruct (WriteRun_safe _ _ _ _ _ _ _ Hd) as (_ & Hstream & Hsafe).
  split; [|by apply Hsafe].
  unfold sessionInvariant. rewrite Hc, Hmw, Hcf, Hdp, Hmd, Humo.
  do 3 (split; [done|]). split; [|done].
  intros Hms. by apply Hheld, Hstream.
Qed.

Lemma sessionInvariant_Close (gconf : gcpBigQueryOutputConfig) (w : World) :
  sessionInvariant gconf (sink w) ->
  sessionInvariant gconf (sink (snd (Close w))) /\
  fst (Close w) = Returns None.
Proof.
  intros (Hconf & Hap & Hdu & Hheld & Hpair).
  destruct (Close_run w) as (g' & Hrun & Hk & Hc & Hms & _).
  rewrite Hrun. cbn [fst snd sink].
  pose proof (f_equal conf Hk) as Hcf. pose proof (f_equal umo Hk) as Humo.
  pose proof (f_equal messageDescriptor Hk) as Hmd.
  pose proof (f_equal descriptorProto Hk) as Hdp.
  cbn [conf umo messageDescriptor descriptorProto set_client
       set_managedStream] in Hcf, Humo, Hmd, Hdp.
  split; [|done].
  unfold sessionInvariant. rewrite Hcf, Humo, Hmd, Hdp, Hms.
  do 3 (split; [done|]). split; [|done].
  by intros [? ?].
Qed.

Lemma calls_keep_invariant (gconf : gcpBigQueryOutputConfig)
    (cs : list Call) :
  forall w : World,
    sessionInvariant gconf (sink w) ->
    exists w' : World,
      calls R cs w = (Returns tt, w') /\ sessionInvariant gconf (sink w').
Proof.
  induction cs as [|c cs IH]; intros w Hinv; [by exists w|].
  cbn [calls]. unfold bind.
  assert (Hstep : exists (r : option error) (w1 : World),
            call R c w = (Returns r, w1) /\ sessionInvariant gconf (sink w1)).
  { destruct c as [|batch|]; cbn [call].
    - destruct (Connect_run w) as (res & g' & evs & Hrun & Hd).
      destruct (sessionInvariant_Connect gconf _ _ _ _ Hd Hinv)
        as (Hinv' & r & ->).
      by eexists _, _.
    - destruct (WriteBatch_read batch w) as (res & g' & evs & Hrun & Hd & _).
      destruct (sessionInvariant_WriteRun gconf _ _ _ _ _ _ _ Hd Hinv)
        as (Hinv' & r & ->).
      by eexists _, _.
    - destruct (sessionInvariant_Close gconf w Hinv) as (Hinv' & Hres).
      exists None, (snd (Close w)). split; [|done].
      by destruct (Close w) as [res w1]; cbn [fst snd] in *; subst. }
  destruct Hstep as (r & w1 & -> & Hinv1). by apply IH.
Qed.

(** X20. From the sink that [newGCPBigQueryOutput] builds, calls of
    [Connect], [WriteBatch] and [Close] made one after the other, in any
    order and number and whatever they return, never panic: the nil
    dereferences of [reconnect] are out of reach. Between the calls the
    configuration and the unmarshal options are those the sink was built
    with, a sink that holds a stream holds both clients, and the message
    descriptor and the descriptor proto are both cached or both nil. *)
Theorem calls_never_panic (gconf : gcpBigQueryOutputConfig)
    (g : gcpBigQueryOutput) (cs : list Call) (t : list Event) :
  newGCPBigQueryOutput gconf = Ok g ->
  let w := {| sink := g; trace := t |} in
  resultOf (calls R cs) w = Returns tt /\
  sessionInvariant gconf (sinkAfter (calls R cs) w).
Proof.
  intros [= <-] w.
  destruct (calls_keep_invariant gconf cs w) as (w' & Hrun & Hinv).
  { unfold w, sessionInvariant. cbn. repeat split; try done; by intros [? ?]. }
  unfold resultOf, sinkAfter. by rewrite Hrun.
Qed.

(** ** Construction *)

Lemma config_flags {BatchPolicy : Type} (pconf : ParsedConfig BatchPolicy)
    (gconf : gcpBigQueryOutputConfig) :
  gcpBigQueryOutputConfigFromParsed pconf = Ok gconf ->
  FieldBool pconf "allow_partial" = Ok (AllowPartial gconf) /\
  FieldBool pconf "discard_unknown" = Ok (DiscardUnknown gconf).
Proof.
  unfold gcpBigQueryOutputConfigFromParsed.
  destruct (FieldString pconf "project"); [|done].
  destruct (FieldString pconf "dataset"); [|done].
  destruct (FieldString pconf "table"); [|done].
  destruct (FieldBool pconf "allow_partial"); [|done].
  destruct (FieldBool pconf "discard_unknown"); [|done].
  destruct (FieldString pconf "credentials_json"); [|done].
  by intros [= <-].
Qed.

(** X21. The configuration that [gcpBigQueryOutputConfigFromParsed] returns
    never has an empty project id: an empty [project] field is replaced by
    the sentinel that makes the client library detect the project. The
    other five fields are passed on as they were read, an empty dataset or
    table id included. When the function fails, its error is that of the
    read of one of its six fields. *)
Theorem config_from_parsed {BatchPolicy : Type}
    (pconf : ParsedConfig BatchPolicy) :
  match gcpBigQueryOutputConfigFromParsed pconf with
  | Ok gconf =>
      ProjectID gconf <> EmptyString /\
      (exists project : string,
         FieldString pconf "project" = Ok project /\
         ProjectID gconf =
           if String.eqb project EmptyString then bigquery.DetectProjectID
           else project) /\
      FieldString pconf "dataset" = Ok (DatasetID gconf) /\
      FieldString pconf "table" = Ok (TableID gconf) /\
      FieldBool pconf "allow_partial" = Ok (AllowPartial gconf) /\
      FieldBool pconf "discard_unknown" = Ok (DiscardUnknown gconf) /\
      FieldString pconf "credentials_json" = Ok (CredentialsJSON gconf)
  | Err e =>
      (exists name : string,
         In name ["project"; "dataset"; "table"; "credentials_json"] /\
         FieldString pconf name = Err e) \/
      (exists name : string,
         In name ["allow_partial"; "discard_unknown"] /\
         FieldBool pconf name = Err e)
  end.
Proof.
  unfold gcpBigQueryOutputConfigFromParsed.
  destruct (FieldString pconf "project") as [project|e] eqn:Hp;
    [|left; exists "project"; split; [by left|done]].
  destruct (FieldString pconf "dataset") as [dataset|e] eqn:Hd;
    [|left; exists "dataset"; split; [right; by left|done]].
  destruct (FieldString pconf "table") as [table|e] eqn:Ht;
    [|left; exists "table"; split; [do 2 right; by left|done]].
  destruct (FieldBool pconf "allow_partial") as [allowPartial|e] eqn:Ha;
    [|right; exists "allow_partial"; split; [by left|done]].
  destruct (FieldBool pconf "discard_unknown") as [discardUnknown|e] eqn:Hu;
    [|right; exists "discard_unknown"; split; [right; by left|done]].
  destruct (FieldString pconf "credentials_json") as [credentialsJSON|e]
    eqn:Hc;
    [|left; exists "credentials_json"; split; [do 3 right; by left|done]].
  cbn [ProjectID DatasetID TableID AllowPartial DiscardUnknown
       CredentialsJSON].
  split.
  { destruct (String.eqb project EmptyString) eqn:He; [done|].
    by apply String.eqb_neq. }
  split; [by exists project|done].
Qed.

(** X22. The constructor registered by [init] fails only with the error of
    a field it could not read (the batching policy, the number of batches
    in flight, or one of the six fields of the sink). The sink it builds
    carries the parsed configuration, unmarshals with the configured
    [allow_partial] and [discard_unknown], holds no handle, and answers
    every batch write with the not-connected error until [Connect] is
    called. *)
Theorem constructor_builds_unconnected_sink {BatchPolicy : Type}
    (pconf : ParsedConfig BatchPolicy) :
  match init_constructor pconf with
  | Ok (g, batchPol, maxInFlight) =>
      FieldBatchPolicy pconf "batching" = Ok batchPol /\
      FieldInt pconf "max_in_flight" = Ok maxInFlight /\
      gcpBigQueryOutputConfigFromParsed pconf = Ok (conf g) /\
      FieldBool pconf "allow_partial" =
        Ok (protojson.AllowPartial (umo g)) /\
      FieldBool pconf "discard_unknown" =
        Ok (protojson.DiscardUnknown (umo g)) /\
      heldHandles g = [] /\
      forall (batch : MessageBatch) (t : list Event),
        resultOf (WriteBatch R batch) {| sink := g; trace := t |} =
          Returns (Some ErrNotConnected)
  | Err e =>
      FieldBatchPolicy pconf "batching" = Err e \/
      FieldInt pconf "max_in_flight" = Err e \/
      gcpBigQueryOutputConfigFromParsed pconf = Err e
  end.
Proof.
  unfold init_constructor.
  destruct (FieldBatchPolicy pconf "batching") as [batchPol|e]; [|by left].
  destruct (FieldInt pconf "max_in_flight") as [maxInFlight|e];
    [|right; by left].
  destruct (gcpBigQueryOutputConfigFromParsed pconf) as [gconf|e] eqn:Hcfg;
    [|by do 2 right].
  destruct (config_flags pconf gconf Hcfg) as (Ha & Hu).
  cbn [newGCPBigQueryOutput conf umo protojson.AllowPartial
       protojson.DiscardUnknown].
  do 6 (split; [done|]).
  intros batch t. unfold resultOf, WriteBatch.
  rewrite writeBatchWithRetry_unfold. by rewrite body_not_connected.
Qed.

End Lifecycle.

(** ** Runs that witness the hypotheses of the life cycle *)

Lemma failed_reconnect_disconnects_witness :
  connected (sink (startAt connectedSink)) /\
  resultOf
    (WriteBatch (scriptedRemote [AppendFails abortedError]
                   [Err unavailableError]) [goodMessage])
    (startAt connectedSink) =
    Returns (Some (reconnectFailure unavailableError)) /\
  managedStream
    (sinkAfter
       (WriteBatch (scriptedRemote [AppendFails abortedError]
                      [Err unavailableError]) [goodMessage])
       (startAt connectedSink)) = None /\
  resultOf
    (WriteBatch (scriptedRemote [AppendFails abortedError]
                   [Err unavailableError]) [goodMessage])
    (snd (WriteBatch (scriptedRemote [AppendFails abortedError]
                        [Err unavailableError]) [goodMessage]
            (startAt connectedSink))) =
    Returns (Some ErrNotConnected).
Proof.
  assert (Hc : connected (sink (startAt connectedSink))).
  { repeat split; eexists; reflexivity. }
  split; [exact Hc|].
  destruct (failed_reconnect_disconnects
              (scriptedRemote [AppendFails abortedError]
                 [Err unavailableError])
              [goodMessage] [goodMessage] (startAt connectedSink) Hc)
    as (_ & Hiff & _ & Hnext).
  assert (Hres : resultOf
            (WriteBatch (scriptedRemote [AppendFails abortedError]
                           [Err unavailableError]) [goodMessage])
            (startAt connectedSink) =
            Returns (Some (reconnectFailure unavailableError))).
  { vm_compute. reflexivity. }
  split; [exact Hres|].
  assert (Hnone : managedStream
            (sinkAfter
               (WriteBatch (scriptedRemote [AppendFails abortedError]
                              [Err unavailableError]) [goodMessage])
               (startAt connectedSink)) = None).
  { apply Hiff. exists unavailableError. exact Hres. }
  split; [exact Hnone|exact (Hnext Hnone)].
Defined.

Lemma connect_leaves_old_handles_open_witness :
  resultOf (Connect (scriptedRemote [] [])) (startAt connectedSink) =
    Returns None /\
  openHandles (heldHandles connectedSink)
    (eventsOf (Connect (scriptedRemote [] [])) (startAt connectedSink)) =
  [HClient (BQClient 1); HMWClient (MWriterClient 2); HStream (Stream 3);
   HClient (BQClient 1); HMWClient (MWriterClient 2); HStream (Stream 10)].
Proof.
  assert (Hok : resultOf (Connect (scriptedRemote [] []))
                  (startAt connectedSink) = Returns None).
  { vm_compute. reflexivity. }
  split; [exact Hok|].
  destruct (connect_leaves_old_handles_open (scriptedRemote [] [])
              (startAt connectedSink) Hok)
    as (_ & c & mw & ms & Hc & Hmw & Hms & Hopen).
  rewrite Hopen.
  assert (c = BQClient 1) as -> by (vm_compute in Hc; congruence).
  assert (mw = MWriterClient 2) as -> by (vm_compute in Hmw; congruence).
  assert (ms = Stream 10) as -> by (vm_compute in Hms; congruence).
  reflexivity.
Defined.

Lemma successful_connect_script_witness :
  resultOf (Connect (scriptedRemote [] [])) (startAt newSink) =
    Returns None /\
  sinkAfter (Connect (scriptedRemote [] [])) (startAt newSink) =
    @Build_gcpBigQueryOutput toyLibraries toyConf EmptyString EmptyString
      (Some (BQClient 1)) (Some (MWriterClient 2)) (Some (Stream 10))
      (Some toyDescriptor) (Some toyDescriptor)
      {| protojson.AllowPartial := true; protojson.DiscardUnknown := true |} /\
  (messageDescriptor
     (sinkAfter (Connect (scriptedRemote [] [])) (startAt newSink)) = None <->
   descriptorProto
     (sinkAfter (Connect (scriptedRemote [] [])) (startAt newSink)) = None).
Proof.
  assert (Hok : resultOf (Connect (scriptedRemote [] []))
                  (startAt newSink) = Returns None).
  { vm_compute. reflexivity. }
  split; [exact Hok|]. split; [vm_compute; reflexivity|].
  destruct (successful_connect_script (scriptedRemote [] [])
              (startAt newSink) Hok) as (Hpair & _).
  exact Hpair.
Defined.

Lemma calls_never_panic_witness :
  newGCPBigQueryOutput toyConf = Ok newSink /\
  resultOf
    (calls (scriptedRemote [AppendFails abortedError] [])
       [CallWriteBatch [goodMessage]; CallConnect;
        CallWriteBatch [goodMessage; badMessage]; CallClose; CallClose;
        CallWriteBatch [goodMessage]])
    (startAt newSink) = Returns tt /\
  sessionInvariant toyConf
    (sinkAfter
       (calls (scriptedRemote [AppendFails abortedError] [])
          [CallWriteBatch [goodMessage]; CallConnect;
           CallWriteBatch [goodMessage; badMessage]; CallClose; CallClose;
           CallWriteBatch [goodMessage]])
       (startAt newSink)).
Proof.
  split; [reflexivity|].
  exact (calls_never_panic (scriptedRemote [AppendFails abortedError] [])
           toyConf newSink
           [CallWriteBatch [goodMessage]; CallConnect;
            CallWriteBatch [goodMessage; badMessage]; CallClose; CallClose;
            CallWriteBatch [goodMessage]]
           [] eq_refl).
Defined.
